(** * AI-Health service: a shallow embedding of the care-plan generator, the
    text-extraction adapter and the HTTP routes that wrap them.

    A Python [str] is modelled as a Stdlib [string] holding its UTF-8
    encoding (a lone surrogate as the ["surrogatepass"] handler encodes it),
    and [bytes] as the [string] of its bytes; [len] and slicing of a [str]
    count code points ([Py.str_len], [Py.str_take]), and [strip] and
    [split()] use Python's whitespace characters.  Case mapping, [isdigit]
    and the regex classes are their ASCII versions, which agree with Python
    on ASCII text.  Parsed JSON documents as the inductive [json] below, with the
    key/value pairs of an object in document order.  External services (Bedrock,
    Textract, Comprehend Medical, S3) are inputs: their replies are arguments
    of the functions that call them. *)

From Stdlib Require Import String Ascii List Bool ZArith Lia DecimalString.
Import ListNotations.
Open Scope string_scope.
Open Scope list_scope.
Set Warnings "-register-all -abstract-large-number".

(** ** Python string helpers *)
Module Py.

(** [needle in hay] for Python strings. *)
Fixpoint contains (needle hay : string) : bool :=
  if String.prefix needle hay then true
  else match hay with
       | EmptyString => false
       | String _ rest => contains needle rest
       end.

Definition is_upper (c : ascii) : bool :=
  let n := nat_of_ascii c in Nat.leb 65 n && Nat.leb n 90.
Definition is_lower (c : ascii) : bool :=
  let n := nat_of_ascii c in Nat.leb 97 n && Nat.leb n 122.
Definition is_digit (c : ascii) : bool :=
  let n := nat_of_ascii c in Nat.leb 48 n && Nat.leb n 57.
(** [str.isspace] on ASCII: space, \t \n \x0b \x0c \r and \x1c..\x1f. *)
Definition is_space (c : ascii) : bool :=
  let n := nat_of_ascii c in
  Nat.eqb n 32 || (Nat.leb 9 n && Nat.leb n 13) || (Nat.leb 28 n && Nat.leb n 31).
Definition is_word (c : ascii) : bool :=
  is_upper c || is_lower c || is_digit c || Nat.eqb (nat_of_ascii c) 95.

Definition lower_char (c : ascii) : ascii :=
  if is_upper c then ascii_of_nat (nat_of_ascii c + 32) else c.
Definition upper_char (c : ascii) : ascii :=
  if is_lower c then ascii_of_nat (nat_of_ascii c - 32) else c.

Fixpoint map_str (f : ascii -> ascii) (s : string) : string :=
  match s with
  | EmptyString => EmptyString
  | String c r => String (f c) (map_str f r)
  end.

(** [str.lower] and [str.upper]. *)
Definition lower (s : string) : string := map_str lower_char s.
Definition upper (s : string) : string := map_str upper_char s.

Definition rev_str (s : string) : string :=
  string_of_list_ascii (rev (list_ascii_of_string s)).

Definition startswith (s pre : string) : bool := String.prefix pre s.
Definition endswith (s suf : string) : bool := String.prefix (rev_str suf) (rev_str s).

(** [any(ch.isdigit() for ch in s)]. *)
Fixpoint any_digit (s : string) : bool :=
  match s with
  | EmptyString => false
  | String c r => is_digit c || any_digit r
  end.

(** [s.isdigit()]: non-empty and all digits. *)
Fixpoint all_digits (s : string) : bool :=
  match s with
  | EmptyString => true
  | String c r => is_digit c && all_digits r
  end.
Definition isdigit (s : string) : bool :=
  match s with EmptyString => false | _ => all_digits s end.

(** [s.split(sep, 1)] for a one-character separator: [None] when [sep] does not
    occur (a one-element list), otherwise the text before and after it. *)
Fixpoint split1 (sep : ascii) (s : string) : option (string * string) :=
  match s with
  | EmptyString => None
  | String c r =>
      if Ascii.eqb c sep then Some (EmptyString, r)
      else match split1 sep r with
           | Some (a, b) => Some (String c a, b)
           | None => None
           end
  end.

(** [s.split(sep)] for a one-character separator. *)
Fixpoint split_all_aux (sep : ascii) (s : string) (cur : string) : list string :=
  match s with
  | EmptyString => [cur]
  | String c r =>
      if Ascii.eqb c sep then cur :: split_all_aux sep r EmptyString
      else split_all_aux sep r (cur ++ String c EmptyString)
  end.
Definition split_on (sep : ascii) (s : string) : list string := split_all_aux sep s EmptyString.

(** [s[:n]] on a text of one-byte characters. *)
Definition take (n : nat) (s : string) : string := substring 0 n s.

(** *** Characters of a [str]

    A [str] is kept as its UTF-8 encoding, a lone surrogate encoded as
    Python's ["surrogatepass"] handler writes it.  [chars] cuts the encoding
    into the bytes of its characters: a lead byte and the continuation bytes
    (10xxxxxx) it announces. *)
Definition is_cont (c : ascii) : bool :=
  let n := nat_of_ascii c in Nat.leb 128 n && Nat.ltb n 192.

Fixpoint chars (l : list ascii) : list (list ascii) :=
  match l with
  | [] => []
  | b :: r =>
      let n := nat_of_ascii b in
      if Nat.ltb n 192 then [b] :: chars r
      else if Nat.ltb n 224 then
        match r with
        | c1 :: r1 => if is_cont c1 then [b; c1] :: chars r1 else [b] :: chars r
        | [] => [[b]]
        end
      else if Nat.ltb n 240 then
        match r with
        | c1 :: c2 :: r2 => if is_cont c1 && is_cont c2 then [b; c1; c2] :: chars r2 else [b] :: chars r
        | _ => [b] :: chars r
        end
      else
        match r with
        | c1 :: c2 :: c3 :: r3 =>
            if is_cont c1 && is_cont c2 && is_cont c3 then [b; c1; c2; c3] :: chars r3
            else [b] :: chars r
        | _ => [b] :: chars r
        end
  end.

Definition byte (c : ascii) : Z := Z.of_nat (nat_of_ascii c).

(** The code point of one character's bytes. *)
Definition code_point_of (bs : list ascii) : Z :=
  match bs with
  | [b; c1] => ((byte b - 192) * 64 + (byte c1 - 128))%Z
  | [b; c1; c2] => (((byte b - 224) * 64 + (byte c1 - 128)) * 64 + (byte c2 - 128))%Z
  | [b; c1; c2; c3] =>
      ((((byte b - 240) * 64 + (byte c1 - 128)) * 64 + (byte c2 - 128)) * 64 + (byte c3 - 128))%Z
  | b :: _ => byte b
  | [] => 0%Z
  end.

(** The code points of a [str]. *)
Definition code_points (s : string) : list Z := map code_point_of (chars (list_ascii_of_string s)).

(** [len(s)] of a [str] *)
Definition str_len (s : string) : nat := length (chars (list_ascii_of_string s)).

(** [s[:n]] of a [str] *)
Definition str_take (n : nat) (s : string) : string :=
  string_of_list_ascii (concat (firstn n (chars (list_ascii_of_string s)))).

(** The UTF-8 bytes of a code point (surrogates included). *)
Definition utf8_of_code_point (v : Z) : list ascii :=
  let b k := ascii_of_nat (Z.to_nat k) in
  if (v <? 128)%Z then [b v]
  else if (v <? 2048)%Z then [b (192 + v / 64); b (128 + v mod 64)]%Z
  else if (v <? 65536)%Z then [b (224 + v / 4096); b (128 + (v / 64) mod 64); b (128 + v mod 64)]%Z
  else [b (240 + v / 262144); b (128 + (v / 4096) mod 64); b (128 + (v / 64) mod 64);
        b (128 + v mod 64)]%Z.

(** [ch.isspace()] for one character: the ASCII spaces above, and U+0085,
    U+00A0, U+1680, U+2000..U+200A, U+2028, U+2029, U+202F, U+205F, U+3000. *)
Definition is_space_char (ch : list ascii) : bool :=
  match ch with
  | [c] => is_space c
  | _ => existsb (Z.eqb (code_point_of ch))
           [133; 160; 5760; 8192; 8193; 8194; 8195; 8196; 8197; 8198; 8199; 8200; 8201; 8202;
            8232; 8233; 8239; 8287; 12288]%Z
  end.

Fixpoint drop_spaces (cs : list (list ascii)) : list (list ascii) :=
  match cs with
  | ch :: r => if is_space_char ch then drop_spaces r else cs
  | [] => []
  end.

(** [str.strip()] with no argument. *)
Definition strip (s : string) : string :=
  string_of_list_ascii (concat (rev (drop_spaces (rev (drop_spaces (chars (list_ascii_of_string s))))))).

(** [s.split()] with no argument: runs of whitespace separate, empty words dropped. *)
Fixpoint words_aux (cs : list (list ascii)) (cur : list ascii) : list string :=
  match cs with
  | [] => match cur with [] => [] | _ => [string_of_list_ascii cur] end
  | ch :: r =>
      if is_space_char ch then
        match cur with [] => words_aux r [] | _ => string_of_list_ascii cur :: words_aux r [] end
      else words_aux r (cur ++ ch)
  end.
Definition words (s : string) : list string := words_aux (chars (list_ascii_of_string s)) [].

End Py.

(** ** JSON values as [json.loads] produces them *)
Inductive json : Type :=
| JNull
| JBool (b : bool)
| JNum (lit : string)
| JStr (s : string)
| JArr (items : list json)
| JObj (fields : list (string * json)).

Module Json.

(** [d[k]] on a parsed object; the last binding wins, as in a dict built by
    [json.loads]. [None] is the KeyError or TypeError Python raises. *)
Fixpoint assoc_last (k : string) (fs : list (string * json)) : option json :=
  match fs with
  | [] => None
  | (k', v) :: rest =>
      match assoc_last k rest with
      | Some w => Some w
      | None => if String.eqb k k' then Some v else None
      end
  end.

Definition getitem (j : json) (k : string) : option json :=
  match j with JObj fs => assoc_last k fs | _ => None end.

(** [x[0]] on a parsed value: a list's head, a string's first character. *)
Definition index0 (j : json) : option json :=
  match j with
  | JArr (x :: _) => Some x
  | JStr (String c _) => Some (JStr (String c EmptyString))
  | _ => None
  end.

(** [d.get(k, default)] on a dict; [None] when [d] is not a dict (AttributeError). *)
Definition get (j : json) (k : string) (default : json) : option json :=
  match j with
  | JObj fs => Some (match assoc_last k fs with Some v => v | None => default end)
  | _ => None
  end.

Definition has_key (k : string) (j : json) : bool :=
  match getitem j k with Some _ => true | None => false end.

End Json.

(** ** [json.loads]: a JSON text parsed into a [json] value, [None] standing for
    [json.JSONDecodeError].  Numbers are kept as their lexeme; Python's
    extensions [NaN], [Infinity] and [-Infinity] are accepted; control
    characters inside strings are rejected (Python's [strict=True]); a [\u]
    escape gives its code point, a high surrogate followed by an escaped low
    one the code point of the pair, and any other surrogate stays a lone
    surrogate, as in CPython's [scanstring]. *)
Module JsonParse.

Definition is_json_ws (c : ascii) : bool :=
  let n := nat_of_ascii c in Nat.eqb n 32 || Nat.eqb n 9 || Nat.eqb n 10 || Nat.eqb n 13.

Fixpoint skip_ws (s : list ascii) : list ascii :=
  match s with
  | c :: r => if is_json_ws c then skip_ws r else s
  | [] => []
  end.

Definition hex_val (c : ascii) : option nat :=
  let n := nat_of_ascii c in
  if Nat.leb 48 n && Nat.leb n 57 then Some (n - 48)
  else if Nat.leb 97 n && Nat.leb n 102 then Some (n - 87)
  else if Nat.leb 65 n && Nat.leb n 70 then Some (n - 55)
  else None.

Definition simple_escape (e : ascii) : option ascii :=
  match nat_of_ascii e with
  | 34 => Some "034"%char | 92 => Some "092"%char | 47 => Some "/"%char
  | 98 => Some "008"%char | 102 => Some "012"%char | 110 => Some "010"%char
  | 114 => Some "013"%char | 116 => Some "009"%char
  | _ => None
  end.

Definition hex4 (a b c d : nat) : Z := Z.of_nat (((a * 16 + b) * 16 + c) * 16 + d).

(** The body of a string literal, after its opening quote; the text is
    accumulated reversed, as UTF-8 bytes. *)
Fixpoint p_string (s : list ascii) (acc : list ascii) : option (string * list ascii) :=
  match s with
  | [] => None
  | c :: r =>
      if Ascii.eqb c "034"%char then Some (string_of_list_ascii (rev acc), r)
      else if Ascii.eqb c "092"%char then
        match r with
        | e :: r' =>
            match simple_escape e with
            | Some d => p_string r' (d :: acc)
            | None =>
                if Ascii.eqb e "u"%char then
                  match r' with
                  | h1 :: h2 :: h3 :: h4 :: r'' =>
                      match hex_val h1, hex_val h2, hex_val h3, hex_val h4 with
                      | Some a, Some b, Some c', Some d =>
                          let v := hex4 a b c' d in
                          let single := p_string r'' (rev (Py.utf8_of_code_point v) ++ acc) in
                          if (55296 <=? v)%Z && (v <=? 56319)%Z then
                            (* a high surrogate joins a following low one *)
                            match r'' with
                            | bs :: u :: g1 :: g2 :: g3 :: g4 :: r3 =>
                                if Ascii.eqb bs "092"%char && Ascii.eqb u "u"%char then
                                  match hex_val g1, hex_val g2, hex_val g3, hex_val g4 with
                                  | Some a2, Some b2, Some c2, Some d2 =>
                                      let w := hex4 a2 b2 c2 d2 in
                                      if (56320 <=? w)%Z && (w <=? 57343)%Z then
                                        p_string r3 (rev (Py.utf8_of_code_point
                                                            (65536 + (v - 55296) * 1024 + (w - 56320))%Z) ++ acc)
                                      else single
                                  | _, _, _, _ => None
                                  end
                                else single
                            | _ => single
                            end
                          else single
                      | _, _, _, _ => None
                      end
                  | _ => None
                  end
                else None
            end
        | [] => None
        end
      else if Nat.ltb (nat_of_ascii c) 32 then None
      else p_string r (c :: acc)
  end.

Fixpoint p_digits (s : list ascii) : list ascii * list ascii :=
  match s with
  | c :: r => if Py.is_digit c then let (d, rest) := p_digits r in (c :: d, rest) else ([], s)
  | [] => ([], [])
  end.

(** A number: optional minus, integer part (a lone 0 or digits not starting
    with 0), optional fraction, optional exponent. *)
Definition p_number (s : list ascii) : option (json * list ascii) :=
  let '(sign, s1) := match s with
                     | c :: r => if Ascii.eqb c "-"%char then ([c], r) else ([], s)
                     | [] => ([], s)
                     end in
  let '(intp, s2) := p_digits s1 in
  match intp with
  | [] => None
  | d0 :: more =>
      if Ascii.eqb d0 "0"%char && negb (Nat.eqb (length more) 0) then
        (* a leading zero ends the integer part *)
        let s2' := more ++ s2 in
        Some (JNum (string_of_list_ascii (sign ++ [d0])), s2')
      else
        let '(frac, s3) :=
          match s2 with
          | c :: r => if Ascii.eqb c "."%char then
                        match p_digits r with
                        | ([], _) => ([], s2)
                        | (ds, r') => (c :: ds, r')
                        end
                      else ([], s2)
          | [] => ([], s2)
          end in
        let '(ex, s4) :=
          match s3 with
          | c :: r => if Ascii.eqb c "e"%char || Ascii.eqb c "E"%char then
                        let '(sg, r1) := match r with
                                         | d :: r2 => if Ascii.eqb d "+"%char || Ascii.eqb d "-"%char
                                                      then ([d], r2) else ([], r)
                                         | [] => ([], r)
                                         end in
                        match p_digits r1 with
                        | ([], _) => ([], s3)
                        | (ds, r') => (c :: sg ++ ds, r')
                        end
                      else ([], s3)
          | [] => ([], s3)
          end in
        Some (JNum (string_of_list_ascii (sign ++ intp ++ frac ++ ex)), s4)
  end.

Fixpoint p_lit (lit : list ascii) (s : list ascii) : option (list ascii) :=
  match lit, s with
  | [], _ => Some s
  | c :: l, d :: r => if Ascii.eqb c d then p_lit l r else None
  | _ :: _, [] => None
  end.

Definition lit (w : string) (v : json) (s : list ascii) : option (json * list ascii) :=
  match p_lit (list_ascii_of_string w) s with Some r => Some (v, r) | None => None end.

(** A value (leading whitespace already skipped); [depth] bounds nesting,
    [width] the number of elements of one array or object. *)
Fixpoint p_value (depth : nat) (width : nat) (s : list ascii) : option (json * list ascii) :=
  match depth with
  | O => None
  | S depth' =>
      match s with
      | [] => None
      | c :: r =>
          if Ascii.eqb c "034"%char then
            match p_string r [] with Some (str, r') => Some (JStr str, r') | None => None end
          else if Ascii.eqb c "["%char then
            match skip_ws r with
            | d :: r' => if Ascii.eqb d "]"%char then Some (JArr [], r') else
                (fix elems (w : nat) (t : list ascii) (acc : list json) : option (json * list ascii) :=
                   match w with
                   | O => None
                   | S w' =>
                       match p_value depth' width (skip_ws t) with
                       | Some (v, t1) =>
                           match skip_ws t1 with
                           | e :: t2 =>
                               if Ascii.eqb e ","%char then elems w' t2 (v :: acc)
                               else if Ascii.eqb e "]"%char then Some (JArr (rev (v :: acc)), t2)
                               else None
                           | [] => None
                           end
                       | None => None
                       end
                   end) width r []
            | [] => None
            end
          else if Ascii.eqb c "{"%char then
            match skip_ws r with
            | d :: r' => if Ascii.eqb d "}"%char then Some (JObj [], r') else
                (fix members (w : nat) (t : list ascii) (acc : list (string * json))
                   : option (json * list ascii) :=
                   match w with
                   | O => None
                   | S w' =>
                       match skip_ws t with
                       | q :: t0 =>
                           if Ascii.eqb q "034"%char then
                             match p_string t0 [] with
                             | Some (k, t1) =>
                                 match skip_ws t1 with
                                 | colon :: t2 =>
                                     if Ascii.eqb colon ":"%char then
                                       match p_value depth' width (skip_ws t2) with
                                       | Some (v, t3) =>
                                           match skip_ws t3 with
                                           | e :: t4 =>
                                               if Ascii.eqb e ","%char then members w' t4 ((k, v) :: acc)
                                               else if Ascii.eqb e "}"%char
                                               then Some (JObj (rev ((k, v) :: acc)), t4)
                                               else None
                                           | [] => None
                                           end
                                       | None => None
                                       end
                                     else None
                                 | [] => None
                                 end
                             | None => None
                             end
                           else None
                       | [] => None
                       end
                   end) width r []
            | [] => None
            end
          else if Ascii.eqb c "t"%char then lit "true" (JBool true) s
          else if Ascii.eqb c "f"%char then lit "false" (JBool false) s
          else if Ascii.eqb c "n"%char then lit "null" JNull s
          else if Ascii.eqb c "N"%char then lit "NaN" (JNum "NaN") s
          else if Ascii.eqb c "I"%char then lit "Infinity" (JNum "Infinity") s
          else match lit "-Infinity" (JNum "-Infinity") s with
               | Some v => Some v
               | None => p_number s
               end
      end
  end.

End JsonParse.

(** [json.loads(text)] *)
Definition json_loads (text : string) : option json :=
  let l := list_ascii_of_string text in
  let n := S (length l) in
  match JsonParse.p_value n n (JsonParse.skip_ws l) with
  | Some (v, rest) => match JsonParse.skip_ws rest with [] => Some v | _ => None end
  | None => None
  end.

(** Texts with double quotes are written with a backquote in their place. *)
Definition dq (s : string) : string :=
  Py.map_str (fun c => if Ascii.eqb c "`"%char then "034"%char else c) s.

(** ** care_plan.py: the records and [BedrockCarePlanGenerator] *)
Module CarePlanModule.

Record PrescriptionItem := {
  medication_name : string;
  dosage : string;
  duration : string;
  instructions : option string
}.

Record PatientInfo := {
  age : Z;
  gender : string;
  weight : option string;
  medical_conditions : list string;
  allergies : list string
}.

Record DoctorPrescription := {
  patient_info : PatientInfo;
  diagnosis : string;
  prescriptions : list PrescriptionItem;
  doctor_notes : option string;
  prescription_date : string
}.

Record CarePlanSection := {
  title : string;
  content : string;
  priority : string
}.

Record CarePlan := {
  patient_summary : string;
  care_goals : list string;
  medication_management : list CarePlanSection;
  lifestyle_recommendations : list CarePlanSection;
  monitoring_schedule : list CarePlanSection;
  warning_signs : list string;
  follow_up_recommendations : list CarePlanSection;
  generated_at : string
}.

Definition obind {A B} (o : option A) (f : A -> option B) : option B :=
  match o with Some a => f a | None => None end.

(** Pydantic validation of a [str] field. *)
Definition v_str (j : json) : option string :=
  match j with JStr s => Some s | _ => None end.

Fixpoint v_list {A} (f : json -> option A) (l : list json) : option (list A) :=
  match l with
  | [] => Some []
  | x :: r => obind (f x) (fun a => obind (v_list f r) (fun rest => Some (a :: rest)))
  end.

(** [List[X]] *)
Definition v_list_of {A} (f : json -> option A) (j : json) : option (list A) :=
  match j with JArr l => v_list f l | _ => None end.

(** A required field of a model: missing or ill-typed fails validation. *)
Definition v_req {A} (fs : list (string * json)) (k : string) (f : json -> option A) : option A :=
  obind (Json.assoc_last k fs) f.

(** A field with a default. *)
Definition v_opt {A} (fs : list (string * json)) (k : string) (f : json -> option A) (d : A) : option A :=
  match Json.assoc_last k fs with Some j => f j | None => Some d end.

(** [CarePlanSection( **d)]: [priority] defaults to "medium"; other keys are ignored. *)
Definition section_of_json (j : json) : option CarePlanSection :=
  match j with
  | JObj fs =>
      obind (v_req fs "title" v_str) (fun t =>
      obind (v_req fs "content" v_str) (fun c =>
      obind (v_opt fs "priority" v_str "medium") (fun p =>
      Some {| title := t; content := c; priority := p |})))
  | _ => None
  end.

(** [CarePlan( **care_plan_data)]: [None] is the TypeError (not a mapping) or the
    pydantic ValidationError; [now] is [datetime.now().isoformat()], the
    default of [generated_at]. *)
Definition care_plan_of_json (now : string) (j : json) : option CarePlan :=
  match j with
  | JObj fs =>
      obind (v_req fs "patient_summary" v_str) (fun ps =>
      obind (v_req fs "care_goals" (v_list_of v_str)) (fun goals =>
      obind (v_req fs "medication_management" (v_list_of section_of_json)) (fun mm =>
      obind (v_req fs "lifestyle_recommendations" (v_list_of section_of_json)) (fun lr =>
      obind (v_req fs "monitoring_schedule" (v_list_of section_of_json)) (fun ms =>
      obind (v_req fs "warning_signs" (v_list_of v_str)) (fun ws =>
      obind (v_req fs "follow_up_recommendations" (v_list_of section_of_json)) (fun fu =>
      obind (v_opt fs "generated_at" v_str now) (fun ga =>
      Some {| patient_summary := ps; care_goals := goals; medication_management := mm;
              lifestyle_recommendations := lr; monitoring_schedule := ms;
              warning_signs := ws; follow_up_recommendations := fu;
              generated_at := ga |}))))))))
  | _ => None
  end.

Definition nat_to_string (n : nat) : string :=
  NilEmpty.string_of_uint (Nat.to_uint n).

(** [_create_fallback_care_plan(prescription, raw_content)] *)
Definition create_fallback_care_plan (now : string) (p : DoctorPrescription) (raw_content : string)
  : CarePlan :=
  {| patient_summary := "Patient with " ++ diagnosis p ++ " requiring medication management and monitoring.";
     care_goals := ["Manage symptoms effectively"; "Monitor for medication side effects";
                    "Improve overall health outcomes"];
     medication_management :=
       [{| title := "Prescribed Medications";
           content := "Follow prescribed regimen for " ++ nat_to_string (length (prescriptions p))
                      ++ " medication(s). Take as directed by physician.";
           priority := "high" |}];
     lifestyle_recommendations :=
       [{| title := "General Health";
           content := "Maintain healthy diet, regular exercise as tolerated, and adequate rest.";
           priority := "medium" |}];
     monitoring_schedule :=
       [{| title := "Regular Check-ups";
           content := "Schedule follow-up appointments as recommended by healthcare provider.";
           priority := "high" |}];
     warning_signs := ["Worsening of symptoms"; "Unusual side effects"; "Signs of allergic reaction"];
     follow_up_recommendations :=
       [{| title := "Next Steps";
           content := "Contact healthcare provider if symptoms persist or worsen.";
           priority := "high" |}];
     generated_at := now |}.

(** The request body of [generate_care_plan], by model family. *)
Definition request_body (model_id prompt : string) : json :=
  if Py.contains "anthropic.claude" model_id then
    JObj [("anthropic_version", JStr "bedrock-2023-05-31"); ("max_tokens", JNum "4000");
          ("messages", JArr [JObj [("role", JStr "user"); ("content", JStr prompt)]]);
          ("temperature", JNum "0.3"); ("top_p", JNum "0.9")]
  else if Py.contains "amazon.titan" model_id then
    JObj [("inputText", JStr prompt);
          ("textGenerationConfig",
            JObj [("maxTokenCount", JNum "4000"); ("temperature", JNum "0.3"); ("topP", JNum "0.9")])]
  else if Py.contains "amazon.nova" model_id then
    JObj [("messages", JArr [JObj [("role", JStr "user");
                                    ("content", JArr [JObj [("text", JStr prompt)]])]]);
          ("inferenceConfig",
            JObj [("max_new_tokens", JNum "4000"); ("temperature", JNum "0.3"); ("top_p", JNum "0.9")])]
  else
    JObj [("anthropic_version", JStr "bedrock-2023-05-31"); ("max_tokens", JNum "4000");
          ("messages", JArr [JObj [("role", JStr "user"); ("content", JStr prompt)]]);
          ("temperature", JNum "0.3")].

(** "Extract content based on model type"; [None] is the KeyError, IndexError,
    TypeError or AttributeError raised on a reply of another shape. *)
Definition extract_content (model_id : string) (response_body : json) : option json :=
  if Py.contains "anthropic.claude" model_id then
    obind (Json.getitem response_body "content") (fun c =>
    obind (Json.index0 c) (fun c0 => Json.getitem c0 "text"))
  else if Py.contains "amazon.titan" model_id then
    obind (Json.getitem response_body "results") (fun r =>
    obind (Json.index0 r) (fun r0 => Json.getitem r0 "outputText"))
  else if Py.contains "amazon.nova" model_id then
    obind (Json.getitem response_body "output") (fun o =>
    obind (Json.getitem o "message") (fun m =>
    obind (Json.getitem m "content") (fun c =>
    obind (Json.index0 c) (fun c0 => Json.getitem c0 "text"))))
  else
    obind (Json.get response_body "content" (JArr [JObj []])) (fun c =>
    obind (Json.index0 c) (fun c0 => Json.get c0 "text" (JStr ""))).

(** What [bedrock_client.invoke_model] gives back: the parsed response body, a
    botocore [ClientError] with its error code, or any other exception. *)
Inductive invoke_reply :=
| InvokeOk (response_body : json)
| InvokeClientError (error_code : string)
| InvokeOtherError.

(** The exceptions [generate_care_plan] raises. *)
Inductive gen_error :=
| AccessDenied                (* "Access denied to Amazon Bedrock. ..." *)
| InvalidRequest              (* "Invalid request to Bedrock. ..." *)
| BedrockError (code : string) (* "Bedrock error: {error_code}" *)
| Unexpected.                 (* "Unexpected error in care plan generation: ..." *)

Inductive gen_outcome :=
| Generated (cp : CarePlan)
| Raised (e : gen_error).

Section Generator.

(** [_create_prompt]: the prompt template; no claim depends on its text. *)
Variable create_prompt : DoctorPrescription -> string.
(** [bedrock_client.invoke_model(modelId=..., body=json.dumps(body), ...)] *)
Variable invoke_model : string -> json -> invoke_reply.
(** [datetime.now().isoformat()] *)
Variable now : string.

(** [BedrockCarePlanGenerator.generate_care_plan(prescription, model_id)] *)
Definition generate_care_plan (p : DoctorPrescription) (model_id : string) : gen_outcome :=
  let prompt := create_prompt p in
  let body := request_body model_id prompt in
  match invoke_model model_id body with
  | InvokeClientError code =>
      if String.eqb code "AccessDeniedException" then Raised AccessDenied
      else if String.eqb code "ValidationException" then Raised InvalidRequest
      else Raised (BedrockError code)
  | InvokeOtherError => Raised Unexpected
  | InvokeOk response_body =>
      match response_body with
      | JObj _ =>   (* list(response_body.keys()) *)
          match extract_content model_id response_body with
          | Some (JStr content) =>
              match json_loads (Py.strip content) with
              | None => Generated (create_fallback_care_plan now p content)
              | Some care_plan_data =>
                  match care_plan_of_json now care_plan_data with
                  | Some cp => Generated cp
                  | None => Raised Unexpected
                  end
              end
          | _ => Raised Unexpected
          end
      | _ => Raised Unexpected
      end
  end.

End Generator.

End CarePlanModule.

(** The claim's reading of the dispatch (C1): a family per identifier, a request
    format and a reply path per family. *)
Module DispatchSpec.
Import CarePlanModule.

Inductive model_family := FamClaude | FamTitan | FamNova | FamDefault.

Definition model_family_of (model_id : string) : model_family :=
  if Py.contains "anthropic.claude" model_id then FamClaude
  else if Py.contains "amazon.titan" model_id then FamTitan
  else if Py.contains "amazon.nova" model_id then FamNova
  else FamDefault.

(** The Claude messages format. *)
Definition claude_messages_body (prompt : string) : json :=
  JObj [("anthropic_version", JStr "bedrock-2023-05-31"); ("max_tokens", JNum "4000");
        ("messages", JArr [JObj [("role", JStr "user"); ("content", JStr prompt)]]);
        ("temperature", JNum "0.3"); ("top_p", JNum "0.9")].
(** The Titan inputText format. *)
Definition titan_input_text_body (prompt : string) : json :=
  JObj [("inputText", JStr prompt);
        ("textGenerationConfig",
          JObj [("maxTokenCount", JNum "4000"); ("temperature", JNum "0.3"); ("topP", JNum "0.9")])].
(** The Nova messages format. *)
Definition nova_messages_body (prompt : string) : json :=
  JObj [("messages", JArr [JObj [("role", JStr "user");
                                  ("content", JArr [JObj [("text", JStr prompt)]])]]);
        ("inferenceConfig",
          JObj [("max_new_tokens", JNum "4000"); ("temperature", JNum "0.3"); ("top_p", JNum "0.9")])].
(** The default Claude format (no top_p). *)
Definition default_claude_body (prompt : string) : json :=
  JObj [("anthropic_version", JStr "bedrock-2023-05-31"); ("max_tokens", JNum "4000");
        ("messages", JArr [JObj [("role", JStr "user"); ("content", JStr prompt)]]);
        ("temperature", JNum "0.3")].

Definition format_body (f : model_family) : string -> json :=
  match f with
  | FamClaude => claude_messages_body
  | FamTitan => titan_input_text_body
  | FamNova => nova_messages_body
  | FamDefault => default_claude_body
  end.

(** A path into a reply: a key, or the first element of a list. *)
Inductive step := Key (k : string) | First.

Fixpoint read_path (p : list step) (j : json) : option json :=
  match p with
  | [] => Some j
  | Key k :: rest => obind (Json.getitem j k) (read_path rest)
  | First :: rest => obind (Json.index0 j) (read_path rest)
  end.

(** Claude-style extraction with the defaults [content = [{}]] and [text = ""]. *)
Definition claude_style_lenient (j : json) : option json :=
  obind (Json.get j "content" (JArr [JObj []])) (fun c =>
  obind (Json.index0 c) (fun c0 => Json.get c0 "text" (JStr ""))).

Definition reply_path (f : model_family) (response_body : json) : option json :=
  match f with
  | FamClaude => read_path [Key "content"; First; Key "text"] response_body
  | FamTitan => read_path [Key "results"; First; Key "outputText"] response_body
  | FamNova => read_path [Key "output"; Key "message"; Key "content"; First; Key "text"] response_body
  | FamDefault => claude_style_lenient response_body
  end.

End DispatchSpec.

(** Concrete inputs for the care-plan witnesses and counterexamples. *)
Module CarePlanInputs.
Import CarePlanModule.

Definition sample_prescription : DoctorPrescription :=
  {| patient_info := {| age := 45; gender := "Male"; weight := None;
                        medical_conditions := []; allergies := [] |};
     diagnosis := "Hypertension";
     prescriptions := [{| medication_name := "Lisinopril"; dosage := "10mg daily";
                          duration := "30 days"; instructions := None |}];
     doctor_notes := None;
     prescription_date := "2024-01-01T00:00:00" |}.

Definition sample_prompt (_ : DoctorPrescription) : string := "prompt".
Definition sample_now : string := "2024-01-01T00:00:00".
Definition sample_claude_model : string := "anthropic.claude-3-sonnet-20240229-v1:0".

(** A Claude messages reply carrying [text]. *)
Definition claude_reply (text : string) : invoke_reply :=
  InvokeOk (JObj [("content", JArr [JObj [("type", JStr "text"); ("text", JStr text)]])]).

(** The fields of the [CarePlan] model. *)
Definition care_plan_fields : list string :=
  ["patient_summary"; "care_goals"; "medication_management"; "lifestyle_recommendations";
   "monitoring_schedule"; "warning_signs"; "follow_up_recommendations"; "generated_at"].

End CarePlanInputs.

(** ** text_extraction.py: [AWSTextExtractor] *)
Module TextExtraction.

(** Raw file content. *)
Definition bytes := string.

(** A Textract block: its [BlockType] (when present) and its [Text]. *)
Record block := { block_type : option string; block_text : option string }.

(** [textract_client.detect_document_text]: the [Blocks] of the reply, a
    botocore [ClientError], or another exception. *)
Inductive textract_reply :=
| TextractOk (blocks : list block)
| TextractClientError
| TextractOtherError.

(** The services and parsers the extractor calls; [None] is an exception. *)
Record backends := {
  detect_document_text : bytes -> textract_reply;
  (** [PyPDF2.PdfReader(BytesIO(b)).pages], each page's [extract_text()] *)
  pypdf2_pages : bytes -> option (list string);
  (** [docx.Document(BytesIO(b)).paragraphs], each paragraph's [text] *)
  docx_paragraphs : bytes -> option (list string);
  (** [b.decode('utf-8')] *)
  utf8_decode : bytes -> option string;
  (** [json.dumps(data, indent=2, ensure_ascii=False)] *)
  json_dumps_indent2 : json -> string
}.

(** The calls [_extract_text] makes, in order. *)
Inductive call :=
| CallTextract
| CallPyPDF2
| CallDocx
| CallJsonParser
| CallUtf8Decode.

(** What [_extract_text] returns or raises. *)
Inductive extract_result :=
| Extracted (text : string)
| UnsupportedFileType (file_type : string).   (* ValueError *)

Section Extractor.
Variable be : backends.

Definition nl : string := String (ascii_of_nat 10) EmptyString.

(** [extracted_text += block.get('Text', '') + "\n"] over the LINE blocks;
    [None] is the KeyError of a block without [BlockType]. *)
Fixpoint textract_lines (bs : list block) (acc : string) : option string :=
  match bs with
  | [] => Some acc
  | b :: rest =>
      match block_type b with
      | None => None
      | Some t =>
          if String.eqb t "LINE" then
            textract_lines rest (acc ++ (match block_text b with Some x => x | None => "" end) ++ nl)
          else textract_lines rest acc
      end
  end.

(** [text += item + "\n"] over a list. *)
Fixpoint join_lines (l : list string) (acc : string) : string :=
  match l with
  | [] => acc
  | x :: r => join_lines r (acc ++ x ++ nl)
  end.

(** [_extract_pdf_fallback] *)
Definition extract_pdf_fallback (file : bytes) : list call * string :=
  ([CallPyPDF2],
   match pypdf2_pages be file with
   | Some pages => Py.strip (join_lines pages "")
   | None => ""
   end).

(** [_extract_from_pdf]: Textract, then PyPDF2 on any exception. *)
Definition extract_from_pdf (file : bytes) : list call * string :=
  match detect_document_text be file with
  | TextractOk bs =>
      match textract_lines bs "" with
      | Some t => ([CallTextract], Py.strip t)
      | None => let (cs, t) := extract_pdf_fallback file in (CallTextract :: cs, t)
      end
  | TextractClientError | TextractOtherError =>
      let (cs, t) := extract_pdf_fallback file in (CallTextract :: cs, t)
  end.

(** [_extract_from_word] *)
Definition extract_from_word (file : bytes) : list call * string :=
  ([CallDocx],
   match docx_paragraphs be file with
   | Some ps => Py.strip (join_lines ps "")
   | None => ""
   end).

(** [_extract_from_json] *)
Definition extract_from_json (file : bytes) : list call * string :=
  ([CallJsonParser],
   match utf8_decode be file with
   | Some txt => match json_loads txt with
                 | Some data => json_dumps_indent2 be data
                 | None => ""
                 end
   | None => ""
   end).

(** [_extract_from_text] *)
Definition extract_from_text (file : bytes) : list call * string :=
  ([CallUtf8Decode],
   match utf8_decode be file with Some txt => txt | None => "" end).

(** [_extract_text(file, file_type)] for the bytes the routes pass. *)
Definition extract_text (file : bytes) (file_type : string) : list call * extract_result :=
  let ft := Py.lower file_type in
  if String.eqb ft "pdf" then let (cs, t) := extract_from_pdf file in (cs, Extracted t)
  else if String.eqb ft "docx" || String.eqb ft "doc" then
    let (cs, t) := extract_from_word file in (cs, Extracted t)
  else if String.eqb ft "json" then let (cs, t) := extract_from_json file in (cs, Extracted t)
  else if String.eqb ft "txt" then let (cs, t) := extract_from_text file in (cs, Extracted t)
  else ([], UnsupportedFileType ft).

End Extractor.

(** Python [str] values for [_perform_ner] are sequences of code points. *)
Definition pystr := list Z.

Local Open Scope Z_scope.

(** The length of one code point in UTF-8; [None] for a surrogate, which
    [str.encode('utf-8')] refuses (UnicodeEncodeError). *)
Definition utf8_char_len (c : Z) : option Z :=
  if c <? 0 then None
  else if c <? 128 then Some 1
  else if c <? 2048 then Some 2
  else if (55296 <=? c) && (c <=? 57343) then None
  else if c <? 65536 then Some 3
  else if c <? 1114112 then Some 4
  else None.

(** [len(text.encode('utf-8'))] *)
Fixpoint utf8_length (t : pystr) : option Z :=
  match t with
  | [] => Some 0
  | c :: r =>
      match utf8_char_len c, utf8_length r with
      | Some a, Some b => Some (a + b)
      | _, _ => None
      end
  end.

(** [_perform_ner(text)]: the text passed to [detect_entities_v2] and then to
    [detect_phi], or [None] when the encoding step raises and the error
    result is returned without a call. *)
Definition max_length : Z := 20000.

Definition ner_submission (text : pystr) : option pystr :=
  match utf8_length text with
  | None => None
  | Some n => Some (if max_length <? n then firstn (Z.to_nat max_length) text else text)
  end.

(** Every code point of the text is one UTF-8 byte. *)
Definition single_byte (t : pystr) : bool := forallb (fun c => (0 <=? c) && (c <? 128)) t.

End TextExtraction.

(** Concrete backends for the extraction examples. *)
Module ExtractionInputs.
Import TextExtraction.

Definition sample_backends : backends :=
  {| detect_document_text := fun _ => TextractOk [{| block_type := Some "LINE"; block_text := Some "ocr" |}];
     pypdf2_pages := fun _ => Some ["page"];
     docx_paragraphs := fun _ => Some ["para"];
     utf8_decode := fun b => Some b;
     json_dumps_indent2 := fun _ => "{}" |}.

End ExtractionInputs.

(** ** The routes: file_upload.py's [get_file_url] and the extraction endpoints *)
Module Routes.
Local Open Scope Z_scope.

(** The arguments of [s3_client.generate_presigned_url]. *)
Record presign_request := {
  client_method : string;
  params_bucket : string;
  params_key : string;
  expires_in : Z
}.

(** Its outcome: a URL, a botocore [ClientError], or another exception (for
    example [NoCredentialsError] or [ParamValidationError]). *)
Inductive presign_reply :=
| PresignOk (url : string)
| PresignClientError
| PresignOtherError.

(** What a function returns or raises: a value, an [HTTPException] with its
    status code, or another exception. *)
Inductive outcome (A : Type) :=
| Return (a : A)
| HttpError (status : Z)
| OtherException.
Arguments Return {A} a.
Arguments HttpError {A} status.
Arguments OtherException {A}.

(** [S3FileUploader.get_file_url(bucket_name, file_key, expiration=3600)];
    [None] is an omitted [expiration]. *)
Definition get_file_url (presign : presign_request -> presign_reply)
    (bucket_name file_key : string) (expiration : option Z) : outcome string :=
  let e := match expiration with Some e => e | None => 3600 end in
  match presign {| client_method := "get_object"; params_bucket := bucket_name;
                   params_key := file_key; expires_in := e |} with
  | PresignOk url => Return url
  | PresignClientError => HttpError 500
  | PresignOtherError => OtherException
  end.

(** The body of [GET /upload/file/{bucket_name}/{file_key}]:
    [presigned_url] and [expiration_seconds]. *)
Definition get_file_url_route (presign : presign_request -> presign_reply)
    (bucket_name file_key : string) (expiration : option Z) : outcome (string * Z) :=
  let e := match expiration with Some e => e | None => 3600 end in
  match get_file_url presign bucket_name file_key (Some e) with
  | Return url => Return (url, e)
  | HttpError s => HttpError s
  | OtherException => HttpError 500
  end.

(** An uploaded file as the handlers see it. *)
Record upload := {
  filename : option string;
  content_type : option string;
  file_content : string
}.

(** [get_file_type(file)] *)
Definition get_file_type (f : upload) : string :=
  let fname := match filename f with Some n => Py.lower n | None => "" end in
  let ct := match content_type f with Some c => c | None => "" end in
  if Py.endswith fname ".pdf" then "pdf"
  else if Py.endswith fname ".docx" || Py.endswith fname ".doc" then "docx"
  else if Py.endswith fname ".json" then "json"
  else if Py.endswith fname ".txt" then "txt"
  else if Py.contains "pdf" ct then "pdf"
  else if Py.contains "word" ct || Py.contains "document" ct then "docx"
  else if Py.contains "json" ct then "json"
  else if Py.contains "text" ct then "txt"
  else "txt".

(** A call of [extractor.extract_and_analyze(file=content, file_type, include_ner)]. *)
Record extraction_call := { call_file : string; call_file_type : string; call_include_ner : bool }.

Definition max_upload_size : Z := 10 * 1024 * 1024.

Section Handlers.
(** [extract_and_analyze]: its result dict, or [None] when it raises. *)
Variable extract_and_analyze : extraction_call -> option json.
(** [_perform_ner(text)]; it catches every exception itself. *)
Variable perform_ner : string -> json.

(** The upload handlers: the extraction calls made, then the response. *)
Definition upload_handler (include_ner : bool) (f : upload) : list extraction_call * outcome json :=
  match filename f with
  | None | Some EmptyString => ([], HttpError 400)
  | Some _ =>
      let file_type := get_file_type f in
      let file_size := Z.of_nat (String.length (file_content f)) in
      if max_upload_size <? file_size then ([], HttpError 413)
      else
        let c := {| call_file := file_content f; call_file_type := file_type;
                    call_include_ner := include_ner |} in
        match extract_and_analyze c with
        | Some result => ([c], Return result)
        | None => ([c], HttpError 500)
        end
  end.

(** [POST /extract/text-and-ner] *)
Definition extract_text_and_ner (f : upload) (include_ner : bool) := upload_handler include_ner f.
(** [POST /extract/text-only] *)
Definition extract_text_only (f : upload) := upload_handler false f.

(** [POST /extract/ner-only]: the texts given to [_perform_ner], then the response. *)
Definition analyze_ner_only (text : string) : list string * outcome json :=
  if String.eqb text "" || String.eqb (Py.strip text) "" then ([], HttpError 400)
  else if 20000 <? Z.of_nat (Py.str_len text) then ([], HttpError 413)
  else ([text], Return (perform_ner text)).

End Handlers.

End Routes.

(** ** Python's [re] for the patterns of s3_routes.py: a backtracking matcher
    in continuation-passing style over ASCII texts.  Alternation and [?] try
    their left branch first and [*] is greedy, as in Python; a capture is
    recorded when its group is left. *)
Module Regex.

Inductive regex :=
| REps
| RChar (c : ascii)
| RClass (f : ascii -> bool)
| RSeq (a b : regex)
| RAlt (a b : regex)
| ROpt (a : regex)
| RStar (f : ascii -> bool)
| RGroup (g : nat) (a : regex)
| RBound
| RNotAhead (a : regex).

(** Captures, the latest first: group number, start, end. *)
Definition caps := list (nat * (nat * nat)).

Definition is_word_at (s : list ascii) (i : nat) : bool :=
  match nth_error s i with Some c => Py.is_word c | None => false end.

(** [\b] *)
Definition at_boundary (s : list ascii) (i : nat) : bool :=
  xorb (match i with 0 => false | S j => is_word_at s j end) (is_word_at s i).

Fixpoint run_len (f : ascii -> bool) (l : list ascii) : nat :=
  match l with
  | c :: r => if f c then S (run_len f r) else 0
  | [] => 0
  end.

(** A greedy [*]: the longest run first, then shorter ones. *)
Fixpoint try_down (k : nat -> caps -> option caps) (i : nat) (cs : caps) (n : nat) : option caps :=
  match k (i + n) cs with
  | Some r => Some r
  | None => match n with 0 => None | S n' => try_down k i cs n' end
  end.

Fixpoint m (s : list ascii) (r : regex) (i : nat) (cs : caps)
    (k : nat -> caps -> option caps) {struct r} : option caps :=
  match r with
  | REps => k i cs
  | RChar c =>
      match nth_error s i with Some d => if Ascii.eqb c d then k (S i) cs else None | None => None end
  | RClass f =>
      match nth_error s i with Some d => if f d then k (S i) cs else None | None => None end
  | RSeq a b => m s a i cs (fun j cs' => m s b j cs' k)
  | RAlt a b => match m s a i cs k with Some x => Some x | None => m s b i cs k end
  | ROpt a => match m s a i cs k with Some x => Some x | None => k i cs end
  | RStar f => try_down k i cs (run_len f (skipn i s))
  | RGroup g a => m s a i cs (fun j cs' => k j ((g, (i, j)) :: cs'))
  | RBound => if at_boundary s i then k i cs else None
  | RNotAhead a =>
      match m s a i cs (fun _ cs' => Some cs') with Some _ => None | None => k i cs end
  end.

Definition match_at (s : list ascii) (r : regex) (i : nat) : option caps :=
  m s (RGroup 0 r) i [] (fun _ cs => Some cs).

Fixpoint first_some {A B} (f : A -> option B) (l : list A) : option B :=
  match l with
  | [] => None
  | x :: r => match f x with Some y => Some y | None => first_some f r end
  end.

(** [re.search(r, text)] and [re.match(r, text)] *)
Definition re_search (r : regex) (text : string) : option caps :=
  let s := list_ascii_of_string text in
  first_some (match_at s r) (seq 0 (S (length s))).
Definition re_match (r : regex) (text : string) : option caps :=
  match_at (list_ascii_of_string text) r 0.

(** [match.group(g)]; [None] when the group took no part in the match. *)
Definition group (text : string) (cs : caps) (g : nat) : option string :=
  match find (fun p => Nat.eqb (fst p) g) cs with
  | Some (_, (a, b)) => Some (substring a (b - a) text)
  | None => None
  end.

(** Building blocks. *)
Definition lit (w : string) : regex :=
  fold_right (fun c r => RSeq (RChar c) r) REps (list_ascii_of_string w).
Definition seqs (l : list regex) : regex := fold_right RSeq REps l.
Fixpoint alts (l : list regex) : regex :=
  match l with
  | [] => RClass (fun _ => false)
  | [a] => a
  | a :: r => RAlt a (alts r)
  end.
Definition plus (f : ascii -> bool) : regex := RSeq (RClass f) (RStar f).
(** [\s*], [\d+], [\d+(?:\.\d+)?] *)
Definition ws : regex := RStar Py.is_space.
Definition digits : regex := plus Py.is_digit.
Definition num : regex := seqs [digits; ROpt (seqs [RChar "."; digits])].
Definition opt_s (w : string) : regex := seqs [lit w; ROpt (RChar "s")].

End Regex.

(** ** s3_routes.py: [POST /extract-medical-data] *)
Module MedicalData.
Import Regex Routes.
Local Open Scope Z_scope.

(** *** Python dicts and [str()] *)

(** [d[k] = v]: a new key goes last, an old one keeps its place. *)
Fixpoint dict_set {A} (d : list (string * A)) (k : string) (v : A) : list (string * A) :=
  match d with
  | [] => [(k, v)]
  | (k', v') :: r => if String.eqb k k' then (k', v) :: r else (k', v') :: dict_set r k v
  end.

Definition dict_mem {A} (k : string) (d : list (string * A)) : bool :=
  existsb (fun p => String.eqb (fst p) k) d.

(** [d.get(k)] *)
Fixpoint dict_get {A} (k : string) (d : list (string * A)) : option A :=
  match d with
  | [] => None
  | (k', v) :: r => if String.eqb k' k then Some v else dict_get k r
  end.

(** The items of the dict [json.loads] builds from an object's members: each
    key at its first place, with its last value. *)
Definition dict_items {A} (fs : list (string * A)) : list (string * A) :=
  fold_left (fun d kv => dict_set d (fst kv) (snd kv)) fs [].

Fixpoint join (sep : string) (l : list string) : string :=
  match l with
  | [] => ""
  | [x] => x
  | x :: r => x ++ sep ++ join sep r
  end.

Definition hex_digit (n : nat) : ascii :=
  ascii_of_nat (if Nat.ltb n 10 then 48 + n else 87 + n)%nat.

(** [repr] of a string: single quotes unless it holds a single quote and no
    double quote; the quote, the backslash and control characters escaped. *)
Definition repr_str (s : string) : string :=
  let dquote := "034"%char in
  let q := if Py.contains "'" s && negb (Py.contains (String dquote EmptyString) s) then dquote else "'"%char in
  let esc (c : ascii) : string :=
    let n := nat_of_ascii c in
    if Ascii.eqb c "092"%char then String c (String c EmptyString)
    else if Ascii.eqb c q then String "092"%char (String c EmptyString)
    else if Nat.eqb n 10 then "\n" else if Nat.eqb n 13 then "\r" else if Nat.eqb n 9 then "\t"
    else if Nat.ltb n 32 || Nat.eqb n 127 then
      String "092"%char (String "x"%char (String (hex_digit (n / 16)) (String (hex_digit (n mod 16)) EmptyString)))
    else String c EmptyString in
  String q (fold_right (fun c r => (esc c ++ r)%string) (String q EmptyString) (list_ascii_of_string s)).

(** [repr] of a parsed value, and [str], which differs from it on strings.
    Numbers are shown by their literal (Python reformats floats). *)
Fixpoint py_repr (j : json) : string :=
  match j with
  | JNull => "None"
  | JBool b => if b then "True" else "False"
  | JNum l => l
  | JStr s => repr_str s
  | JArr l => "[" ++ join ", " (map py_repr l) ++ "]"
  | JObj fs =>
      "{" ++ join ", " (map (fun kv : string * string => (repr_str (fst kv) ++ ": " ++ snd kv)%string)
                          (dict_items (map (fun kv => (fst kv, py_repr (snd kv))) fs))) ++ "}"
  end.

Definition py_str (j : json) : string :=
  match j with JStr s => s | _ => py_repr j end.

(** [bool(x)]; a number is false when its digits before an exponent are all 0. *)
Fixpoint mantissa_zero (l : list ascii) : bool :=
  match l with
  | [] => true
  | c :: r =>
      if Ascii.eqb c "e" || Ascii.eqb c "E" then true
      else if Py.is_digit c then Ascii.eqb c "0" && mantissa_zero r
      else mantissa_zero r
  end.

Definition py_truthy (j : json) : bool :=
  match j with
  | JNull => false
  | JBool b => b
  | JNum l => negb (mantissa_zero (list_ascii_of_string l))
  | JStr s => negb (String.eqb s "")
  | JArr l => match l with [] => false | _ => true end
  | JObj fs => match fs with [] => false | _ => true end
  end.

(** [k in x]: key of a dict, substring of a string, element of a list; [None]
    is the TypeError of any other value. *)
Definition py_in (k : string) (x : json) : option bool :=
  match x with
  | JObj fs => Some (dict_mem k fs)
  | JStr s => Some (Py.contains k s)
  | JArr l => Some (existsb (fun y => match y with JStr s => String.eqb s k | _ => false end) l)
  | _ => None
  end.

(** [for y in x]: a list's items, a dict's keys, a string's characters. *)
Definition py_iter (x : json) : option (list json) :=
  match x with
  | JArr l => Some l
  | JObj fs => Some (map (fun kv => JStr (fst kv)) (dict_items fs))
  | JStr s => Some (map (fun c => JStr (String c EmptyString)) (list_ascii_of_string s))
  | _ => None
  end.

(** [int(s)] for a text of digits. *)
Definition py_int (s : string) : option Z :=
  if Py.isdigit s then
    Some (fold_left (fun acc c => acc * 10 + Z.of_nat (nat_of_ascii c - 48)%nat) (list_ascii_of_string s) 0)
  else None.

Definition z_str (z : Z) : string := NilEmpty.string_of_int (Z.to_int z).

(** [20 < float(s) < 300] for a text [\d+(\.\d+)?], compared as an exact decimal. *)
Definition weight_in_range (s : string) : option bool :=
  let '(ip, fp) := match Py.split1 "." s with Some (a, b) => (a, b) | None => (s, "") end in
  match py_int ip with
  | Some n =>
      let frac_nonzero := existsb (fun c => negb (Ascii.eqb c "0")) (list_ascii_of_string fp) in
      Some (((20 <? n) || ((n =? 20) && frac_nonzero)) && (n <? 300))
  | None => None
  end.

(** [s.title()] for one word. *)
Definition title (s : string) : string :=
  match s with
  | EmptyString => EmptyString
  | String c r => String (Py.upper_char c) (Py.lower r)
  end.

(** *** Exceptions *)

(** What the handler's body can raise: an [HTTPException], a botocore
    [ClientError], or another exception. *)
Inductive exc := ExcHTTP (status : Z) | ExcClientError | ExcOther.

Definition res (A : Type) := (A + exc)%type.
Definition ret {A} (a : A) : res A := inl a.
Definition rbind {A B} (x : res A) (f : A -> res B) : res B :=
  match x with inl a => f a | inr e => inr e end.
Definition of_opt {A} (o : option A) : res A :=
  match o with Some a => inl a | None => inr ExcOther end.
Local Notation "'let*' x := e 'in' k" := (rbind e (fun x => k))
  (at level 200, x name, e at level 100, k at level 200).

Fixpoint fold_res {A B} (f : A -> B -> res A) (l : list B) (a : A) : res A :=
  match l with
  | [] => ret a
  | x :: r => let* a' := f a x in fold_res f r a'
  end.

(** *** The state built before [vital_signs] exists *)
Record acc := {
  patient_info : list (string * json);
  medications : list json;
  medical_conditions : list json
}.

Definition acc0 : acc := {| patient_info := []; medications := []; medical_conditions := [] |}.

Definition set_info (a : acc) (k : string) (v : json) : acc :=
  {| patient_info := dict_set (patient_info a) k v; medications := medications a;
     medical_conditions := medical_conditions a |}.
Definition add_med (a : acc) (x : json) : acc :=
  {| patient_info := patient_info a; medications := medications a ++ [x];
     medical_conditions := medical_conditions a |}.
Definition add_conds (a : acc) (xs : list json) : acc :=
  {| patient_info := patient_info a; medications := medications a;
     medical_conditions := medical_conditions a ++ xs |}.

(** *** Lines 240-287: the structured-JSON pass *)

(** [if "patient" in key.lower() and isinstance(value, dict)]: age, gender,
    weight, height and bmi copied as [str(value[f])]. *)
Definition patient_part (kv : string * json) (a : acc) : acc :=
  let '(key, value) := kv in
  match value with
  | JObj fs =>
      if Py.contains "patient" (Py.lower key) then
        fold_left (fun a f => match Json.assoc_last f fs with
                              | Some x => set_info a f (JStr (py_str x))
                              | None => a
                              end) ["age"; "gender"; "weight"; "height"; "bmi"] a
      else a
  | _ => a
  end.

(** [if "vital" in key.lower() and isinstance(value, dict)]: the loop body
    assigns [vital_signs], a local of the function first bound at line 346,
    so its first iteration raises UnboundLocalError. *)
Definition vital_part_raises (kv : string * json) : bool :=
  let '(key, value) := kv in
  match value with
  | JObj fs => Py.contains "vital" (Py.lower key) && negb (match dict_items fs with [] => true | _ => false end)
  | _ => false
  end.

Definition json_med (fs : list (string * json)) : json :=
  let get k d := match Json.assoc_last k fs with Some v => v | None => d end in
  let name := get "medication_name" (get "name" (JStr "Unknown")) in
  JObj [("name", name); ("medication_name", name);
        ("dosage", get "dosage" (JStr "N/A")); ("duration", get "duration" (JStr "As prescribed"))].

Definition medication_part (kv : string * json) (a : acc) : acc :=
  let '(key, value) := kv in
  let kl := Py.lower key in
  if Py.contains "prescription" kl || Py.contains "medication" kl then
    match value with
    | JArr l => fold_left (fun a med => match med with JObj fs => add_med a (json_med fs) | _ => a end) l a
    | _ => a
    end
  else a.

Definition condition_part (kv : string * json) (a : acc) : acc :=
  let '(key, value) := kv in
  let kl := Py.lower key in
  if Py.contains "condition" kl || Py.contains "diagnosis" kl then
    match value with
    | JArr l => add_conds a (map (fun c => JStr (py_str c)) l)
    | JStr s => add_conds a [JStr s]
    | _ => a
    end
  else a.

(** One item of [json_data.items()]: the state reached, and whether it raised. *)
Definition json_item (a : acc) (kv : string * json) : acc * bool :=
  let a1 := patient_part kv a in
  if vital_part_raises kv then (a1, true)
  else (condition_part kv (medication_part kv a1), false).

(** The loop; the bare [except: pass] keeps the state reached at a raise. *)
Fixpoint json_loop (items : list (string * json)) (a : acc) : acc :=
  match items with
  | [] => a
  | kv :: r => let '(a', raised) := json_item a kv in if raised then a' else json_loop r a'
  end.

(** [json.loads(extracted_text)], then the loop when it is a dict; a decode
    error, or a TypeError for a text that is not a string, is swallowed. *)
Definition structured_json_stage (extracted_text : json) (a : acc) : acc :=
  match extracted_text with
  | JStr t =>
      match json_loads t with
      | Some (JObj fs) => json_loop (dict_items fs) a
      | _ => a
      end
  | _ => a
  end.

(** *** Lines 289-342: the entity-recognition results *)

(** [d.get(k, "").upper()] *)
Definition get_upper (d : json) (k : string) : res string :=
  let* v := of_opt (Json.get d k (JStr "")) in
  match v with JStr s => ret (Py.upper s) | _ => inr ExcOther end.

Definition attr_step (df : json * json) (attr : json) : res (json * json) :=
  let* attr_type := get_upper attr "Type" in
  let* attr_text := of_opt (Json.get attr "Text" (JStr "")) in
  if String.eqb attr_type "DOSAGE" || String.eqb attr_type "STRENGTH" then ret (attr_text, snd df)
  else if String.eqb attr_type "FREQUENCY" then ret (fst df, attr_text)
  else ret df.

Definition medical_entity_step (a : acc) (entity : json) : res acc :=
  let* category := get_upper entity "category" in
  let* entity_type := get_upper entity "type" in
  let* text := of_opt (Json.get entity "text" (JStr "")) in
  let* attributes := of_opt (Json.get entity "attributes" (JArr [])) in
  if String.eqb category "MEDICAL_CONDITION" then ret (add_conds a [text])
  else if String.eqb category "MEDICATION" then
    let* items := of_opt (py_iter attributes) in
    let* df := fold_res attr_step items (JStr "N/A", JStr "N/A") in
    let* score := of_opt (Json.get entity "score" (JNum "0.0")) in
    ret (add_med a (JObj [("name", text); ("medication_name", text);
                          ("dosage", JStr (Py.strip (py_str (fst df) ++ " " ++ py_str (snd df))%string));
                          ("duration", JStr "As prescribed"); ("type", JStr entity_type);
                          ("confidence", score)]))
  else ret a.

Definition phi_entity_step (a : acc) (entity : json) : res acc :=
  let* category := get_upper entity "category" in
  let* entity_type := get_upper entity "type" in
  let* text := of_opt (Json.get entity "text" (JStr "")) in
  if String.eqb entity_type "NAME" then
    if negb (dict_mem "name" (patient_info a)) then ret (set_info a "name" text) else ret a
  else if String.eqb entity_type "AGE" then
    if negb (dict_mem "age" (patient_info a)) then
      match text with
      | JStr t =>
          match re_search digits t with
          | Some cs => ret (match group t cs 0 with Some g => set_info a "age" (JStr g) | None => a end)
          | None => ret a
          end
      | _ => inr ExcOther
      end
    else ret a
  else ret a.

(** [if "ner_analysis" in result and field in result["ner_analysis"]]: the
    loop over [result["ner_analysis"][field]]. *)
Definition ner_field_stage (field : string) (step : acc -> json -> res acc) (result : json) (a : acc) : res acc :=
  match Json.getitem result "ner_analysis" with
  | None => ret a
  | Some ner =>
      let* present := of_opt (py_in field ner) in
      if present then
        let* entities := of_opt (Json.getitem ner field) in
        let* items := of_opt (py_iter entities) in
        fold_res step items a
      else ret a
  end.

(** *** Lines 344-471: the line-by-line parse *)

Record pattern := { pat : regex; ngroups : nat }.

Definition mf : regex := alts [lit "male"; lit "female"].
Definition mfmf : regex := alts [lit "male"; lit "female"; lit "m"; lit "f"].
Definition unit3 : regex := alts [lit "kg"; opt_s "lb"; opt_s "pound"].

Definition line_age_patterns : list pattern := [
  {| pat := seqs [lit "age"; ROpt (RChar ":"); ws; RGroup 1 digits]; ngroups := 1 |};
  {| pat := seqs [RGroup 1 digits; ws; opt_s "year"; ws; lit "old"]; ngroups := 1 |};
  {| pat := seqs [RGroup 1 digits; ws; RChar "y"; ROpt (RChar "/"); RChar "o"]; ngroups := 1 |};
  {| pat := seqs [lit "age"; ws; RGroup 1 digits]; ngroups := 1 |}]%nat.

Definition line_gender_patterns : list pattern := [
  {| pat := seqs [alts [lit "gender"; lit "sex"]; ROpt (RChar ":"); ws; RGroup 1 mfmf]; ngroups := 1 |};
  {| pat := seqs [RBound; RGroup 1 mf; RBound]; ngroups := 1 |};
  {| pat := seqs [lit "m/f"; ROpt (RChar ":"); ws; RGroup 1 mfmf]; ngroups := 1 |}]%nat.

Definition line_weight_patterns : list pattern := [
  {| pat := seqs [lit "weight"; ROpt (RChar ":"); ws; RGroup 1 num; ws; RGroup 2 unit3]; ngroups := 2 |};
  {| pat := seqs [lit "wt"; ROpt (RChar ":"); ws; RGroup 1 num; ws; RGroup 2 unit3]; ngroups := 2 |};
  {| pat := seqs [RGroup 1 num; ws; RGroup 2 unit3]; ngroups := 2 |};
  {| pat := seqs [lit "weight"; ROpt (RChar ":"); ws; RGroup 1 num]; ngroups := 1 |}]%nat.

(** The first pattern of the list that [re.search] finds in the text. *)
Definition first_match (ps : list pattern) (text : string) : option (pattern * caps) :=
  first_some (fun p => match re_search (pat p) text with Some cs => Some (p, cs) | None => None end) ps.

(** An f-string's rendering of [match.group(g)]. *)
Definition group_fstr (text : string) (cs : caps) (g : nat) : string :=
  match group text cs g with Some s => s | None => "None" end.

Definition gender_label (gv : string) : string :=
  if String.eqb gv "m" || String.eqb gv "male" then "Male"
  else if String.eqb gv "f" || String.eqb gv "female" then "Female"
  else title gv.

(** [line.split(':', 1)[1].strip()]; [None] is the IndexError of a line
    without a colon. *)
Definition after_colon (line : string) : option string :=
  match Py.split1 ":" line with Some (_, b) => Some (Py.strip b) | None => None end.

Definition any_in (kws : list string) (s : string) : bool := existsb (fun kw => Py.contains kw s) kws.

Definition line_state := (acc * list (string * json))%type.

(** One line: the [if]/[elif] chain, each branch in its own [try: ... except: pass]. *)
Definition line_step (st : line_state) (raw : string) : line_state :=
  let '(a, vs) := st in
  let line := Py.strip raw in
  let ll := Py.lower line in
  let vital k := match after_colon line with Some v => (a, dict_set vs k (JStr v)) | None => st end in
  if any_in ["patient:"; "name:"] ll then
    match after_colon line with
    | Some name =>
        if negb (String.eqb name "") && negb (Py.any_digit name) then (set_info a "name" (JStr name), vs)
        else st
    | None => st
    end
  else if any_in ["age:"; "years old"; "y/o"] ll then
    match first_match line_age_patterns ll with
    | Some (_, cs) => (set_info a "age" (match group ll cs 1 with Some g => JStr g | None => JNull end), vs)
    | None => st
    end
  else if any_in ["gender:"; "sex:"; "male"; "female"; "m/f"] ll then
    match first_match line_gender_patterns ll with
    | Some (_, cs) =>
        match group ll cs 1 with
        | Some g => (set_info a "gender" (JStr (gender_label (Py.lower g))), vs)
        | None => st
        end
    | None => st
    end
  else if any_in ["weight:"; "wt:"; "kg"; "lbs"] ll then
    match first_match line_weight_patterns ll with
    | Some (p, cs) =>
        let w := (group_fstr ll cs 1 ++ " " ++ (if Nat.ltb 1 (ngroups p) then group_fstr ll cs 2 else "kg"))%string in
        (set_info a "weight" (JStr w), dict_set vs "weight" (JStr w))
    | None => st
    end
  else if Py.contains "height:" ll then
    match after_colon line with
    | Some h => (set_info a "height" (JStr h), dict_set vs "height" (JStr h))
    | None => st
    end
  else if Py.contains "bmi:" ll then
    match after_colon line with
    | Some b => (set_info a "bmi" (JStr b), dict_set vs "bmi" (JStr b))
    | None => st
    end
  else if any_in ["blood pressure:"; "bp:"] ll then vital "blood_pressure"
  else if any_in ["heart rate:"; "hr:"; "pulse:"] ll then vital "heart_rate"
  else if any_in ["temperature:"; "temp:"] ll then vital "temperature"
  else if any_in ["respiratory rate:"; "rr:"] ll then vital "respiratory_rate"
  else if any_in ["oxygen saturation:"; "o2 sat:"; "spo2:"] ll then vital "oxygen_saturation"
  else st.

(** *** Lines 473-530: the full-text patterns, each run only for a field still missing *)

Definition full_age_patterns : list pattern := [
  {| pat := seqs [RGroup 1 digits; ws; alts [lit "year"; lit "yr"]; ROpt (RChar "s"); ws; lit "old"]; ngroups := 1 |};
  {| pat := seqs [lit "age"; ws; ROpt (seqs [lit "of"; ws]); ROpt (seqs [lit "is"; ws]); RGroup 1 digits]; ngroups := 1 |};
  {| pat := seqs [RGroup 1 digits; ws; RChar "y"; ROpt (RChar "/"); RChar "o"; RBound]; ngroups := 1 |};
  {| pat := seqs [RBound; RGroup 1 digits; ws; opt_s "year"; RBound]; ngroups := 1 |}]%nat.

Definition who : regex := alts [lit "patient"; lit "person"; lit "individual"].

Definition full_gender_patterns : list pattern := [
  {| pat := seqs [RBound; RGroup 1 mf; ws; who]; ngroups := 1 |};
  {| pat := seqs [who; ws; ROpt (seqs [lit "is"; ws]); ROpt (seqs [RChar "a"; ws]); RGroup 1 mf]; ngroups := 1 |};
  {| pat := seqs [RBound; RGroup 1 mf; RBound;
                  RNotAhead (seqs [ws; alts [lit "relative"; lit "family"; lit "parent"]])]; ngroups := 1 |};
  {| pat := seqs [lit "gender"; ws; ROpt (seqs [lit "is"; ws]); ROpt (seqs [RChar ":"; ws]); RGroup 1 mfmf; RBound]; ngroups := 1 |};
  {| pat := seqs [lit "sex"; ws; ROpt (seqs [lit "is"; ws]); ROpt (seqs [RChar ":"; ws]); RGroup 1 mfmf; RBound]; ngroups := 1 |}]%nat.

Definition full_weight_patterns : list pattern := [
  {| pat := seqs [opt_s "weigh"; ws; RGroup 1 num; ws; RGroup 2 unit3]; ngroups := 2 |};
  {| pat := seqs [lit "weight"; ws; ROpt (seqs [lit "of"; ws]); ROpt (seqs [lit "is"; ws]);
                  RGroup 1 num; ws; RGroup 2 unit3]; ngroups := 2 |};
  {| pat := seqs [RGroup 1 num; ws; RGroup 2 (alts [lit "kg"; opt_s "kilogram"; opt_s "lb"; opt_s "pound"]); ws;
                  alts [lit "weight"; seqs [lit "body"; ws; lit "weight"]]]; ngroups := 2 |};
  {| pat := seqs [RBound; RGroup 1 num; ws; lit "kg"; RBound]; ngroups := 1 |};
  {| pat := seqs [RBound; RGroup 1 num; ws; alts [opt_s "lb"; opt_s "pound"]; RBound]; ngroups := 1 |}]%nat.

(** The age loop: [break] only once a match is in range. *)
Fixpoint age_search (ps : list pattern) (ftl : string) : res (option string) :=
  match ps with
  | [] => ret None
  | p :: r =>
      match re_search (pat p) ftl with
      | None => age_search r ftl
      | Some cs =>
          let* g := of_opt (group ftl cs 1) in
          let* v := of_opt (py_int g) in
          if (0 <? v) && (v <? 150) then ret (Some (z_str v)) else age_search r ftl
      end
  end.

(** The gender loop: [break] at the first match. *)
Fixpoint gender_search (ps : list pattern) (ftl : string) : res (option string) :=
  match ps with
  | [] => ret None
  | p :: r =>
      match re_search (pat p) ftl with
      | None => gender_search r ftl
      | Some cs =>
          let* g := of_opt (group ftl cs 1) in
          let gv := Py.lower g in
          ret (if String.eqb gv "m" || String.eqb gv "male" then Some "Male"
               else if String.eqb gv "f" || String.eqb gv "female" then Some "Female"
               else None)
      end
  end.

(** The weight loop: [break] only once a match is in range. *)
Fixpoint weight_search (ps : list pattern) (ftl : string) : res (option string) :=
  match ps with
  | [] => ret None
  | p :: r =>
      match re_search (pat p) ftl with
      | None => weight_search r ftl
      | Some cs =>
          let* value := of_opt (group ftl cs 1) in
          let unit := if Nat.ltb 1 (ngroups p) then group_fstr ftl cs 2 else "kg" in
          let* ok := of_opt (weight_in_range value) in
          if ok then ret (Some (value ++ " " ++ unit)%string) else weight_search r ftl
      end
  end.

(** [if field not in patient_info:] the loop [search], and the value it found. *)
Definition fill_missing (field : string) (search : res (option string)) (a : acc) : res acc :=
  if negb (dict_mem field (patient_info a)) then
    let* o := search in
    ret (match o with Some v => set_info a field (JStr v) | None => a end)
  else ret a.

Definition full_text_stage (ftl : string) (st : line_state) : res line_state :=
  let '(a, vs) := st in
  let* a1 := fill_missing "age" (age_search full_age_patterns ftl) a in
  let* a2 := fill_missing "gender" (gender_search full_gender_patterns ftl) a1 in
  if negb (dict_mem "weight" (patient_info a2)) then
    let* o := weight_search full_weight_patterns ftl in
    ret (match o with
         | Some w => (set_info a2 "weight" (JStr w), dict_set vs "weight" (JStr w))
         | None => (a2, vs)
         end)
  else ret (a2, vs).

(** *** Lines 532-573: medication lines and the diagnosis section *)

Definition medication_line (a : acc) (raw : string) : acc :=
  let line := Py.strip raw in
  let l := Py.lower line in
  if any_in ["furosemide"; "metoprolol"; "lisinopril"; "metformin"] l && Py.contains "mg" l then
    let parts := Py.words line in
    let name := match parts with
                | p0 :: rest => if Py.endswith p0 "." then match rest with p1 :: _ => Some p1 | [] => None end
                                else Some p0
                | [] => None
                end in
    match name with
    | Some name =>
        let dosage_part := filter (fun p => Py.contains "mg" (Py.lower p)) parts in
        let frequency_part := filter (fun p => existsb (String.eqb (Py.lower p)) ["daily"; "twice"; "once"]) parts in
        let dosage := match dosage_part with d :: _ => d | [] => "N/A" end in
        let frequency := match frequency_part with [] => "As prescribed" | _ => join " " frequency_part end in
        add_med a (JObj [("name", JStr name); ("medication_name", JStr name);
                         ("dosage", JStr (dosage ++ " " ++ frequency)%string); ("duration", JStr "As prescribed")])
    | None => a
    end
  else a.

Definition diagnosis_line (st : acc * bool) (raw : string) : acc * bool :=
  let '(a, in_section) := st in
  let line := Py.strip raw in
  if Py.contains "DIAGNOSIS:" (Py.upper line) then
    match after_colon line with
    | Some d => if negb (String.eqb d "") && negb (Py.isdigit d) then (add_conds a [JStr d], true) else (a, true)
    | None => (a, true)
    end
  else if in_section && existsb (Py.startswith line) ["1."; "2."; "3."; "4."; "5."] then
    match Py.split1 "." line with
    | Some (_, b) => let c := Py.strip b in if String.eqb c "" then st else (add_conds a [JStr c], in_section)
    | None => st
    end
  else if in_section && existsb (Py.startswith line) ["MEDICATIONS"; "VITAL"; "FOLLOW"] then (a, false)
  else st.

(** *** The handler *)

(** Everything after the structured-JSON pass (lines 289-605). *)
Definition handler_rest (result : json) (extracted_text : json) (a1 : acc) : res json :=
  let* a2 := ner_field_stage "medical_entities" medical_entity_step result a1 in
  let* a3 := ner_field_stage "phi_entities" phi_entity_step result a2 in
  let* text := match extracted_text with JStr t => ret t | _ => inr ExcOther end in
  let lines := Py.split_on "010" text in
  let st4 := fold_left line_step lines (a3, []) in
  let* st5 := full_text_stage (Py.lower text) st4 in
  let a6 := fold_left medication_line lines (fst st5) in
  let a7 := fst (fold_left diagnosis_line lines (a6, false)) in
  let medical_data := JObj [
    ("patient_info", JObj (patient_info a7));
    ("medications", JArr (medications a7));
    ("medical_conditions", JArr (medical_conditions a7));
    ("diagnosis", JStr (if 500 <? Z.of_nat (Py.str_len text) then (Py.str_take 500 text ++ "...")%string else text));
    ("raw_text", JStr text);
    ("vital_signs", JObj (snd st5));
    ("lab_results", JObj []);
    ("clinical_notes", extracted_text);
    ("raw_extraction", result)] in
  ret (JObj [("success", JBool true);
             ("message", JStr "Medical data extracted successfully with enhanced demographics parsing");
             ("data", medical_data)]).

(** What follows [extract_and_analyze] (lines 230-605). *)
Definition handle_extraction (file_extension : string) (result : json) : res json :=
  let* extracted_text := of_opt (Json.get result "extracted_text" (JStr "")) in
  let a1 := if String.eqb file_extension "json" then structured_json_stage extracted_text acc0 else acc0 in
  handler_rest result extracted_text a1.

(** [https://([^.]+)\.s3\.amazonaws\.com/(.+)] *)
Definition s3_pattern : regex :=
  seqs [lit "https://"; RGroup 1 (plus (fun c => negb (Ascii.eqb c ".")));
        lit ".s3.amazonaws.com/"; RGroup 2 (plus (fun c => negb (Ascii.eqb c "010")))]%nat.

(** [file_name.split('.')[-1].lower() if '.' in file_name else 'txt'] *)
Definition file_extension_of (file_name : json) : res string :=
  match file_name with
  | JStr s => ret (if Py.contains "." s then Py.lower (last (Py.split_on "." s) "") else "txt")
  | JArr l => if existsb (fun y => match y with JStr s => String.eqb s "." | _ => false end) l
              then inr ExcOther else ret "txt"
  | JObj fs => if dict_mem "." fs then inr ExcOther else ret "txt"
  | _ => inr ExcOther
  end.

(** The outcome of [AWSTextExtractor(...)] (lines 192-197): [_init_aws_clients]
    re-raises what it catches, a [ClientError] of [sts.assume_role] when
    [aws_role_arn] is set, or another exception. *)
Inductive init_reply := InitOk | InitClientError | InitOtherError.

(** *** Rendering a response

    [JSONResponse] renders its content with [json.dumps(content,
    ensure_ascii=False, allow_nan=False).encode("utf-8")]: a lone surrogate in
    a string or key makes the strict UTF-8 codec raise, and a float that is
    NaN or infinite makes [json.dumps] raise. *)
Definition no_surrogate (s : string) : bool :=
  forallb (fun c => negb ((55296 <=? c) && (c <=? 57343))) (Py.code_points s).

Definition digits_value (ds : list ascii) : Z :=
  fold_left (fun n c => n * 10 + (Z.of_nat (nat_of_ascii c) - 48)) ds 0.

(** A number lexeme stands for what [json.loads] makes of it: an [int] when it
    has neither fraction nor exponent, otherwise [float(lexeme)], which is
    infinite when the decimal value reaches the midpoint between the largest
    double and 2^1024. *)
Definition finite_number (lexeme : string) : bool :=
  if existsb (String.eqb lexeme) ["NaN"; "Infinity"; "-Infinity"] then false else
  let l := list_ascii_of_string lexeme in
  let l1 := match l with c :: r => if Ascii.eqb c "-"%char then r else l | [] => l end in
  let '(intp, r1) := JsonParse.p_digits l1 in
  let '(frac, r2) := match r1 with
                     | c :: r => if Ascii.eqb c "."%char then JsonParse.p_digits r else ([], r1)
                     | [] => ([], r1)
                     end in
  let '(is_float, ex) :=
    match r2 with
    | c :: r => if Ascii.eqb c "e"%char || Ascii.eqb c "E"%char then
                  match r with
                  | d :: r' => if Ascii.eqb d "-"%char then (true, - digits_value r')
                               else if Ascii.eqb d "+"%char then (true, digits_value r')
                               else (true, digits_value r)
                  | [] => (true, 0)
                  end
                else (negb (Nat.eqb (length frac) 0) || negb (Nat.eqb (length r1) (length r2)), 0)
    | [] => (negb (Nat.eqb (length r1) 0), 0)
    end in
  if negb is_float then true else
  let m := digits_value (intp ++ frac) in
  let e := ex - Z.of_nat (length frac) in
  let limit := (2 ^ 54 - 1) * 2 ^ 970 in
  if m =? 0 then true
  else if 0 <=? e then (e <? 400) && (m * 10 ^ e <? limit)
  else if Z.of_nat (length (intp ++ frac)) + e <=? 308 then true
  else m <? limit * 10 ^ (- e).

Fixpoint renders (v : json) : bool :=
  match v with
  | JNull | JBool _ => true
  | JNum n => finite_number n
  | JStr s => no_surrogate s
  | JArr l => forallb renders l
  | JObj fs => forallb (fun kv => no_surrogate (fst kv) && renders (snd kv)) fs
  end.

(** The handlers of the [try]: [except ClientError] gives 400 and
    [except Exception], which also catches the [HTTPException]s raised inside,
    gives 500. *)
Definition to_response (r : res json) : outcome json :=
  match r with
  | inl r => Return r
  | inr ExcClientError => HttpError 400
  | inr _ => HttpError 500
  end.

Definition rendered (o : outcome json) : outcome json :=
  match o with
  | Return body => if renders body then Return body else HttpError 500
  | o => o
  end.

Section Handler.
Variable extractor_init : init_reply.
(** [s3_client.get_object(Bucket, Key)['Body'].read()]; [None] when it raises. *)
Variable get_object : string -> string -> option string.
(** [extractor.extract_and_analyze(...)]: its result dict, or [None] when it
    raises; its extraction steps and [_perform_ner] catch every exception, so
    what it raises is the [ValueError] of an unsupported file type, never a
    [ClientError]. *)
Variable extract_and_analyze : extraction_call -> option json.

(** The body of the [try] of [extract_medical_data(request)]. *)
Definition extract_medical_data_body (request : list (string * json)) : res json :=
  let file_url := Json.assoc_last "file_url" request in
  let file_name := match Json.assoc_last "file_name" request with Some v => v | None => JStr "medical-document" end in
  if negb (match file_url with Some u => py_truthy u | None => false end) then inr (ExcHTTP 400) else
  let* _ := match extractor_init with
            | InitOk => ret tt
            | InitClientError => inr ExcClientError
            | InitOtherError => inr ExcOther
            end in
  let* url := match file_url with Some (JStr u) => ret u | _ => inr ExcOther end in
  match re_match s3_pattern url with
  | None => inr (ExcHTTP 400)
  | Some cs =>
      let* bucket_name := of_opt (group url cs 1%nat) in
      let* object_key := of_opt (group url cs 2%nat) in
      let* file_content := match get_object bucket_name object_key with
                           | Some c => ret c
                           | None => inr (ExcHTTP 400)
                           end in
      let* file_extension := file_extension_of file_name in
      let* result := of_opt (extract_and_analyze {| call_file := file_content; call_file_type := file_extension;
                                                    call_include_ner := true |}) in
      handle_extraction file_extension result
  end.

(** The endpoint: FastAPI renders the returned dict as a [JSONResponse],
    outside the handler, and a failing rendering answers 500. *)
Definition extract_medical_data (request : list (string * json)) : outcome json :=
  rendered (to_response (extract_medical_data_body request)).

End Handler.

(** [response["data"][k]] of a successful response. *)
Definition data_field (o : outcome json) (k : string) : option json :=
  match o with
  | Return r => match Json.getitem r "data" with Some d => Json.getitem d k | None => None end
  | _ => None
  end.

End MedicalData.

(** Inputs for the extraction endpoint. *)
Module MedicalInputs.
Import Routes MedicalData.

Definition sample_request : list (string * json) :=
  [("file_url", JStr "https://records.s3.amazonaws.com/patient/notes.txt"); ("file_name", JStr "notes.txt")].

Definition json_request : list (string * json) :=
  [("file_url", JStr "https://records.s3.amazonaws.com/patient/record.json"); ("file_name", JStr "record.json")].

(** An extraction whose text is the file and whose entity recognition found
    the given medical and PHI entities. *)
Definition analyze_with (medical phi : list json) (c : extraction_call) : option json :=
  Some (JObj [("extracted_text", JStr (call_file c)); ("file_type", JStr (call_file_type c));
                   ("ner_analysis", JObj [("medical_entities", JArr medical); ("phi_entities", JArr phi)])]).

Definition phi (type text : string) : json :=
  JObj [("text", JStr text); ("category", JStr "PROTECTED_HEALTH_INFORMATION"); ("type", JStr type)].

(** A JSON record with a vital-signs object between a medication list and a
    condition list. *)
Definition vitals_record : string :=
  dq "{`medications`: [{`name`: `A`}], `vitals`: {`bp`: `120/80`}, `conditions`: [`flu`]}".

Definition vitals_record_result : json :=
  JObj [("extracted_text", JStr vitals_record); ("file_type", JStr "json");
        ("ner_analysis", JObj [("medical_entities", JArr []); ("phi_entities", JArr [])])].

End MedicalInputs.

(** ** file_upload.py: the rest of [S3FileUploader], and the upload routes of s3_routes.py *)
Module FileUpload.
Import Routes MedicalData.
Local Open Scope Z_scope.

(** [p.rfind(c)]: the last index of [c] in [p], -1 when [c] does not occur. *)
Fixpoint rfind_aux (c : ascii) (l : list ascii) (i best : Z) : Z :=
  match l with
  | [] => best
  | d :: r => rfind_aux c r (i + 1) (if Ascii.eqb c d then i else best)
  end.
Definition rfind (c : ascii) (p : string) : Z := rfind_aux c (list_ascii_of_string p) 0 (-1).

(** [p[a:b]] for [0 <= a <= b]. *)
Definition slice (a b : Z) (p : string) : string := substring (Z.to_nat a) (Z.to_nat (b - a)) p.

(** The [while] loop of [genericpath._splitext]: whether a character of
    [p[filenameIndex:dotIndex]] is not a dot. *)
Fixpoint has_non_dot (l : list ascii) : bool :=
  match l with
  | [] => false
  | c :: r => if negb (Ascii.eqb c ".") then true else has_non_dot r
  end.

(** [os.path.splitext(p)] (posixpath): the extension starts at the last dot
    after the last slash, unless only dots precede that dot in the last
    component (a leading-dot name has no extension). *)
Definition splitext (p : string) : string * string :=
  let sepIndex := rfind "/" p in
  let dotIndex := rfind "." p in
  if sepIndex <? dotIndex then
    if has_non_dot (list_ascii_of_string (slice (sepIndex + 1) dotIndex p))
    then (slice 0 dotIndex p, slice dotIndex (Z.of_nat (String.length p)) p)
    else (p, "")
  else (p, "").

Section Uploader.
(** [datetime.now().strftime("%Y%m%d_%H%M%S")] *)
Variable timestamp : string.
(** [str(uuid.uuid4())] *)
Variable uuid4 : string.
(** [datetime.now().isoformat()] *)
Variable now_iso : string.

(** [generate_file_key(original_filename, folder)] *)
Definition generate_file_key (original_filename : string) (folder : string) : string :=
  let file_extension := snd (splitext original_filename) in
  let unique_id := Py.take 8 uuid4 in
  let filename := (timestamp ++ "_" ++ unique_id ++ file_extension)%string in
  (folder ++ "/" ++ filename)%string.

(** [validate_pdf_file(file)]; [None] is the AttributeError of
    [file.filename.lower()] on a file without a name. *)
Definition validate_pdf_file (f : upload) : option bool :=
  if negb (match content_type f with Some c => String.eqb c "application/pdf" | None => false end)
  then Some false
  else match filename f with
       | Some n => Some (Py.endswith (Py.lower n) ".pdf")
       | None => None
       end.

(** The arguments of [s3_client.put_object]. *)
Record put_request := {
  put_bucket : string;
  put_key : string;
  put_body : string;
  put_content_type : option string;
  put_metadata : list (string * string)
}.

(** Its outcome: success, a botocore [ClientError] with its error code, or
    another exception. *)
Inductive put_reply := PutOk | PutClientError (error_code : string) | PutOtherError.

Variable put_object : put_request -> put_reply.

(** [upload_file(file, bucket_name, folder, validate_pdf)]: the [put_object]
    calls made, then the dict returned or the exception raised.  The
    [HTTPException(400)] of a failed validation is raised inside the [try] and
    caught by its [except Exception], which raises [HTTPException(500)]; so
    are the AttributeError of a file without a name and the TypeError of
    [os.path.splitext(None)]. *)
Definition upload_file (f : upload) (bucket_name folder : string) (validate_pdf : bool)
    : list put_request * outcome json :=
  (* [if validate_pdf and not self.validate_pdf_file(file)] *)
  match (if validate_pdf then validate_pdf_file f else Some true) with
  | None => ([], HttpError 500)
  | Some false => ([], HttpError 500)
  | Some true =>
      match filename f with
      | None => ([], HttpError 500)
      | Some name =>
          let file_key := generate_file_key name folder in
          let file_content := Routes.file_content f in
          let size := Z.of_nat (String.length file_content) in
          let req := {| put_bucket := bucket_name; put_key := file_key; put_body := file_content;
                        put_content_type := content_type f;
                        put_metadata := [("original_filename", name); ("upload_timestamp", now_iso);
                                         ("file_size", z_str size)] |} in
          match put_object req with
          | PutOk =>
              let file_url := ("https://" ++ bucket_name ++ ".s3.amazonaws.com/" ++ file_key)%string in
              ([req], Return (JObj [("success", JBool true); ("message", JStr "File uploaded successfully");
                                    ("file_key", JStr file_key); ("file_url", JStr file_url);
                                    ("original_filename", JStr name); ("file_size", JNum (z_str size));
                                    ("bucket_name", JStr bucket_name)]))
          | PutClientError code =>
              ([req], HttpError (if String.eqb code "NoSuchBucket" then 404
                                 else if String.eqb code "AccessDenied" then 403 else 500))
          | PutOtherError => ([req], HttpError 500)
          end
      end
  end.

(** [settings.s3_bucket_name] *)
Variable s3_bucket_name : string.

(** [POST /upload/pdf] ([validate_pdf=True]) and [POST /upload/file]
    ([validate_pdf=False]): [if not file] never holds for an [UploadFile];
    the result is the 200 response's content, an [HTTPException] is
    re-raised and any other exception becomes HTTP 500. *)
Definition upload_route (validate_pdf : bool) (f : upload) (folder : string)
    : list put_request * outcome json :=
  let '(reqs, o) := upload_file f s3_bucket_name folder validate_pdf in
  (reqs, match o with
         | Return r => Return r
         | HttpError s => HttpError s
         | OtherException => HttpError 500
         end).

Definition upload_pdf (f : upload) (folder : string) := upload_route true f folder.
Definition upload_any_file (f : upload) (folder : string) := upload_route false f folder.

End Uploader.

End FileUpload.

(** ** text_extraction.py: [extract_and_analyze], [_perform_ner] and
    [_get_extraction_method], and the full responses of
    text_extraction_routes.py *)
Module TextAnalysis.
Import TextExtraction Routes MedicalData.
Local Open Scope Z_scope.

(** [_get_extraction_method(file_type)] *)
Definition extraction_methods : list (string * string) :=
  [("pdf", "AWS Textract (with PyPDF2 fallback)"); ("docx", "python-docx"); ("doc", "python-docx");
   ("json", "JSON parser"); ("txt", "Plain text reader")].

Definition get_extraction_method (file_type : string) : string :=
  match dict_get (Py.lower file_type) extraction_methods with Some m => m | None => "Unknown" end.

(** A [str] of the routes as the code points [_perform_ner] works on. *)
Definition pystr_of_string (s : string) : pystr := Py.code_points s.

(** [len(s)] of a [str] *)
Definition py_len (s : string) : json := JNum (z_str (Z.of_nat (Py.str_len s))).

(** [len(b)] of [bytes] *)
Definition py_len_bytes (b : bytes) : json := JNum (z_str (Z.of_nat (String.length b))).

(** The two Comprehend Medical operations. *)
Inductive ner_service := DetectEntitiesV2 | DetectPhi.

(** The reply of a Comprehend Medical call: the response dict, or an
    exception (a [ClientError] or another one) with its [str(e)]. *)
Inductive comprehend_reply :=
| ComprehendOk (response : json)
| ComprehendRaised (is_client_error : bool) (message : string).

Section Ner.
Variable detect_entities_v2 : pystr -> comprehend_reply.
Variable detect_phi : pystr -> comprehend_reply.
(** [str(e)] of an exception the function raises itself (the
    UnicodeEncodeError of [encode], an AttributeError, a TypeError). *)
Variable own_error_message : string.
(** [list(set(xs))] for hashable values: a list of the distinct values, in
    an order Python leaves unspecified. *)
Variable py_set_list : list json -> list json.

(** Steps that raise: the message of the exception. *)
Definition nres (A : Type) := (A + string)%type.
Definition nret {A} (a : A) : nres A := inl a.
Definition nbind {A B} (x : nres A) (f : A -> nres B) : nres B :=
  match x with inl a => f a | inr e => inr e end.
Definition nof_opt {A} (o : option A) : nres A :=
  match o with Some a => inl a | None => inr own_error_message end.
Local Notation "'let!' x := e 'in' k" := (nbind e (fun x => k))
  (at level 200, x name, e at level 100, k at level 200).

Fixpoint map_nres {A B} (f : A -> nres B) (l : list A) : nres (list B) :=
  match l with
  | [] => nret []
  | x :: r => let! y := f x in let! ys := map_nres f r in nret (y :: ys)
  end.

(** [entity.get(k, default)] *)
Definition eget (e : json) (k : string) (d : json) : nres json := nof_opt (Json.get e k d).

(** The dict built for a medical entity. *)
Definition medical_entity_record (entity : json) : nres json :=
  let! t := eget entity "Text" (JStr "") in
  let! c := eget entity "Category" (JStr "") in
  let! ty := eget entity "Type" (JStr "") in
  let! sc := eget entity "Score" (JNum "0.0") in
  let! b := eget entity "BeginOffset" (JNum "0") in
  let! en := eget entity "EndOffset" (JNum "0") in
  let! attrs := eget entity "Attributes" (JArr []) in
  nret (JObj [("text", t); ("category", c); ("type", ty); ("score", sc);
              ("begin_offset", b); ("end_offset", en); ("attributes", attrs)]).

(** The dict built for a PHI entity. *)
Definition phi_entity_record (entity : json) : nres json :=
  let! t := eget entity "Text" (JStr "") in
  let! c := eget entity "Category" (JStr "") in
  let! ty := eget entity "Type" (JStr "") in
  let! sc := eget entity "Score" (JNum "0.0") in
  let! b := eget entity "BeginOffset" (JNum "0") in
  let! en := eget entity "EndOffset" (JNum "0") in
  nret (JObj [("text", t); ("category", c); ("type", ty); ("score", sc);
              ("begin_offset", b); ("end_offset", en)]).

(** [for entity in response.get('Entities', []): entities.append(record(entity))] *)
Definition process_entities (record : json -> nres json) (response : json) : nres (list json) :=
  let! es := nof_opt (Json.get response "Entities" (JArr [])) in
  let! items := nof_opt (py_iter es) in
  map_nres record items.

(** [hash(v)]: lists and dicts are unhashable (TypeError). *)
Definition hashable (v : json) : bool :=
  match v with JArr _ | JObj _ => false | _ => true end.

(** [list(set([e[k] for e in entities]))] *)
Definition set_of_field (k : string) (entities : list json) : nres (list json) :=
  let! vs := map_nres (fun e => nof_opt (Json.getitem e k)) entities in
  if forallb hashable vs then nret (py_set_list vs) else inr own_error_message.

(** The dict returned by both [except] branches. *)
Definition ner_error (message : string) : json :=
  JObj [("error", JStr ("NER analysis failed: " ++ message)); ("medical_entities", JArr []);
        ("phi_entities", JArr []); ("total_medical_entities", JNum "0"); ("total_phi_entities", JNum "0")].

Definition comprehend (r : comprehend_reply) : nres json :=
  match r with ComprehendOk v => nret v | ComprehendRaised _ m => inr m end.

(** [_perform_ner(text)]: the Comprehend Medical calls made, in order, and
    the dict returned; every exception ends in [ner_error]. *)
Definition perform_ner (text : string) : list (ner_service * pystr) * json :=
  match ner_submission (pystr_of_string text) with
  | None => ([], ner_error own_error_message)
  | Some t =>
      let calls1 := [(DetectEntitiesV2, t)] in
      match (let! er := comprehend (detect_entities_v2 t) in process_entities medical_entity_record er) with
      | inr m => (calls1, ner_error m)
      | inl entities =>
          let calls2 := calls1 ++ [(DetectPhi, t)] in
          match (let! pr := comprehend (detect_phi t) in
                 let! phi_entities := process_entities phi_entity_record pr in
                 let! categories := set_of_field "category" entities in
                 let! types := set_of_field "type" entities in
                 nret (JObj [("medical_entities", JArr entities); ("phi_entities", JArr phi_entities);
                             ("total_medical_entities", JNum (z_str (Z.of_nat (length entities))));
                             ("total_phi_entities", JNum (z_str (Z.of_nat (length phi_entities))));
                             ("categories", JArr categories); ("types", JArr types)])) with
          | inl d => (calls2, d)
          | inr m => (calls2, ner_error m)
          end
      end
  end.

End Ner.

Section Analyzer.
Variable be : backends.
(** [_perform_ner], which catches every exception itself. *)
Variable ner : string -> json.

(** [extract_and_analyze(file, file_type, include_ner)] on bytes: the
    extraction calls, the texts given to [_perform_ner], and the result
    dict ([None] when it raises, which only [_extract_text] can do). *)
Definition extract_and_analyze (file : bytes) (file_type : string) (include_ner : bool)
    : list call * list string * option json :=
  let '(calls, r) := extract_text be file file_type in
  match r with
  | UnsupportedFileType _ => (calls, [], None)
  | Extracted t =>
      let result := [("extracted_text", JStr t); ("file_type", JStr file_type);
                     ("text_length", py_len t); ("extraction_method", JStr (get_extraction_method file_type))] in
      if include_ner && negb (String.eqb t "") then
        (calls, [t], Some (JObj (result ++ [("ner_analysis", ner t)])))
      else (calls, [], Some (JObj result))
  end.

(** What the upload handlers call. *)
Definition analyzer (c : extraction_call) : option json :=
  let '(_, _, r) := extract_and_analyze (call_file c) (call_file_type c) (call_include_ner c) in r.

(** [result.update({...})] with the upload's metadata, then the 200 body. *)
Definition with_metadata (f : upload) (result : json) : json :=
  match result with
  | JObj fs =>
      JObj (fold_left (fun d kv => dict_set d (fst kv) (snd kv))
              [("filename", match filename f with Some n => JStr n | None => JNull end);
               ("file_size_bytes", py_len_bytes (file_content f));
               ("content_type", match content_type f with Some c => JStr c | None => JNull end)] fs)
  | v => v
  end.

Definition envelope (message : string) (data : json) : json :=
  JObj [("success", JBool true); ("message", JStr message); ("data", data)].

(** The responses of [POST /extract/text-and-ner] and [POST /extract/text-only]:
    the [JSONResponse] is rendered inside the [try], so a content that does
    not render ends in the [except Exception] branch, 500. *)
Definition text_and_ner_response (f : upload) (include_ner : bool) : outcome json :=
  match snd (extract_text_and_ner analyzer f include_ner) with
  | Return r =>
      let body := envelope "Text extraction and analysis completed successfully" (with_metadata f r) in
      if renders body then Return body else HttpError 500
  | HttpError s => HttpError s
  | OtherException => HttpError 500
  end.

Definition text_only_response (f : upload) : outcome json :=
  match snd (extract_text_only analyzer f) with
  | Return r =>
      let body := envelope "Text extraction completed successfully" (with_metadata f r) in
      if renders body then Return body else HttpError 500
  | HttpError s => HttpError s
  | OtherException => HttpError 500
  end.

(** The response of [POST /extract/ner-only]. *)
Definition ner_only_response (text : string) : outcome json :=
  match snd (analyze_ner_only ner text) with
  | Return r => Return (envelope "NER analysis completed successfully"
                          (JObj [("text_length", py_len text); ("ner_analysis", r)]))
  | HttpError s => HttpError s
  | OtherException => HttpError 500
  end.

End Analyzer.

End TextAnalysis.

(** ** care_plan.py: [_analyze_model_error] and [list_available_models];
    care_plan_routes.py: [/generate] and [/compare] *)
Module CarePlanRoutes.
Import CarePlanModule Routes MedicalData.
Local Open Scope Z_scope.
Local Notation "'let*' x := e 'in' k" := (rbind e (fun x => k))
  (at level 200, x name, e at level 100, k at level 200).

(** [analysis.update({...})] *)
Definition update (d kvs : list (string * string)) : list (string * string) :=
  fold_left (fun d kv => dict_set d (fst kv) (snd kv)) kvs d.

(** [_analyze_model_error(error_code, error_message, model_id)] *)
Definition analyze_model_error (error_code error_message model_id : string) : list (string * string) :=
  let analysis := [("error_type", error_code); ("likely_cause", "Unknown");
                   ("recommendation", "Check AWS documentation"); ("requires_action", "Unknown")] in
  let m := Py.lower error_message in
  if String.eqb error_code "AccessDeniedException" then
    if Py.contains "inference profile" m then
      update analysis [("likely_cause", "Model requires inference profile access");
                       ("recommendation", "Use inference profile ID (us.anthropic.* format) instead of direct model ID");
                       ("requires_action", "Update model ID format")]
    else if Py.contains "payment" m || Py.contains "billing" m then
      update analysis [("likely_cause", "Premium model requires payment method");
                       ("recommendation", "Add payment method in AWS console for premium models");
                       ("requires_action", "Configure billing")]
    else
      update analysis [("likely_cause", "Insufficient IAM permissions or model access not requested");
                       ("recommendation", "Check IAM permissions and request model access in Bedrock console");
                       ("requires_action", "Update IAM or request access")]
  else if String.eqb error_code "ValidationException" then
    if Py.contains "throughput" m then
      update analysis [("likely_cause", "Model requires inference profile for on-demand access");
                       ("recommendation", "Use inference profile ID (us.anthropic.* format)");
                       ("requires_action", "Update model ID")]
    else
      update analysis [("likely_cause", "Invalid model ID or request format");
                       ("recommendation", "Check model ID format and request parameters");
                       ("requires_action", "Fix model ID or request format")]
  else if String.eqb error_code "ThrottlingException" then
    update analysis [("likely_cause", "Rate limit exceeded");
                     ("recommendation", "Implement retry logic with backoff");
                     ("requires_action", "Add rate limiting")]
  else analysis.

(** The model IDs [list_available_models] returns when anything raises. *)
Definition fallback_model_ids : list string :=
  ["anthropic.claude-sonnet-4-5-20250929-v1:0"; "anthropic.claude-3-5-sonnet-20241022-v2:0";
   "anthropic.claude-3-sonnet-20240229-v1:0"; "anthropic.claude-3-haiku-20240307-v1:0";
   "amazon.titan-text-express-v1"; "amazon.nova-micro-v1:0"].

(** [list_available_models()]: [response] is the reply of
    [boto3.client('bedrock', ...).list_foundation_models()], [None] when
    creating the client or the call raises. *)
Definition list_available_models (response : option json) : list json :=
  match (let* r := of_opt response in
         let* summaries := of_opt (Json.get r "modelSummaries" (JArr [])) in
         let* models := of_opt (py_iter summaries) in
         fold_res (fun suitable model =>
                     let* om := of_opt (Json.get model "outputModalities" (JArr [])) in
                     let* has_text := of_opt (py_in "TEXT" om) in
                     if has_text then
                       let* id := of_opt (Json.getitem model "modelId") in ret (suitable ++ [id])
                     else ret suitable) models []) with
  | inl suitable => suitable
  | inr _ => map JStr fallback_model_ids
  end.

(** The model IDs of [settings] the routes use. *)
Record bedrock_settings := {
  bedrock_model_id : string;
  claude_35_sonnet_model_id : string;
  claude_37_sonnet_model_id : string;
  claude_3_sonnet_model_id : string;
  nova_micro_model_id : string
}.




Section Endpoints.
Variable settings : bedrock_settings.
(** [care_plan_generator.generate_care_plan(prescription, model_id)] *)
Variable generate : DoctorPrescription -> string -> gen_outcome.
(** The text after "Unexpected error in care plan generation: ". *)
Variable unexpected_detail : string.







End Endpoints.

End CarePlanRoutes.

(** * Properties *)


Example json_loads_ex1 :
  json_loads (dq " {`a`: [1, -2.5e3, `x\n`], `b`: {}, `c`: null, `d`: 012} ") = None /\
  json_loads (dq " {`a`: [1, -2.5e3, `x\u0041`], `b`: {}, `c`: null} ") =
  Some (JObj [("a", JArr [JNum "1"; JNum "-2.5e3"; JStr "xA"]); ("b", JObj []); ("c", JNull)]).
Proof. split; vm_compute; reflexivity. Qed.


Module CarePlanProofs.
Import CarePlanModule DispatchSpec CarePlanInputs.

Lemma obind_Some {A} (o : option A) : obind o Some = o.
Proof. destruct o; reflexivity. Qed.

Lemma assoc_last_cons_other (k k' : string) (v : json) (fs : list (string * json)) :
  k' <> k -> Json.assoc_last k' ((k, v) :: fs) = Json.assoc_last k' fs.
Proof.
  intros Hne; simpl.
  destruct (Json.assoc_last k' fs); [reflexivity|].
  destruct (String.eqb_spec k' k); [contradiction | reflexivity].
Qed.

(** C1: the request body and the reply path are both chosen by the model
    family of the identifier: "anthropic.claude" first, then "amazon.titan",
    then "amazon.nova", and the default Claude format and lenient Claude
    extraction for every other identifier. *)
Theorem C1_model_family_dispatch (model_id prompt : string) (response_body : json) :
  request_body model_id prompt = format_body (model_family_of model_id) prompt /\
  extract_content model_id response_body = reply_path (model_family_of model_id) response_body.
Proof.
  unfold request_body, extract_content, model_family_of.
  destruct (Py.contains "anthropic.claude" model_id);
  [|destruct (Py.contains "amazon.titan" model_id);
    [|destruct (Py.contains "amazon.nova" model_id)]];
  split; try reflexivity; simpl;
  repeat match goal with
         | |- context [Json.getitem ?j ?k] => destruct (Json.getitem j k); simpl
         | |- context [Json.index0 ?j] => destruct (Json.index0 j); simpl
         | |- context [Json.get ?j ?k ?d] => destruct (Json.get j k d); simpl
         end; reflexivity.
Qed.




(** C7: a plan returned by generate_care_plan is the fallback plan or a JSON
    object validated as a CarePlan; a section object without "priority" gets
    "medium"; a key outside the eight CarePlan fields does not change the
    validated plan. *)
Theorem C7_plan_record_shape
  (create_prompt : DoctorPrescription -> string) (invoke_model : string -> json -> invoke_reply)
  (now : string) (p : DoctorPrescription) (model_id : string) (cp : CarePlan)
  (Hgen : generate_care_plan create_prompt invoke_model now p model_id = Generated cp) :
  ((exists completion, cp = create_fallback_care_plan now p completion) \/
   (exists fs, care_plan_of_json now (JObj fs) = Some cp)) /\
  (forall sfs t c,
     Json.assoc_last "title" sfs = Some (JStr t) ->
     Json.assoc_last "content" sfs = Some (JStr c) ->
     Json.assoc_last "priority" sfs = None ->
     section_of_json (JObj sfs) = Some {| title := t; content := c; priority := "medium" |}) /\
  (forall now' fs k v, ~ In k care_plan_fields ->
     care_plan_of_json now' (JObj ((k, v) :: fs)) = care_plan_of_json now' (JObj fs)).
Proof.
  split; [|split].
  - unfold generate_care_plan in Hgen.
    destruct (invoke_model _ _) as [rb| |]; [|destruct (String.eqb _ _); [|destruct (String.eqb _ _)]; discriminate|discriminate].
    destruct rb; try discriminate.
    destruct (extract_content _ _) as [[]|]; try discriminate.
    destruct (json_loads _) as [data|].
    + right. destruct (care_plan_of_json now data) eqn:E; [|discriminate].
      injection Hgen as <-. destruct data as [| | | | |dfs]; try discriminate. exists dfs. exact E.
    + left. injection Hgen as <-. eexists; reflexivity.
  - intros sfs t c Ht Hc Hp. unfold section_of_json, v_req, v_opt.
    rewrite Ht, Hc, Hp. reflexivity.
  - intros now' fs k v Hk. unfold care_plan_of_json, v_req, v_opt.
    simpl in Hk.
    repeat rewrite assoc_last_cons_other by (intro E; apply Hk; rewrite <- E; simpl; intuition).
    reflexivity.
Qed.

Lemma C7_plan_record_shape_witness :
  generate_care_plan sample_prompt (fun _ _ => claude_reply "not json") sample_now
    sample_prescription sample_claude_model =
  Generated (create_fallback_care_plan sample_now sample_prescription "not json") /\
  ((exists completion, create_fallback_care_plan sample_now sample_prescription "not json" =
                    create_fallback_care_plan sample_now sample_prescription completion) \/
   (exists fs, care_plan_of_json sample_now (JObj fs) =
               Some (create_fallback_care_plan sample_now sample_prescription "not json"))).
Proof.
  assert (H : generate_care_plan sample_prompt (fun _ _ => claude_reply "not json") sample_now
    sample_prescription sample_claude_model =
    Generated (create_fallback_care_plan sample_now sample_prescription "not json"))
    by (vm_compute; reflexivity).
  split; [exact H|].
  exact (proj1 (C7_plan_record_shape _ _ _ _ _ _ H)).
Defined.

End CarePlanProofs.

Module TextExtractionProofs.
Import TextExtraction ExtractionInputs.
Local Open Scope Z_scope.

(** C4 (counterexample): a txt or docx document is read by a local parser only;
    the document-OCR service is never called for it. *)
Lemma C4_txt_docx_skip_ocr :
  extract_text sample_backends "hello" "txt" = ([CallUtf8Decode], Extracted "hello") /\
  extract_text sample_backends "word-bytes" "docx" = ([CallDocx], Extracted "para").
Proof. split; vm_compute; reflexivity. Qed.

(** C4 (as amended): after lower-casing the file type, pdf goes to Textract
    with PyPDF2 as fallback, docx/doc to python-docx, json to the JSON parser,
    txt to UTF-8 decoding, and any other type raises the unsupported-file-type
    error without any call. *)
Theorem C4_extract_text_dispatch (be : backends) (file : bytes) (file_type : string) :
  let ft := Py.lower file_type in
  let r := extract_text be file file_type in
  (ft = "pdf" -> (fst r = [CallTextract] \/ fst r = [CallTextract; CallPyPDF2]) /\
                 exists t, snd r = Extracted t) /\
  ((ft = "docx" \/ ft = "doc") -> fst r = [CallDocx] /\ exists t, snd r = Extracted t) /\
  (ft = "json" -> fst r = [CallJsonParser] /\ exists t, snd r = Extracted t) /\
  (ft = "txt" -> fst r = [CallUtf8Decode] /\ exists t, snd r = Extracted t) /\
  (~ In ft ["pdf"; "docx"; "doc"; "json"; "txt"] -> r = ([], UnsupportedFileType ft)).
Proof.
  cbv zeta. unfold extract_text.
  set (ft := Py.lower file_type).
  assert (Hpdf : forall cs t, extract_from_pdf be file = (cs, t) ->
                   cs = [CallTextract] \/ cs = [CallTextract; CallPyPDF2]).
  { unfold extract_from_pdf, extract_pdf_fallback. intros cs t.
    destruct (detect_document_text be file); [destruct (textract_lines _ _)| |];
    intros E; injection E; intros; subst; auto. }
  refine (conj _ (conj _ (conj _ (conj _ _)))).
  - intros ->. simpl. destruct (extract_from_pdf be file) as [cs t] eqn:E.
    simpl. split; [exact (Hpdf cs t eq_refl)|eauto].
  - intros [-> | ->]; simpl; eauto.
  - intros ->; simpl; eauto.
  - intros ->; simpl; eauto.
  - intros H.
    destruct (String.eqb_spec ft "pdf") as [e|]; [exfalso; apply H; rewrite e; simpl; intuition|].
    destruct (String.eqb_spec ft "docx") as [e|]; [exfalso; apply H; rewrite e; simpl; intuition|].
    destruct (String.eqb_spec ft "doc") as [e|]; [exfalso; apply H; rewrite e; simpl; intuition|].
    destruct (String.eqb_spec ft "json") as [e|]; [exfalso; apply H; rewrite e; simpl; intuition|].
    destruct (String.eqb_spec ft "txt") as [e|]; [exfalso; apply H; rewrite e; simpl; intuition|].
    reflexivity.
Qed.

Lemma utf8_char_len_pos (c a : Z) :
  utf8_char_len c = Some a -> 1 <= a /\ (a = 1 <-> (0 <=? c) && (c <? 128) = true).
Proof.
  unfold utf8_char_len; intros H.
  destruct (c <? 0) eqn:E0; [discriminate|].
  destruct (c <? 128) eqn:E1.
  - injection H as <-. rewrite Z.ltb_ge in E0. apply Z.leb_le in E0. rewrite E0. simpl. lia.
  - rewrite andb_false_r.
    destruct (c <? 2048); [injection H as <-; split; [lia|split; [lia|discriminate]]|].
    destruct ((55296 <=? c) && (c <=? 57343)); [discriminate|].
    destruct (c <? 65536); [injection H as <-; split; [lia|split; [lia|discriminate]]|].
    destruct (c <? 1114112); [injection H as <-; split; [lia|split; [lia|discriminate]]|discriminate].
Qed.

Lemma utf8_length_bounds (t : pystr) (n : Z) :
  utf8_length t = Some n -> Z.of_nat (length t) <= n /\ (single_byte t = true <-> n = Z.of_nat (length t)).
Proof.
  revert n; induction t as [|c r IH]; intros n H; simpl in H.
  - injection H as <-. simpl. split; [lia|tauto].
  - destruct (utf8_char_len c) as [a|] eqn:Ea; [|discriminate].
    destruct (utf8_length r) as [b|] eqn:Eb; [|discriminate].
    injection H as <-.
    destruct (utf8_char_len_pos c a Ea) as [Ha Hsb].
    destruct (IH b eq_refl) as [Hb Hr].
    unfold single_byte in *; simpl length; simpl forallb. rewrite andb_true_iff.
    split; [lia|].
    rewrite <- Hsb, Hr. lia.
Qed.

Lemma utf8_length_firstn (t : pystr) (n : Z) (k : nat) :
  utf8_length t = Some n -> exists m, utf8_length (firstn k t) = Some m.
Proof.
  revert n k; induction t as [|c r IH]; intros n k H.
  - rewrite firstn_nil. eauto.
  - destruct k as [|k]; [simpl; eauto|].
    simpl in H |- *.
    destruct (utf8_char_len c) as [a|]; [|discriminate].
    destruct (utf8_length r) as [b|] eqn:Eb; [|discriminate].
    destruct (IH b k eq_refl) as [m Hm]. rewrite Hm. eauto.
Qed.

(** C9 (counterexample): a one-character text "\u00e9" is sent unmodified, its
    UTF-8 length (2 bytes) is at most 20,000, yet it is not single-byte encoded. *)
Lemma C9_short_multibyte_text :
  ner_submission [233] = Some [233] /\ utf8_length [233] = Some 2 /\ single_byte [233] = false.
Proof. vm_compute. repeat split. Qed.

(** C9 (as amended): a text whose UTF-8 encoding has n bytes is sent unmodified
    when n <= 20,000 and cut to its first 20,000 code points otherwise; when it
    is cut, the sent text is at most 20,000 bytes exactly when it is
    single-byte encoded. *)
Theorem C9_ner_truncation (text : pystr) (n : Z) (Hn : utf8_length text = Some n) :
  ner_submission text = Some (if n <=? 20000 then text else firstn 20000 text) /\
  (20000 < n ->
   exists m, utf8_length (firstn 20000 text) = Some m /\
             (m <= 20000 <-> single_byte (firstn 20000 text) = true)).
Proof.
  split.
  - unfold ner_submission, max_length. rewrite Hn.
    destruct (Z.ltb_spec 20000 n), (Z.leb_spec n 20000); try lia; reflexivity.
  - intros Hlt.
    destruct (utf8_length_firstn text n 20000 Hn) as [m Hm].
    exists m; split; [exact Hm|].
    destruct (utf8_length_bounds _ _ Hm) as [Hge Hsb].
    destruct (utf8_length_bounds _ _ Hn) as [Hge' Hsb'].
    assert (E20 : Z.of_nat 20000 = 20000) by reflexivity.
    destruct (Nat.le_gt_cases (length text) 20000) as [Hshort|Hlong].
    + rewrite firstn_all2 in * by exact Hshort.
      rewrite Hm in Hn; injection Hn as ->.
      apply Nat2Z.inj_le in Hshort. rewrite E20 in Hshort.
      rewrite Hsb. lia.
    + assert (Hlen : length (firstn 20000 text) = 20000%nat)
        by (rewrite length_firstn; apply Nat.min_l; apply Nat.lt_le_incl; exact Hlong).
      rewrite Hsb, Hlen, E20. rewrite Hlen, E20 in Hge. lia.
Qed.

Lemma C9_ner_truncation_witness :
  utf8_length (repeat 128512 5001) = Some 20004 /\
  ner_submission (repeat 128512 5001) = Some (firstn 20000 (repeat 128512 5001)).
Proof.
  assert (H : utf8_length (repeat 128512 5001) = Some 20004) by (vm_compute; reflexivity).
  split; [exact H|].
  exact (proj1 (C9_ner_truncation _ _ H)).
Defined.

End TextExtractionProofs.

Lemma C4_extract_text_dispatch_witness :
  Py.lower "PDF" = "pdf" /\
  ((fst (TextExtraction.extract_text ExtractionInputs.sample_backends "pdf-bytes" "PDF")
      = [TextExtraction.CallTextract] \/
    fst (TextExtraction.extract_text ExtractionInputs.sample_backends "pdf-bytes" "PDF")
      = [TextExtraction.CallTextract; TextExtraction.CallPyPDF2]) /\
   exists t, snd (TextExtraction.extract_text ExtractionInputs.sample_backends "pdf-bytes" "PDF")
             = TextExtraction.Extracted t).
Proof.
  assert (H : Py.lower "PDF" = "pdf") by reflexivity.
  split; [exact H|].
  exact (proj1 (TextExtractionProofs.C4_extract_text_dispatch
                  ExtractionInputs.sample_backends "pdf-bytes" "PDF") H).
Defined.

Module RouteProofs.
Import Routes.
Local Open Scope Z_scope.

(** C6 (counterexample): when URL generation fails with an exception other
    than a ClientError (here missing credentials), the adapter's get_file_url
    lets that exception through instead of raising HTTP 500. *)
Lemma C6_non_client_error_propagates :
  get_file_url (fun _ => PresignOtherError) "bucket" "uploads/a.pdf" None = OtherException.
Proof. reflexivity. Qed.

(** C6 (as amended): get_file_url asks for a presigned get_object URL for the
    bucket and key whose ExpiresIn is the caller's expiration (3600 when
    omitted) and returns it; a ClientError becomes HTTP 500 and any other
    exception propagates; the GET endpoint answers with that URL and
    expiration, and with HTTP 500 on every failure. *)
Theorem C6_presigned_url_expiration
  (presign : presign_request -> presign_reply) (bucket_name file_key : string) (expiration : option Z) :
  let e := match expiration with Some e => e | None => 3600 end in
  let req := {| client_method := "get_object"; params_bucket := bucket_name;
                params_key := file_key; expires_in := e |} in
  get_file_url presign bucket_name file_key expiration =
    match presign req with
    | PresignOk url => Return url
    | PresignClientError => HttpError 500
    | PresignOtherError => OtherException
    end /\
  get_file_url_route presign bucket_name file_key expiration =
    match presign req with
    | PresignOk url => Return (url, e)
    | _ => HttpError 500
    end.
Proof.
  cbv zeta. unfold get_file_url_route, get_file_url.
  split; destruct (presign _); reflexivity.
Qed.

(** C8 (counterexample): a whitespace-only text, well within the 20,000
    character limit, is rejected with HTTP 400 and never analysed. *)
Lemma C8_blank_text_rejected :
  analyze_ner_only (fun _ => JNull) "   " = ([], HttpError 400).
Proof. reflexivity. Qed.

(** C8 (as amended): an upload without a filename gets 400, a larger one than
    10 MiB gets 413, both without an extraction call, and any other upload is
    extracted exactly once; for ner-only, a blank text gets 400, a text longer
    than 20,000 characters gets 413, both without entity recognition, and any
    other text is analysed exactly once. *)
Theorem C8_input_limits
  (extract_and_analyze : extraction_call -> option json) (perform_ner : string -> json)
  (f : upload) (include_ner : bool) (text : string) :
  let size := Z.of_nat (String.length (file_content f)) in
  let call inc := {| call_file := file_content f; call_file_type := get_file_type f;
                     call_include_ner := inc |} in
  ((filename f = None \/ filename f = Some "") ->
     extract_text_and_ner extract_and_analyze f include_ner = ([], HttpError 400) /\
     extract_text_only extract_and_analyze f = ([], HttpError 400)) /\
  ((exists n, filename f = Some n /\ n <> "") -> max_upload_size < size ->
     extract_text_and_ner extract_and_analyze f include_ner = ([], HttpError 413) /\
     extract_text_only extract_and_analyze f = ([], HttpError 413)) /\
  ((exists n, filename f = Some n /\ n <> "") -> size <= max_upload_size ->
     fst (extract_text_and_ner extract_and_analyze f include_ner) = [call include_ner] /\
     fst (extract_text_only extract_and_analyze f) = [call false]) /\
  (Py.strip text = "" -> analyze_ner_only perform_ner text = ([], HttpError 400)) /\
  (Py.strip text <> "" -> 20000 < Z.of_nat (Py.str_len text) ->
     analyze_ner_only perform_ner text = ([], HttpError 413)) /\
  (Py.strip text <> "" -> Z.of_nat (Py.str_len text) <= 20000 ->
     fst (analyze_ner_only perform_ner text) = [text]).
Proof.
  cbv zeta. unfold extract_text_and_ner, extract_text_only, upload_handler, analyze_ner_only.
  refine (conj _ (conj _ (conj _ (conj _ (conj _ _))))).
  - intros [-> | ->]; split; reflexivity.
  - intros [n [Hn Hne]] Hbig. rewrite Hn.
    destruct n as [|c n]; [congruence|].
    apply Z.ltb_lt in Hbig. rewrite Hbig. split; reflexivity.
  - intros [n [Hn Hne]] Hsmall. rewrite Hn.
    destruct n as [|c n]; [congruence|].
    apply Z.ltb_ge in Hsmall. rewrite Hsmall.
    split; destruct (extract_and_analyze _); reflexivity.
  - intros Hs. rewrite Hs. simpl. rewrite orb_true_r. reflexivity.
  - intros Hs Hlong.
    assert (Ht : String.eqb text "" = false).
    { destruct (String.eqb text "") eqn:E; [|reflexivity].
      apply String.eqb_eq in E; subst; exfalso; apply Hs; reflexivity. }
    apply String.eqb_neq in Hs. rewrite Ht, Hs. simpl.
    apply Z.ltb_lt in Hlong. rewrite Hlong. reflexivity.
  - intros Hs Hshort.
    assert (Ht : String.eqb text "" = false).
    { destruct (String.eqb text "") eqn:E; [|reflexivity].
      apply String.eqb_eq in E; subst; exfalso; apply Hs; reflexivity. }
    apply String.eqb_neq in Hs. rewrite Ht, Hs. simpl.
    apply Z.ltb_ge in Hshort. rewrite Hshort. reflexivity.
Qed.

Definition sample_upload : upload :=
  {| filename := Some "notes.txt"; content_type := Some "text/plain"; file_content := "Patient: Jane Doe" |}.

Lemma C8_input_limits_witness :
  (exists n, filename sample_upload = Some n /\ n <> "") /\
  Z.of_nat (String.length (file_content sample_upload)) <= max_upload_size /\
  fst (extract_text_and_ner (fun _ => Some JNull) sample_upload true) =
    [{| call_file := "Patient: Jane Doe"; call_file_type := "txt"; call_include_ner := true |}].
Proof.
  assert (H1 : exists n, filename sample_upload = Some n /\ n <> "")
    by (exists "notes.txt"; split; [reflexivity|discriminate]).
  assert (H2 : Z.of_nat (String.length (file_content sample_upload)) <= max_upload_size)
    by (vm_compute; discriminate).
  split; [exact H1|split; [exact H2|]].
  exact (proj1 (proj1 (proj2 (proj2 (C8_input_limits (fun _ => Some JNull) (fun _ => JNull)
           sample_upload true "x"))) H1 H2)).
Defined.

End RouteProofs.

Module MedicalDataProofs.
Import Routes Regex MedicalData MedicalInputs.


Lemma dict_get_set {A} (d : list (string * A)) k v f :
  dict_get f (dict_set d k v) = if String.eqb k f then Some v else dict_get f d.
Proof.
  induction d as [|[k' v'] r IH]; simpl; [reflexivity|].
  destruct (String.eqb_spec k k') as [<-|Hne]; simpl.
  - destruct (String.eqb k f); reflexivity.
  - rewrite IH. destruct (String.eqb_spec k' f) as [<-|Hne']; [|reflexivity].
    destruct (String.eqb_spec k k'); [congruence|reflexivity].
Qed.

Lemma dict_mem_set {A} (d : list (string * A)) k v f :
  dict_mem f d = true -> dict_mem f (dict_set d k v) = true.
Proof.
  unfold dict_mem. induction d as [|[k' v'] r IH]; simpl; [discriminate|].
  destruct (String.eqb k k'); simpl; [tauto|].
  intros H. apply orb_true_iff in H as [H|H]; rewrite ?H; [reflexivity|].
  rewrite (IH H). apply orb_true_r.
Qed.

(** [a'] has every field of [a], with the same value. *)
Definition keeps (a a' : acc) : Prop :=
  forall f, dict_mem f (patient_info a) = true ->
            dict_mem f (patient_info a') = true /\ dict_get f (patient_info a') = dict_get f (patient_info a).

Lemma keeps_refl a : keeps a a.
Proof. intros f H; split; [exact H | reflexivity]. Qed.

Lemma keeps_trans a b c : keeps a b -> keeps b c -> keeps a c.
Proof.
  intros Hab Hbc f Hf. destruct (Hab f Hf) as [Hb Eb]. destruct (Hbc f Hb) as [Hc Ec].
  split; [exact Hc | rewrite Ec; exact Eb].
Qed.

Lemma keeps_set_absent a k v : dict_mem k (patient_info a) = false -> keeps a (set_info a k v).
Proof.
  intros Hk f Hf. cbn [set_info patient_info]. split; [apply dict_mem_set, Hf|].
  rewrite dict_get_set. destruct (String.eqb_spec k f) as [->|]; [congruence|reflexivity].
Qed.



Lemma fill_missing_keeps field search a a' : fill_missing field search a = inl a' -> keeps a a'.
Proof.
  unfold fill_missing, rbind, ret.
  destruct (dict_mem field (patient_info a)) eqn:Hm; simpl; [intros H; injection H as <-; apply keeps_refl|].
  destruct search as [[v|]|e]; intros H; try discriminate; injection H as <-;
    [apply keeps_set_absent, Hm | apply keeps_refl].
Qed.

Lemma full_text_stage_keeps ftl a vs a' vs' : full_text_stage ftl (a, vs) = inl (a', vs') -> keeps a a'.
Proof.
  intros H. unfold full_text_stage in H. cbn iota in H.
  destruct (fill_missing "age" (age_search full_age_patterns ftl) a) as [a1|e] eqn:E1; [|discriminate].
  cbn [rbind] in H.
  destruct (fill_missing "gender" (gender_search full_gender_patterns ftl) a1) as [a2|e] eqn:E2; [|discriminate].
  cbn [rbind] in H.
  apply keeps_trans with a1; [exact (fill_missing_keeps _ _ _ _ E1)|].
  apply keeps_trans with a2; [exact (fill_missing_keeps _ _ _ _ E2)|].
  unfold rbind, ret in H.
  destruct (dict_mem "weight" (patient_info a2)) eqn:Hm; cbn [negb] in H; [injection H as <- <-; apply keeps_refl|].
  destruct (weight_search full_weight_patterns ftl) as [[w|]|e]; simpl in H; try discriminate;
    injection H as <- <-; [apply keeps_set_absent, Hm | apply keeps_refl].
Qed.



(** An age line replaces an age already held. *)
Example line_step_age_overwrites :
  dict_get "age" (patient_info (fst (line_step (set_info acc0 "age" (JStr "40"), []) "Age: 52"))) = Some (JStr "52").
Proof. vm_compute. reflexivity. Qed.

Lemma dict_set_nonempty {A} (d : list (string * A)) k v : dict_set d k v <> [].
Proof. destruct d as [|[k' v'] r]; simpl; [|destruct (String.eqb k k')]; discriminate. Qed.

Lemma fold_dict_set_nonempty {A} (l d : list (string * A)) :
  d <> [] -> fold_left (fun d kv => dict_set d (fst kv) (snd kv)) l d <> [].
Proof.
  revert d; induction l as [|kv l IH]; intros d Hd; simpl; [exact Hd|].
  apply IH, dict_set_nonempty.
Qed.

Lemma dict_items_cons_nonempty {A} (f : string * A) fs : dict_items (f :: fs) <> [].
Proof. unfold dict_items; simpl. apply fold_dict_set_nonempty. discriminate. Qed.

Lemma json_loop_app l1 l2 a :
  Forall (fun kv => vital_part_raises kv = false) l1 ->
  json_loop (l1 ++ l2) a = json_loop l2 (json_loop l1 a).
Proof.
  revert a; induction l1 as [|kv l1 IH]; intros a H; [reflexivity|].
  inversion H as [|? ? Hkv Hrest]; subst.
  simpl. unfold json_item. rewrite Hkv. apply IH, Hrest.
Qed.

Lemma json_loop_stop kv post a :
  vital_part_raises kv = true -> json_loop (kv :: post) a = patient_part kv a.
Proof. intros H. simpl. unfold json_item. rewrite H. reflexivity. Qed.

Lemma no_vital_dict_no_raise (pre : list (string * json)) :
  Forall (fun kv => Py.contains "vital" (Py.lower (fst kv)) = false \/
                    (forall f fs, snd kv <> JObj (f :: fs))) pre ->
  Forall (fun kv => vital_part_raises kv = false) pre.
Proof.
  intros H. induction H as [|[k v] l Hkv _ IH]; constructor; [|exact IH].
  simpl in Hkv. unfold vital_part_raises.
  destruct v as [| | | | |fs]; try reflexivity.
  destruct fs as [|f fs].
  - simpl. apply andb_false_r.
  - destruct Hkv as [Hk | Hne]; [rewrite Hk; reflexivity|].
    exfalso. exact (Hne f fs eq_refl).
Qed.

Lemma url_nonempty url cs : re_match s3_pattern url = Some cs -> py_truthy (JStr url) = true.
Proof. destruct url; [vm_compute; discriminate | reflexivity]. Qed.

(** C10 (counterexample): a "vitals" key mapped to an empty dict does not stop
    the structured-JSON pass; the medication listed after it is extracted. *)
Lemma C10_empty_vital_dict_keeps_later_keys :
  data_field (extract_medical_data InitOk
                (fun _ _ => Some (dq "{`vitals`: {}, `medications`: [{`name`: `Aspirin`}]}"))
                (analyze_with [] []) json_request) "medications" =
    Some (JArr [JObj [("name", JStr "Aspirin"); ("medication_name", JStr "Aspirin");
                      ("dosage", JStr "N/A"); ("duration", JStr "As prescribed")]]).
Proof. vm_compute. reflexivity. Qed.

(** C10 (as amended): for a request whose extractor is constructed, whose S3
    file is downloaded and whose extension is json, when the extraction result's text parses to a dict whose
    items are [pre], then a key containing "vital" mapped to [v], then [post],
    and no key of [pre] containing "vital" maps to a non-empty dict: if [v] is
    a non-empty dict, the structured pass stops at that key, keeping only the
    state of [pre] and that key's patient fields, so neither [v]'s own
    medications and conditions nor any key of [post] contribute, and the
    endpoint answers with what the remaining stages compute from that state,
    rendered as a JSON response;
    if [v] is an empty dict, the pass goes on through [post]. *)
Theorem C10_vital_key_stops_json_loop
  (get_object : string -> string -> option string) (extract_and_analyze : extraction_call -> option json)
  (request : list (string * json)) (url file_name bucket key content t : string) (cs : caps)
  (result : json) (fields pre post : list (string * json)) (k : string) (v : json)
  (Hreq : Json.assoc_last "file_url" request = Some (JStr url))
  (Hname : Json.assoc_last "file_name" request = Some (JStr file_name))
  (Hext : file_extension_of (JStr file_name) = inl "json")
  (Hurl : re_match s3_pattern url = Some cs)
  (Hb : group url cs 1 = Some bucket) (Hk : group url cs 2 = Some key)
  (Hget : get_object bucket key = Some content)
  (Hea : extract_and_analyze {| call_file := content; call_file_type := "json"; call_include_ner := true |}
         = Some result)
  (Htext : Json.get result "extracted_text" (JStr "") = Some (JStr t))
  (Hloads : json_loads t = Some (JObj fields))
  (Hitems : dict_items fields = pre ++ (k, v) :: post)
  (Hpre : Forall (fun kv => Py.contains "vital" (Py.lower (fst kv)) = false \/
                            (forall f fs, snd kv <> JObj (f :: fs))) pre)
  (Hvital : Py.contains "vital" (Py.lower k) = true) :
  (forall f fs, v = JObj (f :: fs) ->
     extract_medical_data InitOk get_object extract_and_analyze request =
       rendered (to_response (handler_rest result (JStr t) (patient_part (k, v) (json_loop pre acc0))))) /\
  (v = JObj [] ->
     extract_medical_data InitOk get_object extract_and_analyze request =
       rendered (to_response (handler_rest result (JStr t) (json_loop post (json_loop (pre ++ [(k, v)]) acc0))))).
Proof.
  assert (Hbody : extract_medical_data InitOk get_object extract_and_analyze request =
                  rendered (to_response (handler_rest result (JStr t) (json_loop (dict_items fields) acc0)))).
  { unfold extract_medical_data, extract_medical_data_body.
    rewrite Hreq, Hname, (url_nonempty url cs Hurl). cbn [negb rbind ret].
    rewrite Hurl, Hb, Hk. cbn [rbind of_opt ret]. rewrite Hget. cbn [rbind ret]. rewrite Hext. cbn [rbind].
    rewrite Hea. cbn [rbind of_opt ret].
    unfold handle_extraction. rewrite Htext. cbn [rbind of_opt ret String.eqb Ascii.eqb Bool.eqb].
    unfold structured_json_stage. rewrite Hloads. reflexivity. }
  apply no_vital_dict_no_raise in Hpre.
  split.
  - intros f fs Hv. rewrite Hbody, Hitems, json_loop_app by exact Hpre.
    rewrite json_loop_stop; [reflexivity|].
    rewrite Hv. unfold vital_part_raises. rewrite Hvital.
    destruct (dict_items (f :: fs)) eqn:E; [exfalso; exact (dict_items_cons_nonempty f fs E)|reflexivity].
  - intros Hv. rewrite Hbody, Hitems.
    replace (pre ++ (k, v) :: post) with ((pre ++ [(k, v)]) ++ post) by (rewrite <- app_assoc; reflexivity).
    rewrite json_loop_app; [reflexivity|].
    apply Forall_app. split; [exact Hpre|].
    constructor; [|constructor]. rewrite Hv. unfold vital_part_raises. simpl. apply andb_false_r.
Qed.

Lemma C10_vital_key_stops_json_loop_witness :
  extract_medical_data InitOk (fun _ _ => Some vitals_record) (analyze_with [] []) json_request =
    rendered (to_response (handler_rest vitals_record_result (JStr vitals_record)
      (patient_part ("vitals", JObj [("bp", JStr "120/80")])
         (json_loop [("medications", JArr [JObj [("name", JStr "A")]])] acc0)))).
Proof.
  set (url := "https://records.s3.amazonaws.com/patient/record.json").
  set (cs := match re_match s3_pattern url with Some c => c | None => [] end).
  assert (Hurl : re_match s3_pattern url = Some cs) by (vm_compute; reflexivity).
  assert (Hb : group url cs 1 = Some "records") by (vm_compute; reflexivity).
  assert (Hk : group url cs 2 = Some "patient/record.json") by (vm_compute; reflexivity).
  assert (Hloads : json_loads vitals_record =
            Some (JObj [("medications", JArr [JObj [("name", JStr "A")]]);
                        ("vitals", JObj [("bp", JStr "120/80")]);
                        ("conditions", JArr [JStr "flu"])])) by (vm_compute; reflexivity).
  assert (Hpre : Forall (fun kv => Py.contains "vital" (Py.lower (fst kv)) = false \/
                                   (forall f fs, snd kv <> JObj (f :: fs)))
                   [("medications", JArr [JObj [("name", JStr "A")]])])
    by (constructor; [left; reflexivity | constructor]).
  exact (proj1 (C10_vital_key_stops_json_loop (fun _ _ => Some vitals_record) (analyze_with [] [])
           json_request url "record.json" "records" "patient/record.json" vitals_record vitals_record cs
           vitals_record_result _ [("medications", JArr [JObj [("name", JStr "A")]])]
           [("conditions", JArr [JStr "flu"])] "vitals" (JObj [("bp", JStr "120/80")])
           eq_refl eq_refl eq_refl Hurl Hb Hk eq_refl eq_refl eq_refl Hloads eq_refl Hpre eq_refl)
           ("bp", JStr "120/80") [] eq_refl).
Defined.

End MedicalDataProofs.

Module FileUploadProofs.
Import Routes Regex MedicalData FileUpload.
Local Open Scope Z_scope.

(** *** Strings as lists of characters *)

Lemma las_app (a b : string) :
  list_ascii_of_string (a ++ b) = list_ascii_of_string a ++ list_ascii_of_string b.
Proof. induction a as [|c a IH]; simpl; [reflexivity | now rewrite IH]. Qed.

Lemma las_length (s : string) : length (list_ascii_of_string s) = String.length s.
Proof. induction s as [|c s IH]; simpl; congruence. Qed.

Lemma las_inj (a b : string) : list_ascii_of_string a = list_ascii_of_string b -> a = b.
Proof.
  intro H. rewrite <- (string_of_list_ascii_of_string a), <- (string_of_list_ascii_of_string b).
  now rewrite H.
Qed.

Lemma las_substring (a n : nat) (s : string) :
  list_ascii_of_string (substring a n s) = firstn n (skipn a (list_ascii_of_string s)).
Proof.
  revert a n. induction s as [|c s IH]; intros a n.
  - destruct a, n; reflexivity.
  - destruct a as [|a]; simpl.
    + destruct n as [|n]; simpl; [reflexivity|]. now rewrite IH.
    + apply IH.
Qed.

Lemma skipn_cons_nth {A} (l : list A) (i : nat) (c : A) (t : list A) :
  skipn i l = c :: t -> nth_error l i = Some c /\ skipn (S i) l = t.
Proof.
  revert l. induction i as [|i IH]; intros [|d l] H; simpl in *; try discriminate.
  - injection H as -> ->. split; reflexivity.
  - now apply IH.
Qed.

Lemma skipn_app_length {A} (l1 l2 : list A) : skipn (length l1) (l1 ++ l2) = l2.
Proof. induction l1; simpl; auto. Qed.

Lemma skipn_len_eq {A} (n : nat) (l1 l2 : list A) : n = length l1 -> skipn n (l1 ++ l2) = l2.
Proof. intros ->. apply skipn_app_length. Qed.

Lemma nth_error_app_r {A} (l1 l2 : list A) (k : nat) :
  nth_error (l1 ++ l2) (length l1 + k) = nth_error l2 k.
Proof. induction l1; simpl; auto. Qed.

Lemma not_in_of_existsb (c : ascii) (l : list ascii) :
  existsb (Ascii.eqb c) l = false -> ~ In c l.
Proof.
  intros H Hin. assert (E : existsb (Ascii.eqb c) l = true)
    by (apply existsb_exists; exists c; split; [exact Hin | apply Ascii.eqb_refl]).
  congruence.
Qed.

(** *** [rfind] *)

Lemma rfind_aux_spec (c : ascii) (l : list ascii) (i best : Z) :
  (rfind_aux c l i best = best /\ ~ In c l) \/
  (exists j, rfind_aux c l i best = i + Z.of_nat j /\ nth_error l j = Some c /\
             forall k, (j < k)%nat -> nth_error l k <> Some c).
Proof.
  revert i best. induction l as [|d l IH]; intros i best; simpl.
  - left. split; [reflexivity | intros []].
  - destruct (IH (i + 1) (if Ascii.eqb c d then i else best)) as [[H1 H2] | (j & H1 & H2 & H3)].
    + rewrite H1. destruct (Ascii.eqb_spec c d) as [<- | Hne].
      * right. exists 0%nat. split; [lia|]. split; [reflexivity|].
        intros [|k] Hk; [lia|]. simpl. intros Hn. apply H2. eapply nth_error_In. exact Hn.
      * left. split; [reflexivity|]. intros [->|Hin]; [congruence | auto].
    + right. exists (S j). split; [rewrite H1; lia|]. split; [exact H2|].
      intros [|k] Hk; [lia|]. simpl. apply H3. lia.
Qed.

Lemma rfind_aux_app (c : ascii) (l1 l2 : list ascii) (i best : Z) :
  rfind_aux c (l1 ++ l2) i best = rfind_aux c l2 (i + Z.of_nat (length l1)) (rfind_aux c l1 i best).
Proof.
  revert i best. induction l1 as [|d l1 IH]; intros i best; simpl.
  - now rewrite Z.add_0_r.
  - rewrite IH. f_equal. lia.
Qed.

Lemma rfind_aux_absent (c : ascii) (l : list ascii) (i best : Z) :
  ~ In c l -> rfind_aux c l i best = best.
Proof.
  revert i best. induction l as [|d l IH]; intros i best H; simpl; [reflexivity|].
  destruct (Ascii.eqb_spec c d) as [<-|_]; [exfalso; apply H; now left|].
  apply IH. intro Hin. apply H. now right.
Qed.


(** *** [splitext] *)

Lemma nth_error_skipn_cons {A} (l : list A) (j : nat) (c : A) :
  nth_error l j = Some c -> skipn j l = c :: skipn (S j) l.
Proof.
  revert l. induction j as [|j IH]; intros [|d l] H; simpl in *; try discriminate.
  - now injection H as ->.
  - now apply IH.
Qed.

Lemma in_skipn_index {A} (c : A) (n : nat) (l : list A) :
  In c (skipn n l) -> exists k, (n <= k)%nat /\ nth_error l k = Some c.
Proof.
  revert l. induction n as [|n IH]; intros l H.
  - apply In_nth_error in H as [k Hk]. exists k. split; [lia | exact Hk].
  - destruct l as [|d l]; [destruct H|]. simpl in H.
    destruct (IH l H) as [k [Hk1 Hk2]]. exists (S k). split; [lia | exact Hk2].
Qed.

Lemma str_length_app (a b : string) : String.length (a ++ b) = (String.length a + String.length b)%nat.
Proof. rewrite <- !las_length, las_app. apply length_app. Qed.

Lemma rfind_spec (c : ascii) (p : string) :
  (rfind c p = -1 /\ ~ In c (list_ascii_of_string p)) \/
  (exists j, rfind c p = Z.of_nat j /\ nth_error (list_ascii_of_string p) j = Some c /\
             forall k, (j < k)%nat -> nth_error (list_ascii_of_string p) k <> Some c).
Proof.
  unfold rfind. destruct (rfind_aux_spec c (list_ascii_of_string p) 0 (-1)) as [H|(j & H1 & H2)]; [now left|].
  right. exists j. now rewrite H1.
Qed.

(** *** The regular expression engine on the S3 URL *)

Lemma m_lit_app (s : list ascii) (w : list ascii) (rest : list ascii) (i : nat) cs k :
  skipn i s = w ++ rest ->
  m s (fold_right (fun c r => RSeq (RChar c) r) REps w) i cs k = k (i + length w)%nat cs.
Proof.
  revert i. induction w as [|c w IH]; intros i H; simpl.
  - now rewrite Nat.add_0_r.
  - destruct (skipn_cons_nth s i c (w ++ rest) H) as [H1 H2]. rewrite H1, Ascii.eqb_refl.
    rewrite (IH (S i) H2). f_equal. lia.
Qed.

Lemma run_len_app (f : ascii -> bool) (l rest : list ascii) :
  forallb f l = true -> match rest with [] => True | d :: _ => f d = false end ->
  run_len f (l ++ rest) = length l.
Proof.
  intros Hl Hr. induction l as [|c l IH]; simpl in *.
  - destruct rest as [|d rest]; [reflexivity|]. simpl. now rewrite Hr.
  - apply andb_true_iff in Hl as [-> Hl]. now rewrite IH.
Qed.

Lemma try_down_top (k : nat -> caps -> option caps) (j : nat) cs (n : nat) r :
  k (j + n)%nat cs = Some r -> try_down k j cs n = Some r.
Proof. intro H. destruct n; simpl; now rewrite H. Qed.

Lemma m_plus_greedy (s : list ascii) (f : ascii -> bool) (w rest : list ascii) (i : nat) cs k r :
  skipn i s = w ++ rest -> w <> [] -> forallb f w = true ->
  match rest with [] => True | d :: _ => f d = false end ->
  k (i + length w)%nat cs = Some r -> m s (plus f) i cs k = Some r.
Proof.
  intros Hs Hne Hw Hr Hk. destruct w as [|c w]; [congruence|].
  simpl in Hw. apply andb_true_iff in Hw as [Hc Hw].
  destruct (skipn_cons_nth s i c (w ++ rest) Hs) as [H1 H2].
  unfold plus. cbn [m]. rewrite H1, Hc. rewrite H2, (run_len_app f w rest Hw Hr).
  apply try_down_top. rewrite <- Hk. f_equal. simpl. lia.
Qed.

Lemma forallb_not_in (c : ascii) (l : list ascii) :
  ~ In c l -> forallb (fun d => negb (Ascii.eqb d c)) l = true.
Proof.
  induction l as [|d l IH]; intro H; simpl; [reflexivity|].
  destruct (Ascii.eqb_spec d c) as [->|_]; [exfalso; apply H; now left|].
  apply IH. intro Hin. apply H. now right.
Qed.

Lemma substring_app3 (a b c : string) :
  substring (String.length a) (String.length b) (a ++ b ++ c) = b.
Proof.
  apply las_inj. rewrite las_substring, !las_app, <- (las_length a), <- (las_length b), skipn_app_length,
    firstn_app, Nat.sub_diag, firstn_O, app_nil_r, firstn_all. reflexivity.
Qed.

Lemma str_app_assoc (a b c : string) : ((a ++ b) ++ c)%string = (a ++ b ++ c)%string.
Proof. induction a as [|x a IH]; simpl; congruence. Qed.

Lemma str_app_nil_r (a : string) : (a ++ "")%string = a.
Proof. induction a as [|x a IH]; simpl; congruence. Qed.

(** The regex match of [extract_medical_data] on an upload URL. *)
Lemma s3_pattern_upload_url (b k : string) :
  b <> "" -> ~ In "."%char (list_ascii_of_string b) ->
  k <> "" -> ~ In "010"%char (list_ascii_of_string k) ->
  let url := ("https://" ++ b ++ ".s3.amazonaws.com/" ++ k)%string in
  exists cs, re_match s3_pattern url = Some cs /\
             group url cs 1%nat = Some b /\ group url cs 2%nat = Some k.
Proof.
  intros Hb Hbd Hk Hkn url.
  set (s := list_ascii_of_string url).
  assert (Hs : s = list_ascii_of_string "https://" ++ list_ascii_of_string b ++
                   list_ascii_of_string ".s3.amazonaws.com/" ++ list_ascii_of_string k)
    by (unfold s, url; now rewrite !las_app).
  set (lb := length (list_ascii_of_string b)). set (lk := length (list_ascii_of_string k)).
  exists [(0%nat, (0%nat, (8 + lb + 18 + lk)%nat)); (2%nat, ((8 + lb + 18)%nat, (8 + lb + 18 + lk)%nat));
          (1%nat, (8%nat, (8 + lb)%nat))].
  split.
  - unfold re_match, match_at. fold s. unfold s3_pattern, seqs. simpl fold_right.
    cbn [m]. unfold lit.
    rewrite (m_lit_app s (list_ascii_of_string "https://") (list_ascii_of_string b ++
               list_ascii_of_string ".s3.amazonaws.com/" ++ list_ascii_of_string k) 0 [])
      by (rewrite Hs; reflexivity).
    cbn beta.
    eapply (m_plus_greedy s _ (list_ascii_of_string b)
              (list_ascii_of_string ".s3.amazonaws.com/" ++ list_ascii_of_string k)).
    + rewrite Hs. apply (skipn_app_length (list_ascii_of_string "https://")).
    + destruct b; [congruence | discriminate].
    + now apply forallb_not_in.
    + reflexivity.
    + cbn beta.
      rewrite (m_lit_app s (list_ascii_of_string ".s3.amazonaws.com/") (list_ascii_of_string k)).
      2: { rewrite Hs, app_assoc. simpl length.
           apply (skipn_app_length (list_ascii_of_string "https://" ++ list_ascii_of_string b)). }
      cbn beta. eapply (m_plus_greedy s _ (list_ascii_of_string k) []).
      * rewrite Hs, app_nil_r, !app_assoc. apply skipn_len_eq.
        rewrite !length_app. unfold lb. simpl. lia.
      * destruct k; [congruence | discriminate].
      * now apply forallb_not_in.
      * exact I.
      * cbn. unfold lb, lk. repeat (first [lia | f_equal]).
  - unfold group. cbn [find fst snd Nat.eqb]. split; f_equal.
    + replace (8 + lb - 8)%nat with (String.length b) by (unfold lb; rewrite las_length; lia).
      apply (substring_app3 "https://" b).
    + replace (8 + lb + 18 + lk - (8 + lb + 18))%nat with (String.length k) by (unfold lk; rewrite las_length; lia).
      replace (8 + lb + 18)%nat with (String.length ("https://" ++ b ++ ".s3.amazonaws.com/"))
        by (rewrite <- las_length, !las_app, !length_app; unfold lb; simpl; lia).
      unfold url. rewrite <- (str_app_nil_r k) at 2.
      rewrite <- (str_app_assoc b), <- (str_app_assoc "https://").
      apply (substring_app3 _ k "").
Qed.

(** The [put_object] call and the dict of a successful [upload_file]. *)
Lemma upload_file_return ts u now put f b folder v reqs r :
  upload_file ts u now put f b folder v = (reqs, Return r) ->
  exists name req, filename f = Some name /\ reqs = [req] /\ put req = PutOk /\
    req = {| put_bucket := b; put_key := generate_file_key ts u name folder; put_body := file_content f;
             put_content_type := content_type f;
             put_metadata := [("original_filename", name); ("upload_timestamp", now);
                              ("file_size", z_str (Z.of_nat (String.length (file_content f))))] |} /\
    r = JObj [("success", JBool true); ("message", JStr "File uploaded successfully");
              ("file_key", JStr (generate_file_key ts u name folder));
              ("file_url", JStr ("https://" ++ b ++ ".s3.amazonaws.com/" ++ generate_file_key ts u name folder));
              ("original_filename", JStr name);
              ("file_size", JNum (z_str (Z.of_nat (String.length (file_content f)))));
              ("bucket_name", JStr b)].
Proof.
  unfold upload_file. intro H.
  destruct (if v then validate_pdf_file f else Some true) as [[|]|]; try discriminate.
  destruct (filename f) as [name|]; try discriminate.
  match type of H with context [put ?q] => remember q as req eqn:Hreq end.
  destruct (put req) eqn:Hp; try discriminate.
  injection H as <- <-. exists name, req. repeat split; auto.
Qed.

Lemma generate_file_key_nonempty ts u name folder : generate_file_key ts u name folder <> "".
Proof. unfold generate_file_key. destruct folder; discriminate. Qed.

Lemma upload_url_match ts u now put f b folder v reqs r key :
  upload_file ts u now put f b folder v = (reqs, Return r) ->
  b <> "" -> ~ In "."%char (list_ascii_of_string b) ->
  Json.getitem r "file_key" = Some (JStr key) -> ~ In "010"%char (list_ascii_of_string key) ->
  exists url cs, Json.getitem r "file_url" = Some (JStr url) /\ re_match s3_pattern url = Some cs /\
    group url cs 1%nat = Some b /\ group url cs 2%nat = Some key.
Proof.
  intros H Hb Hbd Hkey Hkn.
  destruct (upload_file_return ts u now put f b folder v reqs r H) as (name & req & Hn & -> & Hp & -> & ->).
  simpl in Hkey. injection Hkey as <-.
  destruct (s3_pattern_upload_url b (generate_file_key ts u name folder) Hb Hbd
              (generate_file_key_nonempty ts u name folder) Hkn) as (cs & H1 & H2 & H3).
  exists ("https://" ++ b ++ ".s3.amazonaws.com/" ++ generate_file_key ts u name folder)%string, cs.
  repeat split; assumption.
Qed.

(** X1: with [validate_pdf=True] (the [/upload/pdf] route), an upload that
    fails [validate_pdf_file] (wrong content type, a name not ending in
    ".pdf", or no name) answers HTTP 500, not the 400 raised for it, because
    the [except Exception] of [upload_file] catches that [HTTPException]; and
    nothing is sent to S3. *)
Theorem X1_pdf_validation_failure_is_500 ts u now put bucket f folder :
  validate_pdf_file f <> Some true ->
  upload_pdf ts u now put bucket f folder = ([], HttpError 500).
Proof.
  intro H. unfold upload_pdf, upload_route, upload_file.
  destruct (validate_pdf_file f) as [[|]|]; [congruence | reflexivity | reflexivity].
Qed.

Lemma X1_pdf_validation_failure_is_500_witness :
  validate_pdf_file {| filename := Some "scan.png"; content_type := Some "image/png"; file_content := "x" |}
    <> Some true /\
  upload_pdf "20240101_000000" "0123456789" "2024-01-01T00:00:00" (fun _ => PutOk) "bucket"
    {| filename := Some "scan.png"; content_type := Some "image/png"; file_content := "x" |} "uploads"
  = ([], HttpError 500).
Proof.
  split; [vm_compute; discriminate|].
  apply X1_pdf_validation_failure_is_500. vm_compute. discriminate.
Defined.

(** X2: [upload_file] never lets an exception other than [HTTPException]
    escape, and the only status codes it raises are 403, 404 and 500. *)
Theorem X2_upload_file_statuses ts u now put f b folder v :
  match snd (upload_file ts u now put f b folder v) with
  | Return _ => True
  | HttpError s => s = 403 \/ s = 404 \/ s = 500
  | OtherException => False
  end.
Proof.
  unfold upload_file.
  destruct (if v then validate_pdf_file f else Some true) as [[|]|]; simpl; auto.
  destruct (filename f) as [name|]; simpl; auto.
  destruct (put _) as [|code|]; simpl; auto.
  destruct (String.eqb code "NoSuchBucket"); [auto|]. destruct (String.eqb code "AccessDenied"); auto.
Qed.

(** X3: [upload_file] answers 404 exactly when its one [put_object] call
    failed with the [ClientError] code "NoSuchBucket", and 403 exactly when
    it failed with "AccessDenied". *)
Theorem X3_upload_file_404_403 ts u now put f b folder v :
  (snd (upload_file ts u now put f b folder v) = HttpError 404 <->
   exists req, fst (upload_file ts u now put f b folder v) = [req] /\ put req = PutClientError "NoSuchBucket") /\
  (snd (upload_file ts u now put f b folder v) = HttpError 403 <->
   exists req, fst (upload_file ts u now put f b folder v) = [req] /\ put req = PutClientError "AccessDenied").
Proof.
  unfold upload_file.
  destruct (if v then validate_pdf_file f else Some true) as [[|]|];
    [| split; split; [discriminate | intros (req & H & _); discriminate
                    | discriminate | intros (req & H & _); discriminate] ..].
  destruct (filename f) as [name|];
    [| split; split; [discriminate | intros (req & H & _); discriminate
                    | discriminate | intros (req & H & _); discriminate] ].
  match goal with |- context [put ?q] => remember q as req eqn:Hreq end.
  destruct (put req) as [|code|] eqn:Hp; simpl.
  - split; split; [discriminate | intros (q & Hq & Hq'); injection Hq as ->; congruence
                  | discriminate | intros (q & Hq & Hq'); injection Hq as ->; congruence].
  - destruct (String.eqb_spec code "NoSuchBucket") as [->|Hn]; [| destruct (String.eqb_spec code "AccessDenied") as [->|Ha]].
    + split; split; [intros _; now exists req | reflexivity | discriminate
                    | intros (q & Hq & Hq'); injection Hq as ->; congruence].
    + split; split; [discriminate | intros (q & Hq & Hq'); injection Hq as ->; congruence
                    | intros _; now exists req | reflexivity].
    + split; split; [discriminate | intros (q & Hq & Hq'); injection Hq as ->; congruence
                    | discriminate | intros (q & Hq & Hq'); injection Hq as ->; congruence].
  - split; split; [discriminate | intros (q & Hq & Hq'); injection Hq as ->; congruence
                  | discriminate | intros (q & Hq & Hq'); injection Hq as ->; congruence].
Qed.

(** X4: a successful [upload_file] made exactly one [put_object] call, into
    the given bucket, with the file's content as body and its length as the
    "file_size" metadata; the returned [file_key] is that call's key and
    [file_url] is "https://<bucket>.s3.amazonaws.com/<file_key>". *)
Theorem X4_upload_success_put_and_url ts u now put f b folder v reqs r :
  upload_file ts u now put f b folder v = (reqs, Return r) ->
  exists req, reqs = [req] /\ put req = PutOk /\ put_bucket req = b /\ put_body req = file_content f /\
    dict_get "file_size" (put_metadata req) = Some (z_str (Z.of_nat (String.length (file_content f)))) /\
    Json.getitem r "file_key" = Some (JStr (put_key req)) /\
    Json.getitem r "file_url" = Some (JStr ("https://" ++ b ++ ".s3.amazonaws.com/" ++ put_key req)) /\
    Json.getitem r "file_size" = Some (JNum (z_str (Z.of_nat (String.length (file_content f))))).
Proof.
  intro H. destruct (upload_file_return ts u now put f b folder v reqs r H)
    as (name & req & Hn & -> & Hp & -> & ->).
  eexists. repeat split; try reflexivity. exact Hp.
Qed.

Lemma X4_upload_success_put_and_url_witness :
  exists reqs r,
  upload_file "20240101_000000" "0123456789" "2024-01-01T00:00:00" (fun _ => PutOk)
    {| filename := Some "a.pdf"; content_type := Some "application/pdf"; file_content := "%PDF" |}
    "bucket" "uploads" true = (reqs, Return r) /\
  exists req, reqs = [req] /\ (fun _ : put_request => PutOk) req = PutOk /\ put_bucket req = "bucket" /\
    put_body req = "%PDF" /\
    dict_get "file_size" (put_metadata req) = Some (z_str (Z.of_nat (String.length "%PDF"))) /\
    Json.getitem r "file_key" = Some (JStr (put_key req)) /\
    Json.getitem r "file_url" = Some (JStr ("https://" ++ "bucket" ++ ".s3.amazonaws.com/" ++ put_key req)) /\
    Json.getitem r "file_size" = Some (JNum (z_str (Z.of_nat (String.length "%PDF")))).
Proof.
  do 2 eexists. split; [vm_compute; reflexivity|].
  apply (X4_upload_success_put_and_url "20240101_000000" "0123456789" "2024-01-01T00:00:00" (fun _ => PutOk)
    {| filename := Some "a.pdf"; content_type := Some "application/pdf"; file_content := "%PDF" |}
    "bucket" "uploads" true). vm_compute. reflexivity.
Defined.

(** X5: [os.path.splitext] splits a path into a root and an extension that
    concatenate back to the path; the extension is empty or a dot followed by
    text that holds neither a dot nor a slash. *)
Theorem X5_splitext_shape (p : string) :
  (fst (splitext p) ++ snd (splitext p))%string = p /\
  (snd (splitext p) = "" \/
   exists x, snd (splitext p) = String "." x /\
             ~ In "."%char (list_ascii_of_string x) /\ ~ In "/"%char (list_ascii_of_string x)).
Proof.
  unfold splitext.
  set (lp := list_ascii_of_string p) in *.
  destruct (rfind_spec "." p) as [[Hd Hnd] | (j & Hd & Hj & Hlast)].
  - rewrite Hd. assert (Hs : -1 <= rfind "/" p)
      by (destruct (rfind_spec "/" p) as [[-> _] | (j & -> & _)]; lia).
    replace (rfind "/" p <? -1) with false by (symmetry; apply Z.ltb_ge; lia). simpl.
    split; [apply str_app_nil_r | now left].
  - rewrite Hd. destruct (rfind "/" p <? Z.of_nat j) eqn:Hlt; [destruct has_non_dot|]; simpl;
      try (split; [apply str_app_nil_r | now left]).
    apply Z.ltb_lt in Hlt. fold lp in Hj, Hlast.
    assert (Hlen : (j < length lp)%nat) by (apply nth_error_Some; congruence).
    assert (Hsk : skipn j lp = "."%char :: skipn (S j) lp) by (now apply nth_error_skipn_cons).
    assert (Hext : list_ascii_of_string (slice (Z.of_nat j) (Z.of_nat (String.length p)) p) = skipn j lp).
    { unfold slice. rewrite las_substring, Nat2Z.id. fold lp. apply firstn_all2.
      rewrite length_skipn, <- las_length. fold lp. lia. }
    split.
    + apply las_inj. rewrite las_app, Hext. unfold slice. rewrite las_substring. fold lp.
      replace (Z.to_nat (Z.of_nat j - 0)) with j by lia. apply firstn_skipn.
    + right. exists (string_of_list_ascii (skipn (S j) lp)). split; [|split].
      * apply las_inj. rewrite Hext, Hsk. simpl. now rewrite list_ascii_of_string_of_list_ascii.
      * rewrite list_ascii_of_string_of_list_ascii. intro Hin.
        destruct (in_skipn_index _ _ _ Hin) as [k [Hk1 Hk2]]. apply (Hlast k); [lia | exact Hk2].
      * rewrite list_ascii_of_string_of_list_ascii. intro Hin.
        destruct (in_skipn_index _ _ _ Hin) as [k [Hk1 Hk2]].
        destruct (rfind_spec "/" p) as [[Hs Hns] | (j' & Hs & Hj' & Hlast')].
        -- apply Hns. eapply nth_error_In. exact Hk2.
        -- rewrite Hs in Hlt. apply (Hlast' k); [lia | exact Hk2].
Qed.

(** X6: for a name [b ++ "." ++ x] whose stem [b] and extension text [x]
    hold no slash and [x] no dot, the key ends in ".x" when [b] has a
    character other than a dot, and has no extension otherwise (".pdf" or
    "..pdf" give a key without ".pdf"). *)
Theorem X6_file_key_extension ts u b x folder :
  ~ In "/"%char (list_ascii_of_string b) ->
  ~ In "."%char (list_ascii_of_string x) -> ~ In "/"%char (list_ascii_of_string x) ->
  generate_file_key ts u (b ++ String "." x) folder =
  (folder ++ "/" ++ ts ++ "_" ++ Py.take 8 u ++
   (if has_non_dot (list_ascii_of_string b) then String "." x else ""))%string.
Proof.
  intros Hb Hxd Hxs. unfold generate_file_key, splitext.
  set (p := (b ++ String "." x)%string).
  assert (Hlp : list_ascii_of_string p = list_ascii_of_string b ++ "."%char :: list_ascii_of_string x)
    by (unfold p; now rewrite las_app).
  assert (Hsep : rfind "/" p = -1).
  { unfold rfind. rewrite Hlp. apply rfind_aux_absent. intro Hin.
    apply in_app_or in Hin as [Hin|[Hin|Hin]]; [auto | discriminate | auto]. }
  assert (Hdot : rfind "." p = Z.of_nat (String.length b)).
  { unfold rfind. rewrite Hlp, rfind_aux_app. simpl.
    rewrite rfind_aux_absent by exact Hxd. rewrite las_length. lia. }
  rewrite Hsep, Hdot. replace (-1 <? Z.of_nat (String.length b)) with true by (symmetry; apply Z.ltb_lt; lia).
  replace (-1 + 1) with 0 by lia.
  assert (Hroot : slice 0 (Z.of_nat (String.length b)) p = b).
  { unfold slice. replace (Z.to_nat (Z.of_nat (String.length b) - 0)) with (String.length b) by lia.
    apply (substring_app3 "" b). }
  rewrite Hroot. destruct (has_non_dot (list_ascii_of_string b)); simpl; [|reflexivity].
  unfold slice. rewrite Nat2Z.id.
  assert (Hlen : String.length p = (String.length b + S (String.length x))%nat)
    by (unfold p; rewrite str_length_app; reflexivity).
  rewrite Hlen. replace (Z.to_nat (Z.of_nat (String.length b + S (String.length x)) - Z.of_nat (String.length b)))
    with (S (String.length x)) by lia.
  f_equal. f_equal. f_equal. f_equal. f_equal. f_equal.
  apply las_inj. rewrite las_substring, Hlp, <- (las_length b), skipn_app_length.
  apply firstn_all2. simpl. rewrite las_length. lia.
Qed.

Lemma X6_file_key_extension_witness :
  ~ In "/"%char (list_ascii_of_string "report") /\
  ~ In "."%char (list_ascii_of_string "pdf") /\ ~ In "/"%char (list_ascii_of_string "pdf") /\
  generate_file_key "20240101_000000" "0123456789" ("report" ++ String "." "pdf") "uploads" =
  ("uploads" ++ "/" ++ "20240101_000000" ++ "_" ++ Py.take 8 "0123456789" ++
   (if has_non_dot (list_ascii_of_string "report") then String "." "pdf" else ""))%string.
Proof.
  assert (H1 : ~ In "/"%char (list_ascii_of_string "report")) by (apply not_in_of_existsb; reflexivity).
  assert (H2 : ~ In "."%char (list_ascii_of_string "pdf")) by (apply not_in_of_existsb; reflexivity).
  assert (H3 : ~ In "/"%char (list_ascii_of_string "pdf")) by (apply not_in_of_existsb; reflexivity).
  split; [exact H1|]. split; [exact H2|]. split; [exact H3|].
  exact (X6_file_key_extension "20240101_000000" "0123456789" "report" "pdf" "uploads" H1 H2 H3).
Defined.

(** X7: the [file_url] that a successful upload returns is matched by the
    pattern of [extract_medical_data], whose two groups give back the bucket
    and the [file_key], when the bucket is non-empty without a dot and the
    key holds no newline. *)
Theorem X7_upload_url_parses_back ts u now put f b folder v reqs r key :
  upload_file ts u now put f b folder v = (reqs, Return r) ->
  b <> "" -> ~ In "."%char (list_ascii_of_string b) ->
  Json.getitem r "file_key" = Some (JStr key) -> ~ In "010"%char (list_ascii_of_string key) ->
  exists url cs, Json.getitem r "file_url" = Some (JStr url) /\ re_match s3_pattern url = Some cs /\
    group url cs 1%nat = Some b /\ group url cs 2%nat = Some key.
Proof. exact (upload_url_match ts u now put f b folder v reqs r key). Qed.

Lemma X7_upload_url_parses_back_witness :
  exists reqs r,
  upload_file "20240101_000000" "0123456789" "2024-01-01T00:00:00" (fun _ => PutOk)
    {| filename := Some "a.pdf"; content_type := Some "application/pdf"; file_content := "%PDF" |}
    "bucket" "uploads" true = (reqs, Return r) /\
  "bucket" <> "" /\ ~ In "."%char (list_ascii_of_string "bucket") /\
  Json.getitem r "file_key" = Some (JStr "uploads/20240101_000000_01234567.pdf") /\
  ~ In "010"%char (list_ascii_of_string "uploads/20240101_000000_01234567.pdf") /\
  exists url cs, Json.getitem r "file_url" = Some (JStr url) /\ re_match s3_pattern url = Some cs /\
    group url cs 1%nat = Some "bucket" /\ group url cs 2%nat = Some "uploads/20240101_000000_01234567.pdf".
Proof.
  do 2 eexists.
  assert (E : upload_file "20240101_000000" "0123456789" "2024-01-01T00:00:00" (fun _ => PutOk)
    {| filename := Some "a.pdf"; content_type := Some "application/pdf"; file_content := "%PDF" |}
    "bucket" "uploads" true = (_, Return _)) by (vm_compute; reflexivity).
  assert (Hb : "bucket" <> "") by discriminate.
  assert (Hbd : ~ In "."%char (list_ascii_of_string "bucket")) by (apply not_in_of_existsb; reflexivity).
  assert (Hk : Json.getitem
    (JObj [("success", JBool true); ("message", JStr "File uploaded successfully");
           ("file_key", JStr "uploads/20240101_000000_01234567.pdf");
           ("file_url", JStr "https://bucket.s3.amazonaws.com/uploads/20240101_000000_01234567.pdf");
           ("original_filename", JStr "a.pdf"); ("file_size", JNum "4"); ("bucket_name", JStr "bucket")])
    "file_key" = Some (JStr "uploads/20240101_000000_01234567.pdf")) by reflexivity.
  assert (Hkn : ~ In "010"%char (list_ascii_of_string "uploads/20240101_000000_01234567.pdf"))
    by (apply not_in_of_existsb; reflexivity).
  split; [exact E|]. split; [exact Hb|]. split; [exact Hbd|]. split; [exact Hk|]. split; [exact Hkn|].
  exact (X7_upload_url_parses_back _ _ _ _ _ _ _ _ _ _ _ E Hb Hbd Hk Hkn).
Defined.

(** X8: [extract_medical_data] on a request whose [file_url] is that of a
    successful upload (bucket non-empty without a dot, key without a
    newline) downloads exactly the uploaded object: its answer depends on
    [get_object] only through [get_object(bucket, file_key)], whatever the
    extractor's construction does. *)
Theorem X8_medical_data_reads_uploaded_object ts u now put f b folder v reqs r key init get_object ea request :
  upload_file ts u now put f b folder v = (reqs, Return r) ->
  b <> "" -> ~ In "."%char (list_ascii_of_string b) ->
  Json.getitem r "file_key" = Some (JStr key) -> ~ In "010"%char (list_ascii_of_string key) ->
  Json.assoc_last "file_url" request = Json.getitem r "file_url" ->
  extract_medical_data init get_object ea request =
  extract_medical_data init (fun _ _ => get_object b key) ea request.
Proof.
  intros H Hb Hbd Hkey Hkn Hreq.
  destruct (upload_url_match ts u now put f b folder v reqs r key H Hb Hbd Hkey Hkn)
    as (url & cs & Hu & Hm & H1 & H2).
  unfold extract_medical_data, extract_medical_data_body. rewrite Hreq, Hu.
  rewrite (MedicalDataProofs.url_nonempty url cs Hm). cbn [negb rbind ret].
  destruct init; cbn [rbind ret]; try reflexivity.
  rewrite Hm. cbn [rbind of_opt]. rewrite H1, H2. reflexivity.
Qed.

Lemma X8_medical_data_reads_uploaded_object_witness :
  exists reqs r,
  upload_file "20240101_000000" "0123456789" "2024-01-01T00:00:00" (fun _ => PutOk)
    {| filename := Some "a.pdf"; content_type := Some "application/pdf"; file_content := "%PDF" |}
    "bucket" "uploads" true = (reqs, Return r) /\
  extract_medical_data InitOk (fun _ _ => None) (fun _ => None)
    [("file_url", JStr "https://bucket.s3.amazonaws.com/uploads/20240101_000000_01234567.pdf")] =
  extract_medical_data InitOk (fun _ _ => (fun _ _ => None) "bucket" "uploads/20240101_000000_01234567.pdf")
    (fun _ => None)
    [("file_url", JStr "https://bucket.s3.amazonaws.com/uploads/20240101_000000_01234567.pdf")].
Proof.
  do 2 eexists.
  assert (E : upload_file "20240101_000000" "0123456789" "2024-01-01T00:00:00" (fun _ => PutOk)
    {| filename := Some "a.pdf"; content_type := Some "application/pdf"; file_content := "%PDF" |}
    "bucket" "uploads" true = (_, Return _)) by (vm_compute; reflexivity).
  split; [exact E|].
  apply (X8_medical_data_reads_uploaded_object _ _ _ _ _ _ _ _ _ _ "uploads/20240101_000000_01234567.pdf"
           InitOk (fun _ _ => None) _ _ E).
  - discriminate.
  - apply not_in_of_existsb; reflexivity.
  - reflexivity.
  - apply not_in_of_existsb; reflexivity.
  - reflexivity.
Defined.

End FileUploadProofs.

Module MedicalDataExtraProofs.
Import Routes Regex MedicalData MedicalInputs.
Local Open Scope Z_scope.

(** *** Which exceptions the handler's steps raise *)

Lemma rbind_inr {A B} (x : res A) (f : A -> res B) e :
  rbind x f = inr e -> x = inr e \/ exists a, x = inl a /\ f a = inr e.
Proof. destruct x as [a|e']; simpl; [right; now exists a | intro H; left; congruence]. Qed.

Lemma rbind_inl {A B} (x : res A) (f : A -> res B) b :
  rbind x f = inl b -> exists a, x = inl a /\ f a = inl b.
Proof. destruct x as [a|e']; simpl; [intro H; now exists a | discriminate]. Qed.

Lemma of_opt_inr {A} (o : option A) e : of_opt o = inr e -> e = ExcOther.
Proof. destruct o; simpl; congruence. Qed.

Lemma fold_res_other {A B} (f : A -> B -> res A) (l : list B) (a : A) e :
  (forall a b e, f a b = inr e -> e = ExcOther) -> fold_res f l a = inr e -> e = ExcOther.
Proof.
  intro Hf. revert a. induction l as [|x l IH]; intros a H; simpl in H; [discriminate|].
  apply rbind_inr in H as [H | (a' & _ & H)]; [exact (Hf _ _ _ H) | exact (IH a' H)].
Qed.

(** Peel the binds and branches of a hypothesis [_ = inr e] down to its
    sources. *)
Ltac other_tac :=
  repeat match goal with
  | H : rbind _ _ = inr _ |- _ =>
      let a := fresh "a" in let Ha := fresh "Ha" in
      apply rbind_inr in H as [H | (a & Ha & H)]; cbn beta in H
  | H : of_opt _ = inr _ |- _ => apply of_opt_inr in H; exact H
  | H : ret _ = inr _ |- _ => discriminate H
  | H : inl _ = inr _ |- _ => discriminate H
  | H : inr _ = inr _ |- _ => injection H as <-; reflexivity
  | H : (if ?b then _ else _) = inr _ |- _ => destruct b
  | H : (match ?x with _ => _ end) = inr _ |- _ => destruct x
  end.

Lemma get_upper_other d k e : get_upper d k = inr e -> e = ExcOther.
Proof. unfold get_upper. intro H. other_tac. Qed.

Lemma attr_step_other df attr e : attr_step df attr = inr e -> e = ExcOther.
Proof.
  unfold attr_step. intro H.
  apply rbind_inr in H as [H | (t & _ & H)]; [exact (get_upper_other _ _ _ H)|]. cbn beta in H.
  other_tac.
Qed.

Lemma medical_entity_step_other a entity e : medical_entity_step a entity = inr e -> e = ExcOther.
Proof.
  unfold medical_entity_step. intro H.
  apply rbind_inr in H as [H | (c & _ & H)]; [exact (get_upper_other _ _ _ H)|]. cbn beta in H.
  apply rbind_inr in H as [H | (ty & _ & H)]; [exact (get_upper_other _ _ _ H)|]. cbn beta in H.
  apply rbind_inr in H as [H | (t & _ & H)]; [exact (of_opt_inr _ _ H)|]. cbn beta in H.
  apply rbind_inr in H as [H | (at' & _ & H)]; [exact (of_opt_inr _ _ H)|]. cbn beta in H.
  destruct (String.eqb c "MEDICAL_CONDITION"); [discriminate|].
  destruct (String.eqb c "MEDICATION"); [|discriminate].
  apply rbind_inr in H as [H | (items & _ & H)]; [exact (of_opt_inr _ _ H)|]. cbn beta in H.
  apply rbind_inr in H as [H | (df & _ & H)]; [exact (fold_res_other _ _ _ _ attr_step_other H)|].
  cbn beta in H. other_tac.
Qed.

Lemma phi_entity_step_other a entity e : phi_entity_step a entity = inr e -> e = ExcOther.
Proof.
  unfold phi_entity_step. intro H.
  apply rbind_inr in H as [H | (c & _ & H)]; [exact (get_upper_other _ _ _ H)|]. cbn beta in H.
  apply rbind_inr in H as [H | (ty & _ & H)]; [exact (get_upper_other _ _ _ H)|]. cbn beta in H.
  other_tac.
Qed.

Lemma ner_field_stage_other field step result a e :
  (forall a x e, step a x = inr e -> e = ExcOther) ->
  ner_field_stage field step result a = inr e -> e = ExcOther.
Proof.
  intros Hs H. unfold ner_field_stage in H.
  destruct (Json.getitem result "ner_analysis") as [ner|]; [|discriminate].
  apply rbind_inr in H as [H | (p & _ & H)]; [exact (of_opt_inr _ _ H)|]. cbn beta in H.
  destruct p; [|discriminate].
  apply rbind_inr in H as [H | (es & _ & H)]; [exact (of_opt_inr _ _ H)|]. cbn beta in H.
  apply rbind_inr in H as [H | (items & _ & H)]; [exact (of_opt_inr _ _ H)|]. cbn beta in H.
  exact (fold_res_other _ _ _ _ Hs H).
Qed.

Lemma age_search_other ps ftl e : age_search ps ftl = inr e -> e = ExcOther.
Proof.
  induction ps as [|p ps IH]; simpl; intro H; [discriminate|].
  destruct (re_search (pat p) ftl) as [cs|]; [|exact (IH H)].
  apply rbind_inr in H as [H | (g & _ & H)]; [exact (of_opt_inr _ _ H)|]. cbn beta in H.
  apply rbind_inr in H as [H | (v & _ & H)]; [exact (of_opt_inr _ _ H)|]. cbn beta in H.
  destruct ((0 <? v) && (v <? 150)); [discriminate | exact (IH H)].
Qed.

Lemma gender_search_other ps ftl e : gender_search ps ftl = inr e -> e = ExcOther.
Proof.
  induction ps as [|p ps IH]; simpl; intro H; [discriminate|].
  destruct (re_search (pat p) ftl) as [cs|]; [|exact (IH H)].
  apply rbind_inr in H as [H | (g & _ & H)]; [exact (of_opt_inr _ _ H)|]. discriminate.
Qed.

Lemma weight_search_other ps ftl e : weight_search ps ftl = inr e -> e = ExcOther.
Proof.
  induction ps as [|p ps IH]; simpl; intro H; [discriminate|].
  destruct (re_search (pat p) ftl) as [cs|]; [|exact (IH H)].
  apply rbind_inr in H as [H | (g & _ & H)]; [exact (of_opt_inr _ _ H)|]. cbn beta in H.
  apply rbind_inr in H as [H | (ok & _ & H)]; [exact (of_opt_inr _ _ H)|]. cbn beta in H.
  destruct ok; [discriminate | exact (IH H)].
Qed.

Lemma full_text_stage_other ftl st e : full_text_stage ftl st = inr e -> e = ExcOther.
Proof.
  destruct st as [a vs]. unfold full_text_stage, fill_missing. intro H.
  apply rbind_inr in H as [H | (a1 & _ & H)].
  { destruct (negb _); [|discriminate].
    apply rbind_inr in H as [H | (o & _ & H)]; [exact (age_search_other _ _ _ H) | discriminate]. }
  cbn beta in H. apply rbind_inr in H as [H | (a2 & _ & H)].
  { destruct (negb _); [|discriminate].
    apply rbind_inr in H as [H | (o & _ & H)]; [exact (gender_search_other _ _ _ H) | discriminate]. }
  cbn beta in H. destruct (negb _); [|discriminate].
  apply rbind_inr in H as [H | (o & _ & H)]; [exact (weight_search_other _ _ _ H) | discriminate].
Qed.

Lemma handle_extraction_other ext result e : handle_extraction ext result = inr e -> e = ExcOther.
Proof.
  unfold handle_extraction, handler_rest. intro H.
  apply rbind_inr in H as [H | (t & _ & H)]; [exact (of_opt_inr _ _ H)|]. cbn beta in H.
  apply rbind_inr in H as [H | (a2 & _ & H)]; [exact (ner_field_stage_other _ _ _ _ _ medical_entity_step_other H)|].
  cbn beta in H.
  apply rbind_inr in H as [H | (a3 & _ & H)]; [exact (ner_field_stage_other _ _ _ _ _ phi_entity_step_other H)|].
  cbn beta in H.
  apply rbind_inr in H as [H | (text & _ & H)]; [destruct t; unfold ret in H; congruence|]. cbn beta in H.
  apply rbind_inr in H as [H | (st5 & _ & H)]; [exact (full_text_stage_other _ _ _ H) | discriminate].
Qed.

Lemma file_extension_of_other fn e : file_extension_of fn = inr e -> e = ExcOther.
Proof. unfold file_extension_of. intro H. other_tac. Qed.

(** The exceptions of the [try] body: a [ClientError] only comes from the
    extractor's construction. *)
Lemma extract_medical_data_body_exc init get_object ea request e :
  extract_medical_data_body init get_object ea request = inr e ->
  e = ExcHTTP 400 \/ e = ExcOther \/ (e = ExcClientError /\ init = InitClientError).
Proof.
  unfold extract_medical_data_body. intro H.
  destruct (negb _); [injection H as <-; now left|].
  apply rbind_inr in H as [H | (u0 & _ & H)].
  { destruct init; unfold ret in H; try discriminate; injection H as <-; auto. }
  cbn beta in H. apply rbind_inr in H as [H | (url & _ & H)].
  { destruct (Json.assoc_last "file_url" request) as [[| | |u| |]|]; unfold ret in H; try discriminate;
      injection H as <-; auto. }
  cbn beta in H. destruct (re_match s3_pattern url) as [cs|]; [|injection H as <-; now left].
  apply rbind_inr in H as [H | (b & _ & H)]; [right; left; exact (of_opt_inr _ _ H)|]. cbn beta in H.
  apply rbind_inr in H as [H | (k & _ & H)]; [right; left; exact (of_opt_inr _ _ H)|]. cbn beta in H.
  apply rbind_inr in H as [H | (c & _ & H)].
  { destruct (get_object b k); [discriminate | injection H as <-; now left]. }
  cbn beta in H. apply rbind_inr in H as [H | (ext & _ & H)]; [right; left; exact (file_extension_of_other _ _ H)|].
  cbn beta in H. apply rbind_inr in H as [H | (result & _ & H)]; [right; left; exact (of_opt_inr _ _ H)|].
  cbn beta in H. right; left. exact (handle_extraction_other _ _ _ H).
Qed.

(** A value returned by the [try] body: the URL parsed, the object
    downloaded, the extractor's result and [handle_extraction] on it. *)
Lemma extract_medical_data_body_inl init get_object ea request r :
  extract_medical_data_body init get_object ea request = inl r ->
  exists url cs b k content ext result,
    Json.assoc_last "file_url" request = Some (JStr url) /\
    re_match s3_pattern url = Some cs /\ group url cs 1%nat = Some b /\ group url cs 2%nat = Some k /\
    get_object b k = Some content /\
    file_extension_of (match Json.assoc_last "file_name" request with
                       | Some v => v | None => JStr "medical-document" end) = inl ext /\
    ea {| call_file := content; call_file_type := ext; call_include_ner := true |} = Some result /\
    handle_extraction ext result = inl r.
Proof.
  unfold extract_medical_data_body. cbv zeta. intro H.
  destruct (negb _); [discriminate|].
  apply rbind_inl in H as (u0 & _ & H). cbn beta in H.
  apply rbind_inl in H as (url & Hu & H). cbn beta in H.
  destruct (re_match s3_pattern url) as [cs|] eqn:Hm; [|discriminate].
  apply rbind_inl in H as (b & Hb & H). cbn beta in H.
  apply rbind_inl in H as (k & Hk & H). cbn beta in H.
  apply rbind_inl in H as (c & Hc & H). cbn beta in H.
  apply rbind_inl in H as (ext & Hext & H). cbn beta in H.
  apply rbind_inl in H as (result & Hr & H). cbn beta in H.
  exists url, cs, b, k, c, ext, result.
  destruct (Json.assoc_last "file_url" request) as [[| | |u| |]|]; unfold ret in Hu; try discriminate.
  injection Hu as ->.
  destruct (group url cs 1%nat); [injection Hb as ->|discriminate].
  destruct (group url cs 2%nat); [injection Hk as ->|discriminate].
  destruct (get_object b k); [unfold ret in Hc; injection Hc as ->|discriminate].
  destruct (ea _); [injection Hr as ->|discriminate].
  repeat split; assumption.
Qed.

Lemma handle_extraction_inl ext result r :
  handle_extraction ext result = inl r ->
  exists text a pi vs,
    Json.get result "extracted_text" (JStr "") = Some (JStr text) /\
    r = JObj [("success", JBool true);
              ("message", JStr "Medical data extracted successfully with enhanced demographics parsing");
              ("data", JObj [("patient_info", JObj pi); ("medications", JArr (medications a));
                             ("medical_conditions", JArr (medical_conditions a));
                             ("diagnosis", JStr (if 500 <? Z.of_nat (Py.str_len text)
                                                 then (Py.str_take 500 text ++ "...")%string else text));
                             ("raw_text", JStr text); ("vital_signs", JObj vs); ("lab_results", JObj []);
                             ("clinical_notes", JStr text); ("raw_extraction", result)])].
Proof.
  unfold handle_extraction, handler_rest. intro H.
  apply rbind_inl in H as (t & Hg & H). cbn beta in H.
  apply rbind_inl in H as (a2 & _ & H). cbn beta in H.
  apply rbind_inl in H as (a3 & _ & H). cbn beta in H.
  apply rbind_inl in H as (text & Ht & H). cbn beta in H.
  destruct t as [| | |tx| |]; unfold ret in Ht; try discriminate. injection Ht as <-.
  apply rbind_inl in H as (st5 & _ & H). cbn beta in H. unfold ret in H. injection H as <-.
  exists tx. do 3 eexists. split; [|reflexivity].
  destruct (Json.get result "extracted_text" (JStr "")); [injection Hg as ->; reflexivity | discriminate].
Qed.

Lemma rendered_return o r : rendered o = Return r -> o = Return r.
Proof. destruct o as [b| |]; simpl; [destruct (renders b); congruence | discriminate | discriminate]. Qed.

Lemma rendered_http o s : rendered o = HttpError s -> o = HttpError s \/ s = 500.
Proof. destruct o as [b| |]; simpl; [destruct (renders b); intro H; [|right]; congruence | now left | discriminate]. Qed.

Lemma dict_mem_get_none {A} (d : list (string * A)) k : dict_mem k d = false -> dict_get k d = None.
Proof.
  unfold dict_mem. induction d as [|[k' v] r IH]; simpl; [reflexivity|].
  intro H. apply orb_false_iff in H as [H1 H2]. rewrite H1. exact (IH H2).
Qed.

Lemma age_search_range ps ftl s : age_search ps ftl = inl (Some s) -> exists n, 0 < n < 150 /\ s = z_str n.
Proof.
  induction ps as [|p ps IH]; simpl; intro H; [discriminate|].
  destruct (re_search (pat p) ftl) as [cs|]; [|exact (IH H)].
  apply rbind_inl in H as (g & _ & H). cbn beta in H.
  apply rbind_inl in H as (v & _ & H). cbn beta in H.
  destruct ((0 <? v) && (v <? 150)) eqn:E; [|exact (IH H)].
  unfold ret in H. injection H as <-. apply andb_true_iff in E as [E1 E2].
  apply Z.ltb_lt in E1, E2. exists v. split; [lia | reflexivity].
Qed.

(** X9: [/extract-medical-data] answers 200, 400 or 500 and raises nothing
    else; it answers 400 exactly when the [file_url] is truthy and the
    [AWSTextExtractor] constructor raised a botocore [ClientError] (the
    HTTP 400 errors raised inside the [try] are turned into 500). *)
Theorem X9_medical_data_statuses init get_object ea request :
  match extract_medical_data init get_object ea request with
  | Return _ => True
  | HttpError s => s = 500 \/
      (s = 400 /\ init = InitClientError /\
       exists u, Json.assoc_last "file_url" request = Some u /\ py_truthy u = true)
  | OtherException => False
  end /\
  (init = InitClientError ->
   (exists u, Json.assoc_last "file_url" request = Some u /\ py_truthy u = true) ->
   extract_medical_data init get_object ea request = HttpError 400).
Proof.
  split.
  - destruct (extract_medical_data init get_object ea request) as [r|s|] eqn:R; [exact I| |].
    + apply rendered_http in R as [R | ->]; [|now left].
      unfold to_response in R.
      destruct (extract_medical_data_body init get_object ea request) as [r|e] eqn:E; [discriminate|].
      destruct (extract_medical_data_body_exc _ _ _ _ _ E) as [-> | [-> | [-> Hc]]];
        injection R as <-; auto.
      right. split; [reflexivity|]. split; [exact Hc|].
      unfold extract_medical_data_body in E.
      destruct (Json.assoc_last "file_url" request) as [u|]; [|discriminate].
      exists u. split; [reflexivity|]. destruct (py_truthy u); [reflexivity | discriminate].
    + unfold extract_medical_data, rendered, to_response in R.
      destruct (extract_medical_data_body init get_object ea request) as [b|[]];
        [destruct (renders b)|..]; discriminate.
  - intros -> (u & Hu & Ht). unfold extract_medical_data, extract_medical_data_body.
    rewrite Hu, Ht. reflexivity.
Qed.

(** X10: when the extractor's construction raises no [ClientError], a
    request whose [file_url] is missing, is not a string, or is a string the
    S3 pattern does not match (the empty string included) is answered 500:
    the [HTTPException(400)] raised for it is caught by the handler's own
    [except Exception]. *)
Theorem X10_bad_file_url_is_500 init get_object ea request :
  init <> InitClientError ->
  (forall url, Json.assoc_last "file_url" request = Some (JStr url) -> re_match s3_pattern url = None) ->
  extract_medical_data init get_object ea request = HttpError 500.
Proof.
  intros Hi H. unfold extract_medical_data, extract_medical_data_body.
  destruct (Json.assoc_last "file_url" request) as [u|]; [|reflexivity].
  destruct (negb (py_truthy u)); [reflexivity|].
  destruct init; [|congruence|reflexivity]. cbn [rbind ret].
  destruct u as [| | |url| |]; try reflexivity. cbn [rbind ret].
  rewrite (H url eq_refl). reflexivity.
Qed.

Lemma X10_bad_file_url_is_500_witness :
  InitOk <> InitClientError /\
  (forall url, Json.assoc_last "file_url" [("file_url", JStr "http://example.com/notes.txt")] = Some (JStr url) ->
               re_match s3_pattern url = None) /\
  extract_medical_data InitOk (fun _ _ => Some "Age: 40") (analyze_with [] [])
    [("file_url", JStr "http://example.com/notes.txt")] = HttpError 500.
Proof.
  assert (Hi : InitOk <> InitClientError) by discriminate.
  assert (H : forall url, Json.assoc_last "file_url" [("file_url", JStr "http://example.com/notes.txt")] =
                          Some (JStr url) -> re_match s3_pattern url = None)
    by (intros url Hu; injection Hu as <-; vm_compute; reflexivity).
  split; [exact Hi|]. split; [exact H | exact (X10_bad_file_url_is_500 _ _ _ _ Hi H)].
Defined.

(** X11: when the extractor's construction raises no [ClientError] and the
    object named by the URL cannot be read from S3, the answer is 500,
    whatever [extract_and_analyze] would do. *)
Theorem X11_failed_download_is_500 init get_object ea request url cs b k :
  init <> InitClientError ->
  Json.assoc_last "file_url" request = Some (JStr url) -> re_match s3_pattern url = Some cs ->
  group url cs 1%nat = Some b -> group url cs 2%nat = Some k -> get_object b k = None ->
  extract_medical_data init get_object ea request = HttpError 500.
Proof.
  intros Hi Hu Hm H1 H2 Hg. unfold extract_medical_data, extract_medical_data_body.
  rewrite Hu, (MedicalDataProofs.url_nonempty url cs Hm). cbn [negb rbind ret].
  destruct init; [|congruence|reflexivity]. cbn [rbind ret].
  rewrite Hm. cbn [rbind of_opt]. rewrite H1, H2. cbn [rbind of_opt]. rewrite Hg. reflexivity.
Qed.

Lemma X11_failed_download_is_500_witness :
  exists cs, re_match s3_pattern "https://records.s3.amazonaws.com/patient/notes.txt" = Some cs /\
  extract_medical_data InitOk (fun _ _ => None) (analyze_with [] []) sample_request = HttpError 500.
Proof.
  destruct (re_match s3_pattern "https://records.s3.amazonaws.com/patient/notes.txt") as [cs|] eqn:Hm;
    [| vm_compute in Hm; discriminate].
  exists cs. split; [reflexivity|].
  apply (X11_failed_download_is_500 _ _ _ _ "https://records.s3.amazonaws.com/patient/notes.txt" cs
           "records" "patient/notes.txt"); [discriminate | reflexivity | exact Hm | | | reflexivity];
    vm_compute in Hm; injection Hm as <-; reflexivity.
Defined.

(** X12: a successful answer comes from the object downloaded under the
    bucket and key of the [file_url] and from [extract_and_analyze]'s result
    on it: [success] is true, [raw_text] and [clinical_notes] are the
    result's [extracted_text], [diagnosis] is that text cut to its first 500
    characters followed by "..." when it is longer, [lab_results] is empty
    and [raw_extraction] is the result itself. *)
Theorem X12_success_response_text_fields init get_object ea request r :
  extract_medical_data init get_object ea request = Return r ->
  Json.getitem r "success" = Some (JBool true) /\
  exists url cs b k content ext result text,
    Json.assoc_last "file_url" request = Some (JStr url) /\
    re_match s3_pattern url = Some cs /\ group url cs 1%nat = Some b /\ group url cs 2%nat = Some k /\
    get_object b k = Some content /\
    file_extension_of (match Json.assoc_last "file_name" request with
                       | Some v => v | None => JStr "medical-document" end) = inl ext /\
    ea {| call_file := content; call_file_type := ext; call_include_ner := true |} = Some result /\
    Json.get result "extracted_text" (JStr "") = Some (JStr text) /\
    data_field (Return r) "raw_text" = Some (JStr text) /\
    data_field (Return r) "clinical_notes" = Some (JStr text) /\
    data_field (Return r) "diagnosis" =
      Some (JStr (if 500 <? Z.of_nat (Py.str_len text) then (Py.str_take 500 text ++ "...")%string else text)) /\
    data_field (Return r) "lab_results" = Some (JObj []) /\
    data_field (Return r) "raw_extraction" = Some result.
Proof.
  unfold extract_medical_data. intro H. apply rendered_return in H. unfold to_response in H.
  destruct (extract_medical_data_body init get_object ea request) as [r'|[s| |]] eqn:E; try discriminate.
  injection H as <-.
  destruct (extract_medical_data_body_inl _ _ _ _ _ E)
    as (url & cs & b & k & content & ext & result & Hu & Hm & Hb & Hk & Hg & Hext & Hea & Hh).
  destruct (handle_extraction_inl _ _ _ Hh) as (text & a & pi & vs & Ht & ->).
  split; [reflexivity|]. exists url, cs, b, k, content, ext, result, text.
  repeat split; assumption.
Qed.

Lemma X12_success_response_text_fields_witness :
  exists r,
  extract_medical_data InitOk (fun _ _ => Some "Patient: Jane Doe") (analyze_with [] []) sample_request = Return r /\
  Json.getitem r "success" = Some (JBool true) /\
  exists url cs b k content ext result text,
    Json.assoc_last "file_url" sample_request = Some (JStr url) /\
    re_match s3_pattern url = Some cs /\ group url cs 1%nat = Some b /\ group url cs 2%nat = Some k /\
    (fun _ _ => Some "Patient: Jane Doe") b k = Some content /\
    file_extension_of (match Json.assoc_last "file_name" sample_request with
                       | Some v => v | None => JStr "medical-document" end) = inl ext /\
    analyze_with [] [] {| call_file := content; call_file_type := ext; call_include_ner := true |} = Some result /\
    Json.get result "extracted_text" (JStr "") = Some (JStr text) /\
    data_field (Return r) "raw_text" = Some (JStr text) /\
    data_field (Return r) "clinical_notes" = Some (JStr text) /\
    data_field (Return r) "diagnosis" =
      Some (JStr (if 500 <? Z.of_nat (Py.str_len text) then (Py.str_take 500 text ++ "...")%string else text)) /\
    data_field (Return r) "lab_results" = Some (JObj []) /\
    data_field (Return r) "raw_extraction" = Some result.
Proof.
  eexists.
  assert (E : extract_medical_data InitOk (fun _ _ => Some "Patient: Jane Doe") (analyze_with [] []) sample_request =
              Return _) by (vm_compute; reflexivity).
  split; [exact E | exact (X12_success_response_text_fields _ _ _ _ _ E)].
Defined.

(** X13: the full-text fallback leaves a present age as it is, and, run for
    an age still missing, records only an integer between 1 and 149. *)
Theorem X13_full_text_age_in_range ftl a vs a' vs' v :
  full_text_stage ftl (a, vs) = inl (a', vs') ->
  (dict_mem "age" (patient_info a) = true ->
     dict_get "age" (patient_info a') = dict_get "age" (patient_info a)) /\
  (dict_mem "age" (patient_info a) = false ->
     dict_get "age" (patient_info a') = Some v -> exists n, 0 < n < 150 /\ v = JStr (z_str n)).
Proof.
  intros H. split.
  { intros Hm. exact (proj2 (MedicalDataProofs.full_text_stage_keeps _ _ _ _ _ H "age" Hm)). }
  intros Hm Hv. unfold full_text_stage in H. cbn iota in H.
  apply rbind_inl in H as (a1 & H1 & H). cbn beta in H.
  apply rbind_inl in H as (a2 & H2 & H). cbn beta in H.
  assert (Ha1 : dict_get "age" (patient_info a1) = None \/ exists s, age_search full_age_patterns ftl = inl (Some s) /\
                dict_get "age" (patient_info a1) = Some (JStr s)).
  { unfold fill_missing in H1. rewrite Hm in H1. cbn [negb] in H1.
    apply rbind_inl in H1 as (o & Ho & H1). unfold ret in H1. injection H1 as <-.
    destruct o as [s|]; [right; exists s; split; [exact Ho|] | left; now apply dict_mem_get_none].
    cbn [set_info patient_info]. rewrite MedicalDataProofs.dict_get_set. reflexivity. }
  assert (Ha2 : dict_get "age" (patient_info a2) = dict_get "age" (patient_info a1)).
  { unfold fill_missing in H2. destruct (negb _); cbn [rbind] in H2; [|unfold ret in H2; now injection H2 as <-].
    apply rbind_inl in H2 as (o & _ & H2). unfold ret in H2. injection H2 as <-.
    destruct o; [|reflexivity]. cbn [set_info patient_info]. rewrite MedicalDataProofs.dict_get_set. reflexivity. }
  assert (Ha' : dict_get "age" (patient_info a') = dict_get "age" (patient_info a2)).
  { destruct (negb _); [|unfold ret in H; now injection H as <- <-].
    apply rbind_inl in H as (o & _ & H). unfold ret in H.
    destruct o; injection H as <- <-; [|reflexivity].
    cbn [set_info patient_info]. rewrite MedicalDataProofs.dict_get_set. reflexivity. }
  rewrite Ha', Ha2 in Hv. destruct Ha1 as [Hn | (s & Hs & Hg)]; [congruence|].
  rewrite Hg in Hv. injection Hv as <-.
  destruct (age_search_range _ _ _ Hs) as (n & Hn & ->). now exists n.
Qed.

Lemma X13_full_text_age_in_range_witness :
  exists a' vs',
  full_text_stage "the patient is 45 years old" (acc0, []) = inl (a', vs') /\
  dict_mem "age" (patient_info acc0) = false /\
  dict_get "age" (patient_info a') = Some (JStr "45") /\
  exists n, 0 < n < 150 /\ JStr "45" = JStr (z_str n).
Proof.
  do 2 eexists.
  assert (E : full_text_stage "the patient is 45 years old" (acc0, []) = inl (_, _)) by (vm_compute; reflexivity).
  assert (Hm : dict_mem "age" (patient_info acc0) = false) by reflexivity.
  assert (Hg : dict_get "age" (patient_info {| patient_info := [("age", JStr "45")]; medications := [];
                                                               medical_conditions := [] |}) = Some (JStr "45"))
    by reflexivity.
  split; [exact E|]. split; [exact Hm|]. split; [exact Hg|].
  exact (proj2 (X13_full_text_age_in_range _ _ _ _ _ _ E) Hm Hg).
Defined.



(** X15: the medication-line pass only appends to [medications], at most one
    entry per line, each with duration "As prescribed"; it leaves
    [patient_info] and [medical_conditions] unchanged. *)
Theorem X15_medication_pass_appends (lines : list string) (a : acc) :
  exists added,
    medications (fold_left medication_line lines a) = medications a ++ added /\
    (length added <= length lines)%nat /\
    Forall (fun m => Json.getitem m "duration" = Some (JStr "As prescribed")) added /\
    patient_info (fold_left medication_line lines a) = patient_info a /\
    medical_conditions (fold_left medication_line lines a) = medical_conditions a.
Proof.
  revert a. induction lines as [|l lines IH]; intro a; simpl.
  - exists []. rewrite app_nil_r. repeat split; constructor.
  - assert (Hl : medication_line a l = a \/ exists n d,
                   medication_line a l = add_med a (JObj [("name", JStr n); ("medication_name", JStr n);
                                                          ("dosage", JStr d); ("duration", JStr "As prescribed")])).
    { unfold medication_line. cbn zeta.
      destruct (_ && _); [|now left].
      match goal with |- context [match ?x with Some _ => _ | None => _ end] => destruct x as [n|] end;
        [|now left].
      right. do 2 eexists. reflexivity. }
    destruct (IH (medication_line a l)) as (added & H1 & H2 & H3 & H4 & H5).
    destruct Hl as [Hl | (n & d & Hl)]; rewrite Hl in H1, H4, H5 |- *.
    + exists added. repeat split; auto.
    + exists (JObj [("name", JStr n); ("medication_name", JStr n); ("dosage", JStr d);
                   ("duration", JStr "As prescribed")] :: added).
      rewrite H1. cbn [add_med medications]. rewrite <- app_assoc.
      split; [reflexivity|]. split; [simpl; lia|]. split; [constructor; [reflexivity | exact H3]|].
      split; assumption.
Qed.

End MedicalDataExtraProofs.

(** ** text_extraction.py and text_extraction_routes.py: results and responses *)
Module TextAnalysisProofs.
Import TextExtraction Routes MedicalData TextAnalysis.
Local Open Scope Z_scope.

(** [_extract_text] extracts exactly for the file types
    [_get_extraction_method] names, and otherwise raises before any call. *)
Lemma extract_text_cases be file ft :
  (exists cs t, extract_text be file ft = (cs, Extracted t) /\ get_extraction_method ft <> "Unknown") \/
  (extract_text be file ft = ([], UnsupportedFileType (Py.lower ft)) /\ get_extraction_method ft = "Unknown").
Proof.
  unfold extract_text, get_extraction_method, extraction_methods. cbv zeta.
  remember (Py.lower ft) as l eqn:Hl; clear Hl. cbn [dict_get].
  rewrite (String.eqb_sym "pdf" l), (String.eqb_sym "docx" l), (String.eqb_sym "doc" l),
    (String.eqb_sym "json" l), (String.eqb_sym "txt" l).
  destruct (String.eqb l "pdf");
    [left; destruct (extract_from_pdf be file) as [cs t]; exists cs, t; split; [reflexivity | discriminate]|].
  destruct (String.eqb l "docx"); cbn [orb];
    [left; destruct (extract_from_word be file) as [cs t]; exists cs, t; split; [reflexivity | discriminate]|].
  destruct (String.eqb l "doc");
    [left; destruct (extract_from_word be file) as [cs t]; exists cs, t; split; [reflexivity | discriminate]|].
  destruct (String.eqb l "json");
    [left; destruct (extract_from_json be file) as [cs t]; exists cs, t; split; [reflexivity | discriminate]|].
  destruct (String.eqb l "txt");
    [left; destruct (extract_from_text be file) as [cs t]; exists cs, t; split; [reflexivity | discriminate]|].
  right. split; reflexivity.
Qed.

(** [get_file_type] only gives types the extractor supports. *)
Lemma get_file_type_supported f : get_extraction_method (get_file_type f) <> "Unknown".
Proof.
  unfold get_file_type.
  repeat match goal with |- context [if ?b then _ else _] => destruct b end;
    vm_compute; discriminate.
Qed.

Lemma analyzer_some be ner c :
  get_extraction_method (call_file_type c) <> "Unknown" ->
  exists cs t, extract_text be (call_file c) (call_file_type c) = (cs, Extracted t) /\
    analyzer be ner c =
      Some (JObj ([("extracted_text", JStr t); ("file_type", JStr (call_file_type c));
                   ("text_length", py_len t);
                   ("extraction_method", JStr (get_extraction_method (call_file_type c)))] ++
                  (if call_include_ner c && negb (String.eqb t "") then [("ner_analysis", ner t)] else []))).
Proof.
  intro H.
  destruct (extract_text_cases be (call_file c) (call_file_type c)) as [[cs [t [E _]]] | [_ E]];
    [| contradiction].
  exists cs, t. split; [exact E|].
  unfold analyzer, extract_and_analyze. rewrite E.
  destruct (call_include_ner c && negb (String.eqb t "")); [reflexivity|].
  rewrite app_nil_r. reflexivity.
Qed.

(** The upload handlers on a named upload within the size limit. *)
Lemma upload_handler_named be ner inc f c s :
  filename f = Some (String c s) ->
  Z.of_nat (String.length (file_content f)) <= max_upload_size ->
  exists cs t,
    extract_text be (file_content f) (get_file_type f) = (cs, Extracted t) /\
    snd (upload_handler (analyzer be ner) inc f) =
      Return (JObj ([("extracted_text", JStr t); ("file_type", JStr (get_file_type f));
                     ("text_length", py_len t);
                     ("extraction_method", JStr (get_extraction_method (get_file_type f)))] ++
                    (if inc && negb (String.eqb t "") then [("ner_analysis", ner t)] else []))).
Proof.
  intros Hf Hsz.
  destruct (analyzer_some be ner
              {| call_file := file_content f; call_file_type := get_file_type f; call_include_ner := inc |}
              (get_file_type_supported f)) as [cs [t [E A]]].
  exists cs, t. split; [exact E|].
  unfold upload_handler. rewrite Hf.
  destruct (Z.ltb_spec max_upload_size (Z.of_nat (String.length (file_content f)))); [lia|].
  cbv zeta. rewrite A. reflexivity.
Qed.

(** [snd (perform_ner ...)] when [detect_entities_v2] and its entities went through. *)
Lemma perform_ner_second_stage (de dp : pystr -> comprehend_reply) msg psl t ents :
  let r := nbind (comprehend (dp t)) (fun pr =>
           nbind (process_entities msg (phi_entity_record msg) pr) (fun phi_entities =>
           nbind (set_of_field msg psl "category" ents) (fun categories =>
           nbind (set_of_field msg psl "type" ents) (fun types =>
           nret (JObj [("medical_entities", JArr ents); ("phi_entities", JArr phi_entities);
                       ("total_medical_entities", JNum (z_str (Z.of_nat (length ents))));
                       ("total_phi_entities", JNum (z_str (Z.of_nat (length phi_entities))));
                       ("categories", JArr categories); ("types", JArr types)]))))) in
  (exists m, r = inr m) \/
  (exists phis cats tys, r = inl (JObj [("medical_entities", JArr ents); ("phi_entities", JArr phis);
                       ("total_medical_entities", JNum (z_str (Z.of_nat (length ents))));
                       ("total_phi_entities", JNum (z_str (Z.of_nat (length phis))));
                       ("categories", JArr cats); ("types", JArr tys)])).
Proof.
  cbv zeta.
  destruct (comprehend (dp t)) as [pr|m]; cbn [nbind]; [|left; eauto].
  destruct (process_entities msg (phi_entity_record msg) pr) as [phis|m]; cbn [nbind]; [|left; eauto].
  destruct (set_of_field msg psl "category" ents) as [cats|m]; cbn [nbind]; [|left; eauto].
  destruct (set_of_field msg psl "type" ents) as [tys|m]; cbn [nbind]; [|left; eauto].
  right. exists phis, cats, tys. reflexivity.
Qed.

(** X16 (text_extraction.py, [extract_and_analyze]): a result of
    [extract_and_analyze] holds the text [_extract_text] returned, the file
    type as given, [len(text)], and an extraction method other than
    "Unknown"; [_perform_ner] is called, on that text, exactly when NER was
    asked for and the text is not empty, and only then is there an
    [ner_analysis] entry, holding its result. *)
Theorem X16_extract_and_analyze_result be ner file ft inc calls texts r :
  extract_and_analyze be ner file ft inc = (calls, texts, Some r) ->
  exists t,
    extract_text be file ft = (calls, Extracted t) /\
    Json.getitem r "extracted_text" = Some (JStr t) /\
    Json.getitem r "file_type" = Some (JStr ft) /\
    Json.getitem r "text_length" = Some (py_len t) /\
    Json.getitem r "extraction_method" = Some (JStr (get_extraction_method ft)) /\
    get_extraction_method ft <> "Unknown" /\
    (if inc && negb (String.eqb t "")
     then texts = [t] /\ Json.getitem r "ner_analysis" = Some (ner t)
     else texts = [] /\ Json.getitem r "ner_analysis" = None).
Proof.
  unfold extract_and_analyze.
  destruct (extract_text_cases be file ft) as [[cs [t [E Hm]]] | [E Hm]]; rewrite E;
    [| discriminate].
  destruct (inc && negb (String.eqb t "")) eqn:B; intro H; injection H as <- <- <-;
    exists t; rewrite B; repeat split; auto.
Qed.

Lemma X16_extract_and_analyze_result_witness :
  exists calls texts r,
  extract_and_analyze ExtractionInputs.sample_backends (fun _ => JNull) "hi" "TXT" true = (calls, texts, Some r) /\
  exists t,
    extract_text ExtractionInputs.sample_backends "hi" "TXT" = (calls, Extracted t) /\
    Json.getitem r "extracted_text" = Some (JStr t) /\
    Json.getitem r "file_type" = Some (JStr "TXT") /\
    Json.getitem r "text_length" = Some (py_len t) /\
    Json.getitem r "extraction_method" = Some (JStr (get_extraction_method "TXT")) /\
    get_extraction_method "TXT" <> "Unknown" /\
    (if true && negb (String.eqb t "")
     then texts = [t] /\ Json.getitem r "ner_analysis" = Some ((fun _ => JNull) t)
     else texts = [] /\ Json.getitem r "ner_analysis" = None).
Proof.
  do 3 eexists. split; [vm_compute; reflexivity|].
  apply (X16_extract_and_analyze_result ExtractionInputs.sample_backends (fun _ => JNull) "hi" "TXT" true).
  vm_compute. reflexivity.
Defined.

(** X17 (text_extraction.py, [extract_and_analyze] and
    [_get_extraction_method]): [extract_and_analyze] raises exactly for the
    file types [_get_extraction_method] calls "Unknown", and then it has made
    no extraction call and given no text to [_perform_ner]. *)
Theorem X17_extract_and_analyze_unsupported be ner file ft inc :
  match snd (extract_and_analyze be ner file ft inc) with
  | None => get_extraction_method ft = "Unknown" /\ fst (extract_and_analyze be ner file ft inc) = ([], [])
  | Some _ => get_extraction_method ft <> "Unknown"
  end.
Proof.
  unfold extract_and_analyze.
  destruct (extract_text_cases be file ft) as [[cs [t [E Hm]]] | [E Hm]]; rewrite E.
  - destruct (inc && negb (String.eqb t "")); exact Hm.
  - split; [exact Hm | reflexivity].
Qed.



(** The rendered answer of [notes.txt] is a 200. *)
Example text_upload_renders :
  text_and_ner_response ExtractionInputs.sample_backends (fun _ => JNull) ({| filename := Some "notes.txt"; content_type := Some "text/plain"; file_content := "hello" |}) true <> HttpError 500.
Proof. vm_compute. discriminate. Qed.

(** The statuses of the upload handlers with the extractor. *)
Lemma upload_handler_statuses be ner inc f :
  match snd (upload_handler (analyzer be ner) inc f) with
  | Return _ => True
  | HttpError s => (s = 400 /\ (filename f = None \/ filename f = Some "")) \/
                   (s = 413 /\ max_upload_size < Z.of_nat (String.length (file_content f)))
  | OtherException => False
  end.
Proof.
  destruct (filename f) as [[|c s]|] eqn:Hf.
  - unfold upload_handler. rewrite Hf. left. auto.
  - destruct (Z_le_gt_dec (Z.of_nat (String.length (file_content f))) max_upload_size) as [L|G].
    + destruct (upload_handler_named be ner inc f c s Hf L) as [cs [t [_ ->]]]. exact I.
    + unfold upload_handler. rewrite Hf. cbv zeta.
      rewrite (proj2 (Z.ltb_lt _ _) (Z.gt_lt _ _ G)). right. split; [reflexivity | lia].
  - unfold upload_handler. rewrite Hf. left. auto.
Qed.

(** X19 (text_extraction_routes.py, [extract_text_and_ner] and
    [extract_text_only]): the two upload handlers answer 200, 400 for a
    missing or empty file name, 413 for content over 10 MiB, or 500 only
    when the extraction succeeded and its [JSONResponse] does not render. *)
Theorem X19_upload_endpoint_statuses be ner f inc :
  match text_and_ner_response be ner f inc with
  | Return _ => True
  | HttpError s => (s = 400 /\ (filename f = None \/ filename f = Some "")) \/
                   (s = 413 /\ max_upload_size < Z.of_nat (String.length (file_content f))) \/
                   (s = 500 /\ exists r, snd (extract_text_and_ner (analyzer be ner) f inc) = Return r /\
                      renders (envelope "Text extraction and analysis completed successfully"
                                 (with_metadata f r)) = false)
  | OtherException => False
  end /\
  match text_only_response be ner f with
  | Return _ => True
  | HttpError s => (s = 400 /\ (filename f = None \/ filename f = Some "")) \/
                   (s = 413 /\ max_upload_size < Z.of_nat (String.length (file_content f))) \/
                   (s = 500 /\ exists r, snd (extract_text_only (analyzer be ner) f) = Return r /\
                      renders (envelope "Text extraction completed successfully" (with_metadata f r)) = false)
  | OtherException => False
  end.
Proof.
  unfold text_and_ner_response, text_only_response, extract_text_and_ner, extract_text_only.
  pose proof (upload_handler_statuses be ner inc f) as A.
  pose proof (upload_handler_statuses be ner false f) as B.
  split.
  - destruct (snd (upload_handler (analyzer be ner) inc f)) as [r|s|]; try contradiction.
    + cbv zeta. destruct (renders _) eqn:R; [exact I|].
      right; right. split; [reflexivity|]. exists r. split; [reflexivity | exact R].
    + destruct A as [A|A]; [left | right; left]; exact A.
  - destruct (snd (upload_handler (analyzer be ner) false f)) as [r|s|]; try contradiction.
    + cbv zeta. destruct (renders _) eqn:R; [exact I|].
      right; right. split; [reflexivity|]. exists r. split; [reflexivity | exact R].
    + destruct B as [B|B]; [left | right; left]; exact B.
Qed.

(** X20 (text_extraction_routes.py, [analyze_ner_only]): [POST
    /extract/ner-only] never answers 500: 400 when the text is empty or only
    whitespace, 413 when it is longer than 20000 characters, and otherwise
    200 with [len(text)] and the result of [_perform_ner] on the text. *)
Theorem X20_ner_only_statuses ner text :
  match ner_only_response ner text with
  | Return d => Py.strip text <> "" /\ Z.of_nat (Py.str_len text) <= 20000 /\
      d = envelope "NER analysis completed successfully"
            (JObj [("text_length", py_len text); ("ner_analysis", ner text)])
  | HttpError s => (s = 400 /\ Py.strip text = "") \/
                   (s = 413 /\ Py.strip text <> "" /\ 20000 < Z.of_nat (Py.str_len text))
  | OtherException => False
  end.
Proof.
  unfold ner_only_response, analyze_ner_only.
  destruct (String.eqb_spec text "") as [->|H1]; [left; split; reflexivity|].
  destruct (String.eqb_spec (Py.strip text) "") as [H2|H2]; cbn [orb].
  - left. split; [reflexivity | exact H2].
  - destruct (Z.ltb_spec 20000 (Z.of_nat (Py.str_len text))); cbn [snd].
    + right. auto.
    + auto.
Qed.

(** X21 (text_extraction.py, [_perform_ner]): whatever Comprehend Medical
    replies, the dict [_perform_ner] returns has lists of medical and PHI
    entities whose totals are their lengths ("0" and "0" in the error
    dict). *)
Theorem X21_perform_ner_totals de dp msg psl text :
  exists es ps,
    Json.getitem (snd (perform_ner de dp msg psl text)) "medical_entities" = Some (JArr es) /\
    Json.getitem (snd (perform_ner de dp msg psl text)) "total_medical_entities" =
      Some (JNum (z_str (Z.of_nat (length es)))) /\
    Json.getitem (snd (perform_ner de dp msg psl text)) "phi_entities" = Some (JArr ps) /\
    Json.getitem (snd (perform_ner de dp msg psl text)) "total_phi_entities" =
      Some (JNum (z_str (Z.of_nat (length ps)))).
Proof.
  unfold perform_ner.
  destruct (ner_submission (pystr_of_string text)) as [t|];
    [| exists [], []; repeat split; reflexivity].
  match goal with |- context [match ?x with inl _ => _ | inr _ => _ end] => destruct x as [ents|m] end;
    [| exists [], []; repeat split; reflexivity].
  destruct (perform_ner_second_stage de dp msg psl t ents) as [[m E] | [phis [cats [tys E]]]];
    cbv zeta in E; rewrite E.
  - exists [], []. repeat split; reflexivity.
  - exists ents, phis. repeat split; reflexivity.
Qed.

(** X22 (text_extraction.py, [_perform_ner]): when [detect_entities_v2]
    raises, [detect_phi] is not called and the error dict carries the
    exception's message. *)
Theorem X22_entities_error_stops de dp msg psl text t b m :
  ner_submission (pystr_of_string text) = Some t ->
  de t = ComprehendRaised b m ->
  perform_ner de dp msg psl text = ([(DetectEntitiesV2, t)], ner_error m).
Proof.
  intros H1 H2. unfold perform_ner. rewrite H1, H2. reflexivity.
Qed.

Lemma X22_entities_error_stops_witness :
  ner_submission (pystr_of_string "ab") = Some [97; 98] /\
  (fun _ : pystr => ComprehendRaised true "denied") [97; 98] = ComprehendRaised true "denied" /\
  perform_ner (fun _ => ComprehendRaised true "denied") (fun _ => ComprehendOk JNull) "" (fun l => l) "ab" =
    ([(DetectEntitiesV2, [97; 98])], ner_error "denied").
Proof.
  assert (H1 : ner_submission (pystr_of_string "ab") = Some [97; 98]) by (vm_compute; reflexivity).
  assert (H2 : (fun _ : pystr => ComprehendRaised true "denied") [97; 98] = ComprehendRaised true "denied")
    by reflexivity.
  split; [exact H1|]. split; [exact H2|].
  exact (X22_entities_error_stops _ (fun _ => ComprehendOk JNull) "" (fun l => l) "ab" [97; 98] true "denied" H1 H2).
Defined.

(** X23 (text_extraction.py, [_perform_ner]): [_perform_ner] calls
    Comprehend Medical on nothing when the encoding step raises; otherwise it
    calls [detect_entities_v2] and then possibly [detect_phi], both on the
    same submitted text. *)
Theorem X23_perform_ner_calls de dp msg psl text :
  match ner_submission (pystr_of_string text) with
  | None => perform_ner de dp msg psl text = ([], ner_error msg)
  | Some t => fst (perform_ner de dp msg psl text) = [(DetectEntitiesV2, t)] \/
              fst (perform_ner de dp msg psl text) = [(DetectEntitiesV2, t); (DetectPhi, t)]
  end.
Proof.
  unfold perform_ner.
  destruct (ner_submission (pystr_of_string text)) as [t|]; [|reflexivity].
  repeat match goal with |- context [match ?x with inl _ => _ | inr _ => _ end] => destruct x end;
    cbn [fst app]; auto.
Qed.

(** A text holding a lone surrogate, as [json.loads] makes of ["\ud800"],
    cannot be encoded: it is not submitted. *)
Example ner_submission_lone_surrogate :
  match json_loads (dq "`\ud800`") with
  | Some (JStr s) => ner_submission (pystr_of_string s) = None
  | _ => False
  end.
Proof. vm_compute. reflexivity. Qed.

End TextAnalysisProofs.

(** ** care_plan.py and care_plan_routes.py: model errors, model listing, routes *)
Module CarePlanRoutesProofs.
Import CarePlanModule Routes MedicalData CarePlanRoutes.
Local Open Scope Z_scope.

Lemma assoc_last_app (k : string) (fs gs : list (string * json)) :
  Json.assoc_last k (fs ++ gs) =
  match Json.assoc_last k gs with Some w => Some w | None => Json.assoc_last k fs end.
Proof.
  induction fs as [|[k' v] fs IH]; simpl.
  - destruct (Json.assoc_last k gs); reflexivity.
  - rewrite IH. destruct (Json.assoc_last k gs); reflexivity.
Qed.

Lemma existsb_map_jstr (x : string) (l : list string) :
  existsb (fun y => match y with JStr s => String.eqb s x | _ => false end) (map JStr l) =
  existsb (fun s => String.eqb s x) l.
Proof. induction l as [|a l IH]; simpl; [reflexivity | rewrite IH; reflexivity]. Qed.

Lemma fold_res_stuck {A B} (f : A -> B -> res A) pre m post a :
  (forall a', exists e, f a' m = inr e) -> exists e, fold_res f (pre ++ m :: post) a = inr e.
Proof.
  intro Hm. revert a. induction pre as [|x pre IH]; intro a; simpl.
  - destruct (Hm a) as [e E]. rewrite E. exists e. reflexivity.
  - destruct (f a x) as [a'|e]; simpl; [apply IH | exists e; reflexivity].
Qed.



(** X24 (care_plan.py, [_analyze_model_error]): the analysis always has the
    four keys [error_type], [likely_cause], [recommendation] and
    [requires_action], in that order, with the error code as [error_type];
    the likely cause and the required action stay "Unknown" exactly for
    codes other than AccessDeniedException, ValidationException and
    ThrottlingException. *)
Theorem X24_analyze_model_error_shape code msg mid :
  map fst (analyze_model_error code msg mid) =
    ["error_type"; "likely_cause"; "recommendation"; "requires_action"] /\
  dict_get "error_type" (analyze_model_error code msg mid) = Some code /\
  (dict_get "likely_cause" (analyze_model_error code msg mid) = Some "Unknown" <->
   ~ In code ["AccessDeniedException"; "ValidationException"; "ThrottlingException"]) /\
  (dict_get "requires_action" (analyze_model_error code msg mid) = Some "Unknown" <->
   ~ In code ["AccessDeniedException"; "ValidationException"; "ThrottlingException"]).
Proof.
  unfold analyze_model_error.
  destruct (String.eqb_spec code "AccessDeniedException") as [->|H1].
  { destruct (Py.contains "inference profile" (Py.lower msg));
      [| destruct (Py.contains "payment" (Py.lower msg) || Py.contains "billing" (Py.lower msg))];
      cbn; (split; [reflexivity|]); (split; [reflexivity|]);
      split; split; try discriminate; intro H; exfalso; apply H; left; reflexivity. }
  destruct (String.eqb_spec code "ValidationException") as [->|H2].
  { destruct (Py.contains "throughput" (Py.lower msg));
      cbn; (split; [reflexivity|]); (split; [reflexivity|]);
      split; split; try discriminate; intro H; exfalso; apply H; right; left; reflexivity. }
  destruct (String.eqb_spec code "ThrottlingException") as [->|H3].
  { cbn; (split; [reflexivity|]); (split; [reflexivity|]);
      split; split; try discriminate; intro H; exfalso; apply H; right; right; left; reflexivity. }
  cbn. split; [reflexivity|]. split; [reflexivity|].
  assert (N : ~ In code ["AccessDeniedException"; "ValidationException"; "ThrottlingException"])
    by (simpl; intuition).
  split; split; auto.
Qed.

(** X25 (care_plan.py, [list_available_models]): on a listing whose
    summaries each carry a [modelId] and a list of output modalities, the
    IDs returned are those of the summaries with TEXT among their output
    modalities, in the listing's order. *)
Theorem X25_list_models_text_ids (extra : list (string * json))
    (l : list (list (string * json) * string * list string)) :
  list_available_models
    (Some (JObj (extra ++ [("modelSummaries",
       JArr (map (fun '(fs, id, oms) =>
                    JObj (fs ++ [("modelId", JStr id); ("outputModalities", JArr (map JStr oms))])) l))]))) =
  map (fun '(_, id, _) => JStr id)
    (filter (fun '(_, _, oms) => existsb (fun s => String.eqb s "TEXT") oms) l).
Proof.
  unfold list_available_models. cbn [of_opt rbind Json.get].
  rewrite assoc_last_app. cbn [Json.assoc_last String.eqb Ascii.eqb Bool.eqb py_iter of_opt rbind].
  match goal with |- match fold_res ?F ?L [] with inl _ => _ | inr _ => _ end = ?R =>
    assert (K : forall acc, fold_res F L acc = inl (acc ++ R)) end.
  { induction l as [|[[fs id] oms] l IH]; intro acc; cbn [map filter fold_res].
    - rewrite app_nil_r. reflexivity.
    - cbn [Json.get of_opt rbind]. rewrite assoc_last_app. cbn [Json.assoc_last String.eqb Ascii.eqb Bool.eqb].
      cbn [py_in of_opt rbind]. rewrite existsb_map_jstr.
      destruct (existsb (fun s => String.eqb s "TEXT") oms); cbn [Json.getitem of_opt rbind];
        [rewrite assoc_last_app | ]; cbn [Json.assoc_last String.eqb Ascii.eqb Bool.eqb of_opt rbind];
        unfold ret; cbn [rbind]; rewrite IH; cbn [map]; [rewrite <- app_assoc | ]; reflexivity. }
  rewrite K. reflexivity.
Qed.

(** X26 (care_plan.py, [list_available_models]): one summary with TEXT among
    its output modalities but no [modelId] makes the whole listing fall back
    to the fixed list of model IDs. *)
Theorem X26_list_models_missing_id_fallback r pre m post om :
  Json.get r "modelSummaries" (JArr []) = Some (JArr (pre ++ m :: post)) ->
  Json.get m "outputModalities" (JArr []) = Some om ->
  py_in "TEXT" om = Some true ->
  Json.getitem m "modelId" = None ->
  list_available_models (Some r) = map JStr fallback_model_ids.
Proof.
  intros H1 H2 H3 H4. unfold list_available_models. cbn [of_opt rbind].
  rewrite H1. cbn [of_opt rbind py_iter].
  match goal with |- match fold_res ?F _ [] with inl _ => _ | inr _ => _ end = _ =>
    destruct (fold_res_stuck F pre m post []) as [e E] end.
  - intro a'. rewrite H2. cbn [of_opt rbind]. rewrite H3. cbn [of_opt rbind]. rewrite H4.
    exists ExcOther. reflexivity.
  - rewrite E. reflexivity.
Qed.

Lemma X26_list_models_missing_id_fallback_witness :
  Json.get (JObj [("modelSummaries", JArr [JObj [("modelId", JStr "a"); ("outputModalities", JArr [JStr "IMAGE"])]; JObj [("modelName", JStr "Unnamed"); ("outputModalities", JArr [JStr "TEXT"])]])]) "modelSummaries" (JArr []) =
    Some (JArr ([JObj [("modelId", JStr "a"); ("outputModalities", JArr [JStr "IMAGE"])]] ++ (JObj [("modelName", JStr "Unnamed"); ("outputModalities", JArr [JStr "TEXT"])]) :: [])) /\
  Json.get (JObj [("modelName", JStr "Unnamed"); ("outputModalities", JArr [JStr "TEXT"])]) "outputModalities" (JArr []) = Some (JArr [JStr "TEXT"]) /\
  py_in "TEXT" (JArr [JStr "TEXT"]) = Some true /\
  Json.getitem (JObj [("modelName", JStr "Unnamed"); ("outputModalities", JArr [JStr "TEXT"])]) "modelId" = None /\
  list_available_models (Some (JObj [("modelSummaries", JArr [JObj [("modelId", JStr "a"); ("outputModalities", JArr [JStr "IMAGE"])]; JObj [("modelName", JStr "Unnamed"); ("outputModalities", JArr [JStr "TEXT"])]])])) = map JStr fallback_model_ids.
Proof.
  assert (H1 : Json.get (JObj [("modelSummaries", JArr [JObj [("modelId", JStr "a"); ("outputModalities", JArr [JStr "IMAGE"])]; JObj [("modelName", JStr "Unnamed"); ("outputModalities", JArr [JStr "TEXT"])]])]) "modelSummaries" (JArr []) =
    Some (JArr ([JObj [("modelId", JStr "a"); ("outputModalities", JArr [JStr "IMAGE"])]] ++ (JObj [("modelName", JStr "Unnamed"); ("outputModalities", JArr [JStr "TEXT"])]) :: []))) by reflexivity.
  assert (H2 : Json.get (JObj [("modelName", JStr "Unnamed"); ("outputModalities", JArr [JStr "TEXT"])]) "outputModalities" (JArr []) = Some (JArr [JStr "TEXT"])) by reflexivity.
  assert (H3 : py_in "TEXT" (JArr [JStr "TEXT"]) = Some true) by reflexivity.
  assert (H4 : Json.getitem (JObj [("modelName", JStr "Unnamed"); ("outputModalities", JArr [JStr "TEXT"])]) "modelId" = None) by reflexivity.
  split; [exact H1|]. split; [exact H2|]. split; [exact H3|]. split; [exact H4|].
  exact (X26_list_models_missing_id_fallback _ _ _ [] _ H1 H2 H3 H4).
Defined.



End CarePlanRoutesProofs.

(** [str.strip()] and [str.split()] treat U+00A0 (bytes C2 A0) as whitespace. *)
Example strip_split_nbsp :
  Py.strip (String "194" (String "160" (String "x" (String "194" (String "160" EmptyString))))) = "x"
  /\ Py.words (String "a" (String "194" (String "160" (String "b" EmptyString)))) = ["a"; "b"].
Proof. split; vm_compute; reflexivity. Qed.
